(** * debugfs namespace tree manager (fs/debugfs/inode.c)

    A shallow embedding of the dentry tree that [fs/debugfs/inode.c]
    maintains, of the operations the file exports (creation, removal,
    recursive removal, rename) and of the mount-option check.

    Conventions of the embedding:
    - a [struct dentry *] is either [NULL], an [ERR_PTR] or the address of a
      dentry; addresses are natural numbers and the dentries live in a finite
      map [dcache] from addresses to records (the shared store);
    - every debugfs inode belongs to exactly one dentry, so the inode is kept
      inside its dentry and [parent->d_inode] is addressed through [parent];
    - dereferencing an address that holds no dentry, or a NULL [d_inode], is a
      fault: the operations return [None] there;
    - the embedding is sequential: [mutex_lock]/[mutex_unlock] only leave the
      dereference of [->d_inode->i_mutex] behind, and the reference counts
      moved by [dget]/[dput] are not tracked: no dentry is ever freed, the
      creator's reference to a removed dentry stays valid;
    - outcomes that the environment decides (whether the backing store can be
      attached, whether an allocation succeeds) are explicit arguments. *)

From stdpp Require Import gmap strings list fin_maps.
From Stdlib Require Import ZArith Lia Ascii.

(** ** Constants *)

(* include/uapi/linux/stat.h and include/linux/stat.h (octal in the C text) *)
Definition S_IFMT : Z := 61440.     (* 0170000 *)
Definition S_IFLNK : Z := 40960.    (* 0120000 *)
Definition S_IFREG : Z := 32768.    (* 0100000 *)
Definition S_IFDIR : Z := 16384.    (* 0040000 *)
Definition S_ISVTX : Z := 512.      (* 0001000 *)
Definition S_IRWXU : Z := 448.      (* 00700 *)
Definition S_IRWXUGO : Z := 511.    (* 00777 *)
Definition S_IALLUGO : Z := 4095.   (* 07777 *)
Definition S_IRUGO : Z := 292.      (* 00444 *)
Definition S_IXUGO : Z := 73.       (* 00111 *)

Definition DEBUGFS_DEFAULT_MODE : Z := 493.  (* 0755 *)

(* include/uapi/asm-generic/errno-base.h, errno.h *)
Definition EPERM : Z := 1.
Definition ENOMEM : Z := 12.
Definition EEXIST : Z := 17.
Definition ENOTEMPTY : Z := 39.

Definition S_ISDIR (mode : Z) : bool := (Z.land mode S_IFMT =? S_IFDIR)%Z.
Definition S_ISLNK (mode : Z) : bool := (Z.land mode S_IFMT =? S_IFLNK)%Z.

(** ** Data model *)

(** The operation tables an inode can point to. *)
Inductive ops_ref :=
  | no_ops
  | debugfs_file_operations
  | debugfs_dir_operations
  | debugfs_link_operations
  | simple_dir_inode_operations
  | caller_ops (p : Z).

(** [i_private]: an opaque pointer of the creator, or the copied target
    string of a symbolic link. *)
Inductive private_data :=
  | opaque_data (p : Z)
  | link_target (s : string).

Record inode := mk_inode {
  i_mode : Z;
  i_nlink : Z;
  i_uid : Z;
  i_gid : Z;
  i_op : ops_ref;
  i_fop : ops_ref;
  pfops : ops_ref;
  i_private : private_data
}.

Record dentry := mk_dentry {
  d_name : string;
  d_parent : option nat;
  d_inode : option inode;
  d_unhashed : bool;
  d_mounted : bool;
  d_subdirs : list nat
}.

Inductive dentry_ptr :=
  | NULL
  | ERR_PTR (e : Z)
  | PTR (d : nat).

Definition IS_ERR (p : dentry_ptr) : bool :=
  match p with ERR_PTR _ => true | _ => false end.

Definition IS_ERR_OR_NULL (p : dentry_ptr) : bool :=
  match p with PTR _ => false | _ => true end.

(** The globals of the file ([debugfs_mount], [debugfs_mount_count]) and the
    dentries.  [debugfs_mount] holds the root dentry ([mnt_root]) of the
    mounted instance. *)
Record state := mk_state {
  dcache : gmap nat dentry;
  debugfs_mount : option nat;
  debugfs_mount_count : Z
}.

Definition set_dcache (m : gmap nat dentry) (st : state) : state :=
  mk_state m (debugfs_mount st) (debugfs_mount_count st).

Definition set_inode (i : option inode) (d : dentry) : dentry :=
  mk_dentry (d_name d) (d_parent d) i (d_unhashed d) (d_mounted d) (d_subdirs d).

Definition set_unhashed (b : bool) (d : dentry) : dentry :=
  mk_dentry (d_name d) (d_parent d) (d_inode d) b (d_mounted d) (d_subdirs d).

Definition set_subdirs (l : list nat) (d : dentry) : dentry :=
  mk_dentry (d_name d) (d_parent d) (d_inode d) (d_unhashed d) (d_mounted d) l.

Definition set_nlink (n : Z) (i : inode) : inode :=
  mk_inode (i_mode i) n (i_uid i) (i_gid i) (i_op i) (i_fop i) (pfops i)
           (i_private i).

(** [update d f st]: store [f] of the dentry at [d]. *)
Definition update (d : nat) (f : dentry → dentry) (st : state) : state :=
  set_dcache (alter f d (dcache st)) st.

Global Arguments update : simpl never.

(** Dereference of [d->d_inode]: a fault when [d] holds no dentry or the
    dentry is negative. *)
Definition inode_of (d : nat) (st : state) : option inode :=
  dcache st !! d ≫= d_inode.

(** [static inline int debugfs_positive(struct dentry *dentry)] *)
Definition debugfs_positive (d : dentry) : bool :=
  match d_inode d with
  | Some _ => negb (d_unhashed d)
  | None => false
  end.

Definition positive_at (st : state) (d : nat) : bool :=
  match dcache st !! d with
  | Some x => debugfs_positive x
  | None => false
  end.

(** ** Mount pin counter *)

(** What the environment answers when the backing store has to be attached:
    it fails, or it yields the root dentry of the mounted instance. *)
Inductive mount_outcome :=
  | mount_fails
  | mount_ok (root : nat).

(** Modelled from the spec: [simple_pin_fs] (fs/libfs.c is not among the
    sources).  "pin(): under its own lock, increments count; if the previous
    value was 0, performs the (external) backing-store attach; if attach
    fails, decrements back and returns failure" ([PermissionDenied]). *)
Definition simple_pin_fs (attach : mount_outcome) (st : state) : Z * state :=
  let previous := debugfs_mount_count st in
  let st1 := mk_state (dcache st) (debugfs_mount st) (previous + 1) in
  if (previous =? 0)%Z then
    match attach with
    | mount_ok root =>
        (0%Z, mk_state (dcache st1) (Some root) (debugfs_mount_count st1))
    | mount_fails =>
        ((- EPERM)%Z,
         mk_state (dcache st1) (debugfs_mount st1) (debugfs_mount_count st1 - 1))
    end
  else (0%Z, st1).

(** Modelled from the spec: [simple_release_fs] (fs/libfs.c).  "unpin():
    decrements count; if the new value is 0, performs backing-store
    detach." *)
Definition simple_release_fs (st : state) : state :=
  let count := (debugfs_mount_count st - 1)%Z in
  if (count =? 0)%Z then mk_state (dcache st) None count
  else mk_state (dcache st) (debugfs_mount st) count.

(** ** Inodes *)

(** Modelled from the spec: [inc_nlink]/[drop_nlink] (fs/inode.c): the link
    count "incremented"/"decremented" by one. *)
Definition inc_nlink (i : inode) : inode := set_nlink (i_nlink i + 1) i.
Definition drop_nlink (i : inode) : inode := set_nlink (i_nlink i - 1) i.

(** [inc_nlink(dir)]/[drop_nlink(dir)] on the inode of the dentry [dir]. *)
Definition on_inode (f : inode → inode) (dir : nat) (st : state) : option state :=
  _ ← inode_of dir st;
  Some (update dir (λ d, set_inode (f <$> d_inode d) d) st).

(** Modelled from the spec: [new_inode] (fs/inode.c) hands out an inode with
    one link, or NULL when memory is exhausted ([alloc_ok = false]); the
    source's own comment has a directory at two links after one
    [inc_nlink]. *)
Definition new_inode (alloc_ok : bool) : option inode :=
  if alloc_ok
  then Some (mk_inode 0 1 0 0 no_ops no_ops no_ops (opaque_data 0))
  else None.

(** [static struct inode *debugfs_get_inode(sb, mode, dev, data, fops)] *)
Definition debugfs_get_inode (alloc_ok : bool) (mode : Z) (data : private_data)
    (fops : option Z) : option inode :=
  match new_inode alloc_ok with
  | Some inode =>
      let inode := mk_inode mode (i_nlink inode) (i_uid inode) (i_gid inode)
                            (i_op inode) (i_fop inode) (pfops inode)
                            (i_private inode) in
      let fmt := Z.land mode S_IFMT in
      Some
        (if (fmt =? S_IFREG)%Z then
           mk_inode (i_mode inode) (i_nlink inode) (i_uid inode) (i_gid inode)
             (i_op inode) debugfs_file_operations
             (from_option caller_ops no_ops fops) data
         else if (fmt =? S_IFLNK)%Z then
           mk_inode (i_mode inode) (i_nlink inode) (i_uid inode) (i_gid inode)
             debugfs_link_operations (from_option caller_ops no_ops fops)
             (pfops inode) data
         else if (fmt =? S_IFDIR)%Z then
           (* directory inodes start off with i_nlink == 2 (for "." entry) *)
           inc_nlink
             (mk_inode (i_mode inode) (i_nlink inode) (i_uid inode) (i_gid inode)
                simple_dir_inode_operations
                (from_option caller_ops debugfs_dir_operations fops)
                (pfops inode) data)
         else (* init_special_inode *) inode)
  | None => None
  end.

(** ** Lookup and instantiation *)

Definition named_positive (st : state) (name : string) (c : nat) : bool :=
  match dcache st !! c with
  | Some x => debugfs_positive x && bool_decide (d_name x = name)
  | None => false
  end.

(** Modelled from the spec: [lookup_one_len] (fs/namei.c is not among the
    sources).  "performs a name lookup among current Positive children": the
    positive child of that name when there is one, otherwise a new negative
    dentry of that name under [parent], which is not yet among the children;
    when the lookup itself fails ([lookup_ok = false], memory exhausted) the
    result is an error pointer. *)
Definition lookup_one_len (lookup_ok : bool) (name : string) (parent : nat)
    (st : state) : option (dentry_ptr * state) :=
  if lookup_ok then
    p ← dcache st !! parent;
    match List.find (named_positive st name) (d_subdirs p) with
    | Some c => Some (PTR c, st)
    | None =>
        let d := fresh (dom (dcache st)) in
        Some (PTR d,
              set_dcache
                (<[d := mk_dentry name (Some parent) None false false []]>
                   (dcache st)) st)
    end
  else Some (ERR_PTR (- ENOMEM), st).

Global Arguments lookup_one_len : simpl never.

(** Modelled from the spec: [d_instantiate] (fs/dcache.c).  "allocates a new
    Node in Positive state, appends it to children": the dentry gets its
    inode and joins the children of its parent, at the end. *)
Definition d_instantiate (dentry : nat) (i : inode) (st : state) : option state :=
  d ← dcache st !! dentry;
  let st := update dentry (set_inode (Some i)) st in
  match d_parent d with
  | Some parent =>
      _ ← dcache st !! parent;
      Some (update parent (λ p, set_subdirs (d_subdirs p ++ [dentry]) p) st)
  | None => Some st
  end.

(** ** Creation *)

(** [static int debugfs_mknod(dir, dentry, mode, dev, data, fops)]; [dir] is
    the dentry whose inode the C code receives. *)
Definition debugfs_mknod (alloc_ok : bool) (dir dentry : nat) (mode : Z)
    (data : private_data) (fops : option Z) (st : state) : option (Z * state) :=
  d ← dcache st !! dentry;
  match d_inode d with
  | Some _ => Some ((- EEXIST)%Z, st)
  | None =>
      match debugfs_get_inode alloc_ok mode data fops with
      | Some i =>
          st ← d_instantiate dentry i st;
          Some (0%Z, st)
      | None => Some ((- EPERM)%Z, st)
      end
  end.

(** [static int debugfs_mkdir(dir, dentry, mode)] *)
Definition debugfs_mkdir (alloc_ok : bool) (dir dentry : nat) (mode : Z)
    (st : state) : option (Z * state) :=
  let mode := Z.lor (Z.land mode (Z.lor S_IRWXUGO S_ISVTX)) S_IFDIR in
  '(res, st) ← debugfs_mknod alloc_ok dir dentry mode (opaque_data 0) None st;
  if (res =? 0)%Z then
    st ← on_inode inc_nlink dir st;
    Some (res, st)
  else Some (res, st).

(** [static int debugfs_link(dir, dentry, mode, data)] *)
Definition debugfs_link (alloc_ok : bool) (dir dentry : nat) (mode : Z)
    (data : private_data) (st : state) : option (Z * state) :=
  let mode := Z.lor (Z.land mode S_IALLUGO) S_IFLNK in
  debugfs_mknod alloc_ok dir dentry mode data None st.

(** [static int debugfs_create(dir, dentry, mode, data, fops)] *)
Definition debugfs_create (alloc_ok : bool) (dir dentry : nat) (mode : Z)
    (data : private_data) (fops : option Z) (st : state) : option (Z * state) :=
  let mode := Z.lor (Z.land mode S_IALLUGO) S_IFREG in
  debugfs_mknod alloc_ok dir dentry mode data fops st.

(** What the environment decides during one creation. *)
Record env := mk_env {
  attach : mount_outcome;   (* vfs_kern_mount, when the store is detached *)
  lookup_ok : bool;         (* lookup_one_len *)
  alloc_ok : bool;          (* new_inode *)
  kstrdup_ok : bool         (* kstrdup of a link target *)
}.

(** [static struct dentry *__create_file(name, mode, parent, data, fops)] *)
Definition __create_file (e : env) (name : string) (mode : Z)
    (parent : dentry_ptr) (data : private_data) (fops : option Z)
    (st : state) : option (dentry_ptr * state) :=
  let '(error, st) := simple_pin_fs (attach e) st in
  if negb (error =? 0)%Z then Some (NULL, st)
  else
    parent ← match parent with
              | NULL => debugfs_mount st
              | PTR p => Some p
              | ERR_PTR _ => None
              end;
    _ ← inode_of parent st;
    '(dentry, st) ← lookup_one_len (lookup_ok e) name parent st;
    '(error, st) ← match dentry with
                    | PTR d =>
                        let fmt := Z.land mode S_IFMT in
                        if (fmt =? S_IFDIR)%Z then
                          debugfs_mkdir (alloc_ok e) parent d mode st
                        else if (fmt =? S_IFLNK)%Z then
                          debugfs_link (alloc_ok e) parent d mode data st
                        else
                          debugfs_create (alloc_ok e) parent d mode data fops st
                    | ERR_PTR err => Some (err, st)
                    | NULL => None
                    end;
    if negb (error =? 0)%Z then Some (NULL, simple_release_fs st)
    else Some (dentry, st).

(** [struct dentry *debugfs_create_file(name, mode, parent, data, fops)];
    [BUG()] is a fault. *)
Definition debugfs_create_file (e : env) (name : string) (mode : Z)
    (parent : dentry_ptr) (data : private_data) (fops : option Z)
    (st : state) : option (dentry_ptr * state) :=
  let fmt := Z.land mode S_IFMT in
  if ((fmt =? S_IFREG) || (fmt =? 0))%Z
  then __create_file e name mode parent data fops st
  else None.

(** [struct dentry *debugfs_create_dir(name, parent)] *)
Definition debugfs_create_dir (e : env) (name : string) (parent : dentry_ptr)
    (st : state) : option (dentry_ptr * state) :=
  __create_file e name (Z.lor (Z.lor (Z.lor S_IFDIR S_IRWXU) S_IRUGO) S_IXUGO)
    parent (opaque_data 0) None st.

(** [struct dentry *debugfs_create_symlink(name, parent, target)] *)
Definition debugfs_create_symlink (e : env) (name : string)
    (parent : dentry_ptr) (target : string) (st : state)
    : option (dentry_ptr * state) :=
  if kstrdup_ok e then
    __create_file e name (Z.lor S_IFLNK S_IRWXUGO) parent (link_target target)
      None st
  else Some (NULL, st).

(** ** Removal of one node *)

(** Modelled from the spec: [simple_empty] (fs/libfs.c): "empty of Positive
    children". *)
Definition simple_empty (dentry : nat) (st : state) : option bool :=
  d ← dcache st !! dentry;
  Some (forallb (λ c, negb (positive_at st c)) (d_subdirs d)).

Definition detach (child : nat) (p : dentry) : dentry :=
  set_subdirs (filter (λ c, c ≠ child) (d_subdirs p)) p.

(** Modelled from the spec: [simple_unlink] (fs/libfs.c): "Detaches node
    from parent.children". *)
Definition simple_unlink (dir dentry : nat) (st : state) : option state :=
  _ ← inode_of dir st;
  Some (update dir (detach dentry) st).

(** Modelled from the spec: [simple_rmdir] (fs/libfs.c): "If node is a
    Directory, requires it be empty of Positive children"
    ([DirectoryNotEmpty] otherwise); "Detaches node from parent.children,
    decrements the parent's link_count if node was a Directory". *)
Definition simple_rmdir (dir dentry : nat) (st : state) : option (Z * state) :=
  empty ← simple_empty dentry st;
  if (empty : bool) then
    st ← on_inode drop_nlink dir st;
    st ← simple_unlink dir dentry st;
    Some (0%Z, st)
  else Some ((- ENOTEMPTY)%Z, st).

(** Modelled from the spec: [d_delete] (fs/dcache.c): "marks node Negative,
    and schedules release of its resources": the dentry is no longer
    reachable (unhashed); its inode is not released yet.  This is how
    [d_delete] leaves a dentry that something else still references; one
    that nothing else references loses its inode there as well. *)
Definition d_delete (dentry : nat) (st : state) : state :=
  update dentry (set_unhashed true) st.

(** [static int __debugfs_remove(struct dentry *dentry, struct dentry *parent)] *)
Definition __debugfs_remove (dentry parent : nat) (st : state)
    : option (Z * state) :=
  d ← dcache st !! dentry;
  if debugfs_positive d then
    i ← d_inode d;
    '(ret, st) ← (if S_ISDIR (i_mode i)
                  then simple_rmdir parent dentry st
                  else st ← simple_unlink parent dentry st; Some (0%Z, st));
    Some (ret, if (ret =? 0)%Z then d_delete dentry st else st)
  else Some (0%Z, st).

(** [void debugfs_remove(struct dentry *dentry)] *)
Definition debugfs_remove (dentry : dentry_ptr) (st : state) : option state :=
  match dentry with
  | PTR d =>
      x ← dcache st !! d;
      match d_parent x with
      | None => Some st
      | Some parent =>
          p ← dcache st !! parent;
          match d_inode p with
          | None => Some st
          | Some _ =>
              '(ret, st) ← __debugfs_remove d parent st;
              Some (if (ret =? 0)%Z then simple_release_fs st else st)
          end
      end
  | _ => Some st
  end.

(** ** Recursive removal *)

(** [list_entry(x->d_child.next, struct dentry, d_child)] within the sibling
    list [l]: the entry after [x], [None] standing for the list head. *)
Fixpoint list_next (l : list nat) (x : nat) : option nat :=
  match l with
  | [] => None
  | y :: l' => if decide (y = x) then head l' else list_next l' x
  end.

(** Where control is inside [debugfs_remove_recursive]: at the label [down],
    at the test of the [list_for_each_entry_safe] loop (with the cursors
    [child] and [next]), at the label [up], or behind the loop. *)
Inductive rr_pc :=
  | at_down (parent : nat)
  | at_loop (parent : nat) (child next : option nat)
  | at_up (parent child : nat) (next : option nat)
  | at_after (parent : nat)
  | at_return.

(** A configuration: control, the store, and (as a ghost) the dentries on
    which [__debugfs_remove] has performed a removal so far, oldest first. *)
Definition rr_config : Type := rr_pc * state * list nat.

(** The increment of the loop: [child = next, next = list_entry(next->...)]. *)
Definition rr_advance (parent : nat) (next : option nat) (st : state)
    : option rr_pc :=
  p ← dcache st !! parent;
  Some (at_loop parent next (next ≫= list_next (d_subdirs p))).

(** [if (!__debugfs_remove(child, parent)) simple_release_fs(...)], with the
    ghost log. *)
Definition rr_remove (child parent : nat) (st : state) (log : list nat)
    : option (state * list nat) :=
  '(ret, st') ← __debugfs_remove child parent st;
  Some (if (ret =? 0)%Z then simple_release_fs st' else st',
        if positive_at st child && negb (positive_at st' child)
        then log ++ [child] else log).

Definition rr_step (dentry : nat) (c : rr_config) : option rr_config :=
  let '(pc, st, log) := c in
  match pc with
  | at_down parent =>
      _ ← inode_of parent st;
      p ← dcache st !! parent;
      let child := head (d_subdirs p) in
      Some (at_loop parent child (child ≫= list_next (d_subdirs p)), st, log)
  | at_loop parent None _ => Some (at_after parent, st, log)
  | at_loop parent (Some child) next =>
      x ← dcache st !! child;
      if negb (debugfs_positive x) then
        pc ← rr_advance parent next st; Some (pc, st, log)
      else if negb (bool_decide (d_subdirs x = [])) then
        Some (at_down child, st, log)
      else Some (at_up parent child next, st, log)
  | at_up parent child next =>
      '(st, log) ← rr_remove child parent st log;
      pc ← rr_advance parent next st;
      Some (pc, st, log)
  | at_after parent =>
      let child := parent in
      x ← dcache st !! child;
      parent ← d_parent x;
      _ ← inode_of parent st;
      if bool_decide (child ≠ dentry) then
        p ← dcache st !! parent;
        Some (at_up parent child (list_next (d_subdirs p) child), st, log)
      else
        '(st, log) ← rr_remove child parent st log;
        Some (at_return, st, log)
  | at_return => Some c
  end.

Fixpoint rr_run (fuel : nat) (dentry : nat) (c : rr_config)
    : option (state * list nat) :=
  match c with
  | (at_return, st, log) => Some (st, log)
  | _ =>
      match fuel with
      | O => None
      | S fuel => c ← rr_step dentry c; rr_run fuel dentry c
      end
  end.

(** [void debugfs_remove_recursive(struct dentry *dentry)]: the store when
    the function returns and the removals it performed, in order; [None]
    when the fuel runs out or the walk faults. *)
Definition debugfs_remove_recursive (fuel : nat) (dentry : dentry_ptr)
    (st : state) : option (state * list nat) :=
  match dentry with
  | PTR d =>
      x ← dcache st !! d;
      match d_parent x with
      | None => Some (st, [])
      | Some parent =>
          p ← dcache st !! parent;
          match d_inode p with
          | None => Some (st, [])
          | Some _ => rr_run fuel d (at_down d, st, [])
          end
      end
  | _ => Some (st, [])
  end.

(** ** Rename *)

(** Modelled from the spec: [simple_rename] (fs/libfs.c): "if old_node is a
    Directory and old_parent != new_parent, decrement old_parent.link_count
    and increment new_parent.link_count". *)
Definition simple_rename (old_dir old_dentry new_dir new_dentry : nat)
    (st : state) : option (Z * state) :=
  i ← inode_of old_dentry st;
  if S_ISDIR (i_mode i) && negb (bool_decide (old_dir = new_dir)) then
    st ← on_inode drop_nlink old_dir st;
    st ← on_inode inc_nlink new_dir st;
    Some (0%Z, st)
  else Some (0%Z, st).

(** Modelled from the spec: [d_move] (fs/dcache.c): "detach old_node from
    old_parent.children, update old_node.name = new_name and
    old_node.parent = new_parent, attach to new_parent.children"; the new
    name and parent are those of the looked-up [target]. *)
Definition d_move (moved target : nat) (st : state) : option state :=
  d ← dcache st !! moved;
  t ← dcache st !! target;
  let st := match d_parent d with
            | Some old_parent => update old_parent (detach moved) st
            | None => st
            end in
  let st := update moved
              (λ x, mk_dentry (d_name t) (d_parent t) (d_inode x)
                      (d_unhashed x) (d_mounted x) (d_subdirs x)) st in
  Some match d_parent t with
       | Some new_parent =>
           update new_parent (λ p, set_subdirs (d_subdirs p ++ [moved]) p) st
       | None => st
       end.

(** [struct dentry *debugfs_rename(old_dir, old_dentry, new_dir, new_name)].
    [trap] is what [lock_rename(new_dir, old_dir)] (fs/namei.c, not among the
    sources) returns: NULL or the dentry that must not take part in the move;
    [lookup_good] is the outcome of [lookup_one_len]. *)
Definition debugfs_rename (trap : option nat) (lookup_good : bool)
    (old_dir old_dentry new_dir : nat) (new_name : string) (st : state)
    : option (dentry_ptr * state) :=
  od ← dcache st !! old_dir;
  nd ← dcache st !! new_dir;
  (* Source or destination directories don't exist? *)
  if negb (bool_decide (is_Some (d_inode od)))
     || negb (bool_decide (is_Some (d_inode nd)))
  then Some (NULL, st)
  else
    x ← dcache st !! old_dentry;
    (* Source does not exist, cyclic rename, or mountpoint? *)
    if negb (bool_decide (is_Some (d_inode x)))
       || bool_decide (Some old_dentry = trap)
       || d_mounted x
    then Some (NULL, st)
    else
      '(dentry, st) ← lookup_one_len lookup_good new_name new_dir st;
      match dentry with
      | PTR target =>
          t ← dcache st !! target;
          (* Lookup failed, cyclic rename or target exists? *)
          if bool_decide (Some target = trap)
             || bool_decide (is_Some (d_inode t))
          then Some (NULL, st)
          else
            '(error, st) ← simple_rename old_dir old_dentry new_dir target st;
            if negb (error =? 0)%Z then Some (NULL, st)
            else
              st ← d_move old_dentry target st;
              Some (PTR old_dentry, st)
      | ERR_PTR _ => Some (NULL, st)
      | NULL => None
      end.

(** ** The three creation operations as one family *)

Inductive creation :=
  | create_file (name : string) (mode : Z) (data : private_data)
                (fops : option Z)
  | create_dir (name : string)
  | create_symlink (name target : string).

Definition creation_name (c : creation) : string :=
  match c with
  | create_file name _ _ _ => name
  | create_dir name => name
  | create_symlink name _ => name
  end.

Definition run_creation (e : env) (c : creation) (parent : dentry_ptr)
    (st : state) : option (dentry_ptr * state) :=
  match c with
  | create_file name mode data fops =>
      debugfs_create_file e name mode parent data fops st
  | create_dir name => debugfs_create_dir e name parent st
  | create_symlink name target => debugfs_create_symlink e name parent target st
  end.

(** ** Mount options *)

(** The words [CONFIG_DEBUG_FS_DIGEST0] .. [CONFIG_DEBUG_FS_DIGEST4] of the
    build; the file defines each as 0 when the build does not. *)
Record digest_config := mk_digest_config {
  CONFIG_DEBUG_FS_DIGEST0 : Z;
  CONFIG_DEBUG_FS_DIGEST1 : Z;
  CONFIG_DEBUG_FS_DIGEST2 : Z;
  CONFIG_DEBUG_FS_DIGEST3 : Z;
  CONFIG_DEBUG_FS_DIGEST4 : Z
}.

Definition default_config : digest_config := mk_digest_config 0 0 0 0 0.


Definition u32 (x : Z) : Z := (x mod 2 ^ 32)%Z.

Definition rol32 (x n : Z) : Z :=
  u32 (Z.lor (Z.shiftl x n) (Z.shiftr x (32 - n))).

(** Modelled from the spec: [sha_init] and [sha_transform] (lib/sha1.c is not
    among the sources): the "fixed-output hash", the SHA-1 initial words and
    the SHA-1 compression of one 64-byte block read big-endian. *)
Definition sha_init : list Z :=
  [1732584193; 4023233417; 2562383102; 271733878; 3285377520]%Z.

Definition be32 (data : list Z) (t : nat) : Z :=
  (Z.lor (Z.lor (Z.lor (Z.shiftl (nth (4 * t) data 0 mod 256) 24)
                       (Z.shiftl (nth (4 * t + 1) data 0 mod 256) 16))
                (Z.shiftl (nth (4 * t + 2) data 0 mod 256) 8))
         (nth (4 * t + 3) data 0 mod 256))%Z.

Fixpoint sha_schedule (more : nat) (w : list Z) : list Z :=
  match more with
  | O => w
  | S more =>
      let t := length w in
      let x := Z.lxor (Z.lxor (Z.lxor (nth (t - 3) w 0%Z) (nth (t - 8) w 0%Z))
                              (nth (t - 14) w 0%Z)) (nth (t - 16) w 0%Z) in
      sha_schedule more (w ++ [rol32 x 1])
  end.

Definition sha_round (s : Z * Z * Z * Z * Z) (tw : nat * Z)
    : Z * Z * Z * Z * Z :=
  let '(a, b, c, d, e) := s in
  let '(t, w) := tw in
  let '(f, k) :=
    if (t <? 20)%nat then
      (Z.lxor (Z.land (Z.lxor c d) b) d, 1518500249%Z)
    else if (t <? 40)%nat then (Z.lxor (Z.lxor b c) d, 1859775393%Z)
    else if (t <? 60)%nat then
      ((Z.land b c + Z.land d (Z.lxor b c))%Z, 2400959708%Z)
    else (Z.lxor (Z.lxor b c) d, 3395469782%Z) in
  (u32 (rol32 a 5 + f + e + w + k), a, rol32 b 30, c, d).

Definition sha_transform (digest data : list Z) : list Z :=
  let w := sha_schedule 64 (map (be32 data) (seq 0 16)) in
  let d i := nth i digest 0%Z in
  let '(a, b, c, d', e) :=
    fold_left sha_round (combine (seq 0 80) w) (d 0, d 1, d 2, d 3, d 4) in
  [u32 (d 0 + a); u32 (d 1 + b); u32 (d 2 + c); u32 (d 3 + d'); u32 (d 4 + e)].

Record debugfs_mount_opts := mk_opts {
  opt_uid : Z;
  opt_gid : Z;
  opt_mode : Z;
  opt_passwd : list Z;   (* the bytes of the [passwd] buffer *)
  opt_privilege : bool
}.

(** [static bool debugfs_check_passwd(const char *passwd)].  The digest words
    are [__u32]; a configured word is an integer constant of whatever width it
    needs, and [digest[k] != CONFIG_DEBUG_FS_DIGESTk] compares the two by
    value, in the wider type: a configured word beyond 32 bits equals no
    digest word.  The configured words are taken to be non-negative
    ([digest_words_unsigned]), as digest words written in hexadecimal are. *)
Definition debugfs_check_passwd (cfg : digest_config) (passwd : list Z) : bool :=
  if (CONFIG_DEBUG_FS_DIGEST0 cfg =? 0)%Z then true
  else
    let digest := sha_transform sha_init passwd in
    if negb (nth 0 digest 0 =? CONFIG_DEBUG_FS_DIGEST0 cfg)%Z then false
    else if negb (nth 1 digest 0 =? CONFIG_DEBUG_FS_DIGEST1 cfg)%Z then false
    else if negb (nth 2 digest 0 =? CONFIG_DEBUG_FS_DIGEST2 cfg)%Z then false
    else if negb (nth 3 digest 0 =? CONFIG_DEBUG_FS_DIGEST3 cfg)%Z then false
    else if negb (nth 4 digest 0 =? CONFIG_DEBUG_FS_DIGEST4 cfg)%Z then false
    else true.

(** [static int debugfs_apply_options(struct super_block *sb)], on the mount
    options in [sb->s_fs_info] and the inode of [sb->s_root]; [i_mode] is a
    16-bit [umode_t]. *)
Definition debugfs_apply_options (cfg : digest_config)
    (opts : debugfs_mount_opts) (root : inode) : debugfs_mount_opts * inode :=
  let opts := mk_opts (opt_uid opts) (opt_gid opts) (opt_mode opts)
                (opt_passwd opts)
                (debugfs_check_passwd cfg (opt_passwd opts)) in
  let mode := (Z.land (i_mode root) (Z.lnot S_IALLUGO) mod 2 ^ 16)%Z in
  let mode := (Z.lor mode (opt_mode opts) mod 2 ^ 16)%Z in
  (opts,
   mk_inode mode (i_nlink root) (opt_uid opts) (opt_gid opts) (i_op root)
     (i_fop root) (pfops root) (i_private root)).

(** ** Concrete states used by the examples *)

Definition root_dentry : dentry :=
  mk_dentry "" None
    (Some (mk_inode (Z.lor S_IFDIR DEBUGFS_DEFAULT_MODE) 2 0 0
             simple_dir_inode_operations debugfs_dir_operations no_ops
             (opaque_data 0)))
    false false [].

(** Nothing created yet: the store detached, the counter at 0, and the root
    dentry that [mount_ok 0] hands out. *)
Definition init_state : state := mk_state {[ 0 := root_dentry ]} None 0.

Definition ok_env : env := mk_env (mount_ok 0) true true true.

(** * Properties *)

(** ** Reading the store after an update *)

Lemma lookup_update d f st x :
  dcache (update d f st) !! x
  = if decide (d = x) then f <$> dcache st !! d else dcache st !! x.
Proof. unfold update; simpl. by rewrite lookup_alter. Qed.

Lemma lookup_update_eq d f st :
  dcache (update d f st) !! d = f <$> dcache st !! d.
Proof. rewrite lookup_update. by case_decide. Qed.

Lemma lookup_update_ne d f st x :
  d ≠ x → dcache (update d f st) !! x = dcache st !! x.
Proof. intros. rewrite lookup_update. by case_decide. Qed.

Lemma release_dcache st : dcache (simple_release_fs st) = dcache st.
Proof. unfold simple_release_fs. by case_match. Qed.

Lemma release_count st :
  debugfs_mount_count (simple_release_fs st) = (debugfs_mount_count st - 1)%Z.
Proof. unfold simple_release_fs. by case_match. Qed.

(** ** Guards of the two removal functions *)

(** The condition under which both functions return at once: the argument is
    NULL or an error pointer, or its parent is absent, or the parent has no
    inode. *)
Definition remove_guard (dentry : dentry_ptr) (st : state) : Prop :=
  IS_ERR_OR_NULL dentry = true
  ∨ ∃ d x, dentry = PTR d ∧ dcache st !! d = Some x
      ∧ (d_parent x = None
         ∨ ∃ parent p, d_parent x = Some parent
             ∧ dcache st !! parent = Some p ∧ d_inode p = None).

(** C10: for an argument that is NULL, an error pointer, or whose parent is
    absent or has no inode, [debugfs_remove] and [debugfs_remove_recursive]
    return at once: the store, the mount and the pin counter are what they
    were, and nothing is removed. *)
Theorem remove_guards_are_noops (fuel : nat) (dentry : dentry_ptr) (st : state) :
  remove_guard dentry st →
  debugfs_remove dentry st = Some st
  ∧ debugfs_remove_recursive fuel dentry st = Some (st, []).
Proof.
  intros [Hnull | (d & x & -> & Hd & Hparent)].
  - destruct dentry; simpl in *; done.
  - unfold debugfs_remove, debugfs_remove_recursive. rewrite Hd. simpl.
    destruct Hparent as [-> | (parent & p & -> & Hp & Hi)]; [done|].
    rewrite Hp. simpl. by rewrite Hi.
Qed.

Lemma remove_guards_are_noops_witness :
  remove_guard (PTR 0) init_state
  ∧ debugfs_remove (PTR 0) init_state = Some init_state
  ∧ debugfs_remove_recursive 0 (PTR 0) init_state = Some (init_state, []).
Proof.
  assert (H : remove_guard (PTR 0) init_state).
  { right. exists 0, root_dentry. split; [reflexivity|].
    split; [reflexivity|]. left. reflexivity. }
  split; [exact H|]. exact (remove_guards_are_noops 0 (PTR 0) init_state H).
Defined.

(** ** The single-node removal primitive *)

(** The store after [__debugfs_remove] has removed [d] from under [parent]. *)
Definition removed_state (d parent : nat) (was_dir : bool) (st : state) : state :=
  d_delete d
    (update parent (detach d)
       (if was_dir
        then update parent (λ p, set_inode (drop_nlink <$> d_inode p) p) st
        else st)).

Lemma inode_of_update_inode f dir st :
  is_Some (inode_of dir st) →
  is_Some (inode_of dir (update dir (λ p, set_inode (f <$> d_inode p) p) st)).
Proof.
  unfold inode_of. rewrite lookup_update_eq.
  destruct (dcache st !! dir) as [p|]; simpl; [|by intros [? ?]].
  destruct (d_inode p); simpl; [eauto | by intros [? ?]].
Qed.

Lemma debugfs_remove_positive d parent x i st :
  dcache st !! d = Some x →
  debugfs_positive x = true →
  d_inode x = Some i →
  is_Some (inode_of parent st) →
  (S_ISDIR (i_mode i) = true → simple_empty d st = Some true) →
  __debugfs_remove d parent st
  = Some (0%Z, removed_state d parent (S_ISDIR (i_mode i)) st).
Proof.
  intros Hd Hpos Hi [ip Hip] Hempty.
  unfold __debugfs_remove, removed_state. rewrite Hd. simpl. rewrite Hpos, Hi.
  simpl. destruct (S_ISDIR (i_mode i)) eqn:Hdir.
  - unfold simple_rmdir. rewrite (Hempty eq_refl). simpl.
    unfold on_inode at 1. rewrite Hip. simpl.
    unfold simple_unlink.
    destruct (inode_of_update_inode drop_nlink parent st) as [j Hj]; [eauto|].
    rewrite Hj. simpl. done.
  - unfold simple_unlink. rewrite Hip. simpl. done.
Qed.

Lemma debugfs_remove_not_empty d parent x i st :
  dcache st !! d = Some x →
  debugfs_positive x = true →
  d_inode x = Some i →
  S_ISDIR (i_mode i) = true →
  simple_empty d st = Some false →
  __debugfs_remove d parent st = Some ((- ENOTEMPTY)%Z, st).
Proof.
  intros Hd Hpos Hi Hdir Hempty.
  unfold __debugfs_remove. rewrite Hd. simpl. rewrite Hpos, Hi. simpl.
  rewrite Hdir. unfold simple_rmdir. rewrite Hempty. simpl. done.
Qed.

Lemma debugfs_remove_negative d parent x st :
  dcache st !! d = Some x →
  debugfs_positive x = false →
  __debugfs_remove d parent st = Some (0%Z, st).
Proof.
  intros Hd Hneg. unfold __debugfs_remove. rewrite Hd. simpl. by rewrite Hneg.
Qed.

Lemma removed_state_other d parent b st y :
  y ≠ d → y ≠ parent →
  dcache (removed_state d parent b st) !! y = dcache st !! y.
Proof.
  intros Hd Hp. unfold removed_state, d_delete.
  rewrite !lookup_update_ne by done.
  destruct b; [by rewrite lookup_update_ne|done].
Qed.

Lemma removed_state_self d parent b st :
  d ≠ parent →
  dcache (removed_state d parent b st) !! d
  = set_unhashed true <$> dcache st !! d.
Proof.
  intros Hp. unfold removed_state, d_delete.
  rewrite lookup_update_eq, lookup_update_ne by done.
  destruct b; [by rewrite lookup_update_ne|done].
Qed.

Lemma removed_state_parent d parent b st :
  d ≠ parent →
  dcache (removed_state d parent b st) !! parent
  = (λ p, detach d
            (if b then set_inode (drop_nlink <$> d_inode p) p else p))
    <$> dcache st !! parent.
Proof.
  intros Hp. unfold removed_state, d_delete.
  rewrite lookup_update_ne, lookup_update_eq by done.
  destruct b; [rewrite lookup_update_eq|]; by destruct (dcache st !! parent).
Qed.

Lemma removed_state_count d parent b st :
  debugfs_mount_count (removed_state d parent b st) = debugfs_mount_count st
  ∧ debugfs_mount (removed_state d parent b st) = debugfs_mount st.
Proof. unfold removed_state. by destruct b. Qed.

(** ** Removing the same node twice *)

Lemma positive_at_removed d parent b st :
  d ≠ parent → positive_at (removed_state d parent b st) d = false.
Proof.
  intros Hne. unfold positive_at. rewrite removed_state_self by done.
  destruct (dcache st !! d) as [x|]; simpl; [|done].
  unfold debugfs_positive; simpl. by destruct (d_inode x).
Qed.

(** The store with one file ["f"] under the root. *)
Definition one_file_state : state :=
  Eval vm_compute in
    match debugfs_create_file ok_env "f" 0 NULL (opaque_data 0) None init_state
    with
    | Some (_, st) => st
    | None => init_state
    end.

(** C3 (what the code does, against the claim): removing a file [d] a second
    time is not without effect.  The first [debugfs_remove] removes [d] and
    releases one pin; on the second call [__debugfs_remove] finds [d] no
    longer positive, removes nothing and still returns 0, exactly as after a
    removal, and [debugfs_remove] calls [simple_release_fs] again: the pin
    counter ends two below its start although one node was removed. *)
Theorem second_remove_unpins_again (d parent : nat) (x p : dentry) (i : inode)
    (st : state) :
  dcache st !! d = Some x →
  d_parent x = Some parent →
  d ≠ parent →
  debugfs_positive x = true →
  d_inode x = Some i →
  S_ISDIR (i_mode i) = false →
  dcache st !! parent = Some p →
  is_Some (d_inode p) →
  ∃ st1 st2,
    debugfs_remove (PTR d) st = Some st1
    ∧ positive_at st1 d = false
    ∧ debugfs_mount_count st1 = (debugfs_mount_count st - 1)%Z
    ∧ __debugfs_remove d parent st1 = Some (0%Z, st1)
    ∧ debugfs_remove (PTR d) st1 = Some st2
    ∧ dcache st2 = dcache st1
    ∧ debugfs_mount_count st2 = (debugfs_mount_count st - 2)%Z.
Proof.
  intros Hd Hpar Hne Hpos Hi Hfile Hp [ip Hip].
  assert (Hrm : __debugfs_remove d parent st
                = Some (0%Z, removed_state d parent false st)).
  { rewrite <- Hfile. eapply debugfs_remove_positive; eauto.
    - unfold inode_of. rewrite Hp. simpl. eauto.
    - rewrite Hfile. done. }
  set (st0 := removed_state d parent false st) in *.
  set (st1 := simple_release_fs st0).
  assert (Hd1 : dcache st1 !! d = Some (set_unhashed true x)).
  { unfold st1. rewrite release_dcache. unfold st0.
    rewrite removed_state_self by done. by rewrite Hd. }
  assert (Hp1 : dcache st1 !! parent = Some (detach d p)).
  { unfold st1. rewrite release_dcache. unfold st0.
    rewrite removed_state_parent by done. by rewrite Hp. }
  assert (Hneg : debugfs_positive (set_unhashed true x) = false).
  { unfold debugfs_positive; simpl. by destruct (d_inode x). }
  assert (Hrm1 : __debugfs_remove d parent st1 = Some (0%Z, st1)).
  { eapply debugfs_remove_negative; eauto. }
  exists st1, (simple_release_fs st1). repeat split.
  - unfold debugfs_remove. rewrite Hd. simpl. rewrite Hpar, Hp. simpl.
    rewrite Hip, Hrm. done.
  - unfold positive_at. rewrite Hd1. done.
  - unfold st1. rewrite release_count. unfold st0.
    by rewrite (proj1 (removed_state_count _ _ _ _)).
  - done.
  - unfold debugfs_remove. rewrite Hd1. simpl. rewrite Hpar, Hp1. simpl.
    rewrite Hip, Hrm1. done.
  - apply release_dcache.
  - rewrite release_count. unfold st1. rewrite release_count. unfold st0.
    rewrite (proj1 (removed_state_count _ _ _ _)). lia.
Qed.

Lemma second_remove_unpins_again_witness :
  debugfs_mount_count one_file_state = 1%Z
  ∧ ∃ st1 st2,
      debugfs_remove (PTR 1) one_file_state = Some st1
      ∧ positive_at st1 1 = false
      ∧ debugfs_mount_count st1 = (debugfs_mount_count one_file_state - 1)%Z
      ∧ __debugfs_remove 1 0 st1 = Some (0%Z, st1)
      ∧ debugfs_remove (PTR 1) st1 = Some st2
      ∧ dcache st2 = dcache st1
      ∧ debugfs_mount_count st2 = (debugfs_mount_count one_file_state - 2)%Z.
Proof.
  split; [reflexivity|].
  eapply (second_remove_unpins_again 1 0 _ _ _ one_file_state).
  - vm_compute; reflexivity.
  - reflexivity.
  - lia.
  - reflexivity.
  - reflexivity.
  - reflexivity.
  - vm_compute; reflexivity.
  - simpl. eexists; reflexivity.
Defined.

(** ** Creation: the possible outcomes *)

Lemma pin_dcache att st : dcache (snd (simple_pin_fs att st)) = dcache st.
Proof. unfold simple_pin_fs. case_match; [destruct att|]; done. Qed.

Lemma pin_failure att st :
  fst (simple_pin_fs att st) ≠ 0%Z → snd (simple_pin_fs att st) = st.
Proof.
  unfold simple_pin_fs. destruct (debugfs_mount_count st =? 0)%Z eqn:Hc.
  - apply Z.eqb_eq in Hc. destruct att; simpl; [|done]. intros _.
    destruct st; simpl in *. subst. done.
  - simpl. done.
Qed.

Lemma pin_success_count att st :
  fst (simple_pin_fs att st) = 0%Z →
  debugfs_mount_count (snd (simple_pin_fs att st))
  = (debugfs_mount_count st + 1)%Z.
Proof.
  unfold simple_pin_fs. destruct (debugfs_mount_count st =? 0)%Z eqn:Hc.
  - destruct att; simpl; done.
  - simpl. done.
Qed.

(** The negative dentry a lookup allocates when the name is free. *)
Definition negative_dentry (name : string) (parent : nat) : dentry :=
  mk_dentry name (Some parent) None false false [].

Definition with_negative (name : string) (parent : nat) (st : state) : state :=
  set_dcache
    (<[fresh (dom (dcache st)) := negative_dentry name parent]> (dcache st)) st.

Global Arguments with_negative : simpl never.

(** The store after a creation under [parent] has instantiated the dentry
    [d] with the inode [i]. *)
Definition created_state (d parent : nat) (i : inode) (st : state) : state :=
  let st := update parent (λ p, set_subdirs (d_subdirs p ++ [d]) p)
              (update d (set_inode (Some i)) st) in
  if S_ISDIR (i_mode i)
  then update parent (λ p, set_inode (inc_nlink <$> d_inode p) p) st
  else st.

(** The mode a creation hands to [debugfs_get_inode]. *)
Definition node_mode (mode : Z) : Z :=
  let fmt := Z.land mode S_IFMT in
  if (fmt =? S_IFDIR)%Z then Z.lor (Z.land mode (Z.lor S_IRWXUGO S_ISVTX)) S_IFDIR
  else if (fmt =? S_IFLNK)%Z then Z.lor (Z.land mode S_IALLUGO) S_IFLNK
  else Z.lor (Z.land mode S_IALLUGO) S_IFREG.

Lemma fresh_not_in (st : state) : dcache st !! fresh (dom (dcache st)) = None.
Proof. apply not_elem_of_dom. apply is_fresh. Qed.

Lemma lookup_one_len_found name parent p c st :
  dcache st !! parent = Some p →
  List.find (named_positive st name) (d_subdirs p) = Some c →
  lookup_one_len true name parent st = Some (PTR c, st)
  ∧ ∃ y i, dcache st !! c = Some y ∧ d_inode y = Some i
           ∧ debugfs_positive y = true ∧ d_name y = name ∧ c ∈ d_subdirs p.
Proof.
  intros Hp Hfind. unfold lookup_one_len. rewrite Hp. simpl. rewrite Hfind.
  split; [done|]. apply find_some in Hfind as [Hin Hnp].
  unfold named_positive in Hnp. destruct (dcache st !! c) as [y|]; [|done].
  apply andb_prop in Hnp as [Hpos Hname]. apply bool_decide_eq_true in Hname.
  unfold debugfs_positive in Hpos. destruct (d_inode y) as [i|] eqn:Hi; [|done].
  exists y, i. repeat split; try done.
  - unfold debugfs_positive. by rewrite Hi.
  - by apply list_elem_of_In.
Qed.

Lemma lookup_one_len_new name parent p st :
  dcache st !! parent = Some p →
  List.find (named_positive st name) (d_subdirs p) = None →
  lookup_one_len true name parent st
  = Some (PTR (fresh (dom (dcache st))), with_negative name parent st).
Proof.
  intros Hp Hfind. unfold lookup_one_len. rewrite Hp. simpl. by rewrite Hfind.
Qed.

Lemma mode_dir_node_mode mode :
  S_ISDIR (Z.lor (Z.land mode (Z.lor S_IRWXUGO S_ISVTX)) S_IFDIR) = true.
Proof.
  unfold S_ISDIR. apply Z.eqb_eq. rewrite Z.land_lor_distr_l.
  rewrite <- Z.land_assoc. change (Z.land (Z.lor S_IRWXUGO S_ISVTX) S_IFMT) with 0%Z.
  rewrite Z.land_0_r. done.
Qed.

Lemma mode_lnk_node_mode mode :
  S_ISDIR (Z.lor (Z.land mode S_IALLUGO) S_IFLNK) = false.
Proof.
  unfold S_ISDIR. apply Z.eqb_neq. rewrite Z.land_lor_distr_l.
  rewrite <- Z.land_assoc. change (Z.land S_IALLUGO S_IFMT) with 0%Z.
  rewrite Z.land_0_r. done.
Qed.

Lemma mode_reg_node_mode mode :
  S_ISDIR (Z.lor (Z.land mode S_IALLUGO) S_IFREG) = false.
Proof.
  unfold S_ISDIR. apply Z.eqb_neq. rewrite Z.land_lor_distr_l.
  rewrite <- Z.land_assoc. change (Z.land S_IALLUGO S_IFMT) with 0%Z.
  rewrite Z.land_0_r. done.
Qed.

Lemma get_inode_mode alloc mode data fops i :
  debugfs_get_inode alloc mode data fops = Some i → i_mode i = mode.
Proof.
  unfold debugfs_get_inode, new_inode. destruct alloc; [|done]. simpl.
  intros [= <-]. repeat case_match; done.
Qed.

Lemma get_inode_alloc alloc mode data fops :
  is_Some (debugfs_get_inode alloc mode data fops) ↔ alloc = true.
Proof.
  unfold debugfs_get_inode, new_inode. destruct alloc; simpl.
  - split; eauto.
  - split; [by intros [? ?]|done].
Qed.

Definition resolve_parent (parent : dentry_ptr) (st : state) : option nat :=
  match parent with
  | NULL => debugfs_mount st
  | PTR p => Some p
  | ERR_PTR _ => None
  end.

(** Every way in which [__create_file] returns: [pinned] is the state behind
    a successful [simple_pin_fs], [p] the parent directory in use. *)
Inductive create_outcome (e : env) (name : string) (mode : Z)
    (parent : dentry_ptr) (st : state) : dentry_ptr → state → Prop :=
  | pin_failed :
      fst (simple_pin_fs (attach e) st) ≠ 0%Z →
      create_outcome e name mode parent st NULL st
  | lookup_failed pinned p px :
      simple_pin_fs (attach e) st = (0%Z, pinned) →
      resolve_parent parent pinned = Some p →
      dcache pinned !! p = Some px → is_Some (d_inode px) →
      lookup_ok e = false →
      create_outcome e name mode parent st NULL (simple_release_fs pinned)
  | name_exists pinned p px c :
      simple_pin_fs (attach e) st = (0%Z, pinned) →
      resolve_parent parent pinned = Some p →
      dcache pinned !! p = Some px → is_Some (d_inode px) →
      lookup_ok e = true →
      List.find (named_positive pinned name) (d_subdirs px) = Some c →
      create_outcome e name mode parent st NULL (simple_release_fs pinned)
  | inode_failed pinned p px :
      simple_pin_fs (attach e) st = (0%Z, pinned) →
      resolve_parent parent pinned = Some p →
      dcache pinned !! p = Some px → is_Some (d_inode px) →
      lookup_ok e = true →
      List.find (named_positive pinned name) (d_subdirs px) = None →
      alloc_ok e = false →
      create_outcome e name mode parent st NULL
        (simple_release_fs (with_negative name p pinned))
  | created pinned p px i :
      simple_pin_fs (attach e) st = (0%Z, pinned) →
      resolve_parent parent pinned = Some p →
      dcache pinned !! p = Some px → is_Some (d_inode px) →
      lookup_ok e = true →
      List.find (named_positive pinned name) (d_subdirs px) = None →
      alloc_ok e = true →
      i_mode i = node_mode mode →
      (S_ISDIR (i_mode i) = true → i_nlink i = 2%Z) →
      create_outcome e name mode parent st
        (PTR (fresh (dom (dcache pinned))))
        (created_state (fresh (dom (dcache pinned))) p i
           (with_negative name p pinned)).

Lemma with_negative_lookup_fresh name parent st :
  dcache (with_negative name parent st) !! fresh (dom (dcache st))
  = Some (negative_dentry name parent).
Proof. unfold with_negative; simpl. by rewrite lookup_insert_eq. Qed.

Lemma with_negative_lookup_old name parent st y :
  is_Some (dcache st !! y) →
  dcache (with_negative name parent st) !! y = dcache st !! y.
Proof.
  intros Hy. unfold with_negative; simpl. rewrite lookup_insert_ne; [done|].
  intros <-. rewrite fresh_not_in in Hy. by destruct Hy.
Qed.

Lemma mknod_exists alloc dir d mode data fops st y i :
  dcache st !! d = Some y → d_inode y = Some i →
  debugfs_mknod alloc dir d mode data fops st = Some ((- EEXIST)%Z, st).
Proof. intros Hd Hi. unfold debugfs_mknod. rewrite Hd; simpl. by rewrite Hi. Qed.

Lemma mknod_new alloc name parent px mode data fops st :
  dcache st !! parent = Some px →
  let d := fresh (dom (dcache st)) in
  let st2 := with_negative name parent st in
  debugfs_mknod alloc parent d mode data fops st2
  = match debugfs_get_inode alloc mode data fops with
    | Some i =>
        Some (0%Z,
              update parent (λ p, set_subdirs (d_subdirs p ++ [d]) p)
                (update d (set_inode (Some i)) st2))
    | None => Some ((- EPERM)%Z, st2)
    end.
Proof.
  intros Hp d st2. unfold debugfs_mknod.
  unfold st2, d. rewrite with_negative_lookup_fresh. simpl.
  destruct (debugfs_get_inode alloc mode data fops) as [i|]; [|done].
  unfold d_instantiate. rewrite with_negative_lookup_fresh.
  cbn [mbind option_bind negative_dentry d_parent].
  rewrite lookup_update_ne.
  - rewrite with_negative_lookup_old by eauto. rewrite Hp. done.
  - intros Heq. pose proof (fresh_not_in st) as Hf. rewrite Heq, Hp in Hf. done.
Qed.

Lemma get_inode_dir_nlink alloc mode data fops i :
  debugfs_get_inode alloc mode data fops = Some i →
  S_ISDIR (i_mode i) = true → i_nlink i = 2%Z.
Proof.
  unfold debugfs_get_inode, new_inode. destruct alloc; [|done]. simpl.
  unfold S_ISDIR. intros [= <-].
  destruct (Z.land mode S_IFMT =? S_IFREG)%Z eqn:Hreg; simpl.
  { intros Hdir. apply Z.eqb_eq in Hreg, Hdir. rewrite Hreg in Hdir. done. }
  destruct (Z.land mode S_IFMT =? S_IFLNK)%Z eqn:Hlnk; simpl.
  { intros Hdir. apply Z.eqb_eq in Hlnk, Hdir. rewrite Hlnk in Hdir. done. }
  destruct (Z.land mode S_IFMT =? S_IFDIR)%Z eqn:Hdir; simpl;
    [done | by rewrite Hdir].
Qed.

Lemma create_file_outcome e name mode parent data fops st r st' :
  __create_file e name mode parent data fops st = Some (r, st') →
  create_outcome e name mode parent st r st'.
Proof.
  unfold __create_file.
  destruct (simple_pin_fs (attach e) st) as [error pinned] eqn:Hpin.
  destruct (error =? 0)%Z eqn:Herr; simpl.
  2: { intros [= <- <-]. apply Z.eqb_neq in Herr.
       pose proof (pin_failure (attach e) st) as Hst. rewrite Hpin in Hst.
       simpl in Hst. rewrite Hst by done.
       apply pin_failed. by rewrite Hpin. }
  apply Z.eqb_eq in Herr. subst error.
  fold (resolve_parent parent pinned).
  destruct (resolve_parent parent pinned) as [p|] eqn:Hres; simpl; [|done].
  unfold inode_of at 1.
  destruct (dcache pinned !! p) as [px|] eqn:Hp; simpl; [|done].
  destruct (d_inode px) as [ip|] eqn:Hip; simpl; [|done].
  destruct (lookup_ok e) eqn:Hlook.
  2: { simpl. intros [= <- <-]. eapply lookup_failed; eauto. }
  destruct (List.find (named_positive pinned name) (d_subdirs px)) as [c|]
    eqn:Hfind.
  - destruct (lookup_one_len_found _ _ _ _ _ Hp Hfind)
      as (Hl & y & i & Hc & Hi & _).
    rewrite Hl. simpl.
    assert (Hmk : ∀ m dt fo, debugfs_mknod (alloc_ok e) p c m dt fo pinned
                             = Some ((- EEXIST)%Z, pinned))
      by (intros; eapply mknod_exists; eauto).
    unfold debugfs_mkdir, debugfs_link, debugfs_create.
    rewrite !Hmk. simpl.
    repeat case_match; simpl; intros [= <- <-]; eapply name_exists; eauto.
  - rewrite (lookup_one_len_new _ _ _ _ Hp Hfind). simpl.
    unfold debugfs_mkdir, debugfs_link, debugfs_create.
    rewrite !(mknod_new _ _ _ _ _ _ _ _ Hp).
    assert (Hcases : ∀ m dt fo,
      (alloc_ok e = false ∧ debugfs_get_inode (alloc_ok e) m dt fo = None)
      ∨ (alloc_ok e = true ∧ ∃ i, debugfs_get_inode (alloc_ok e) m dt fo = Some i
           ∧ i_mode i = m ∧ (S_ISDIR (i_mode i) = true → i_nlink i = 2%Z))).
    { intros m dt fo.
      destruct (debugfs_get_inode (alloc_ok e) m dt fo) as [i|] eqn:Hg.
      - right.
        split; [apply (proj1 (get_inode_alloc (alloc_ok e) m dt fo));
                rewrite Hg; eauto|].
        exists i. split; [done|]. split; [by eapply get_inode_mode|].
        by eapply get_inode_dir_nlink.
      - left. split; [|done]. destruct (alloc_ok e) eqn:Ha; [|done].
        assert (is_Some (debugfs_get_inode true m dt fo)) as [? ?]
          by (by apply (proj2 (get_inode_alloc true m dt fo))).
        congruence. }
    unfold node_mode.
    destruct (Z.land mode S_IFMT =? S_IFDIR)%Z eqn:Hdir.
    + destruct (Hcases (Z.lor (Z.land mode (Z.lor S_IRWXUGO S_ISVTX)) S_IFDIR)
                  (opaque_data 0) None) as [[Ha Hg] | (Ha & i & Hg & Hm & Hn)];
        rewrite Hg; simpl.
      * intros [= <- <-]. eapply inode_failed; eauto.
      * unfold on_inode, inode_of. rewrite lookup_update_eq.
        rewrite lookup_update_ne.
        2: { intros Heq. pose proof (fresh_not_in pinned) as Hf.
             rewrite Heq, Hp in Hf. done. }
        rewrite with_negative_lookup_old by eauto. rewrite Hp. simpl.
        rewrite Hip. simpl. intros [= <- <-].
        pose proof (created e name mode parent st pinned p px i) as Hc.
        unfold created_state, node_mode in Hc. rewrite Hdir in Hc.
        rewrite Hm, mode_dir_node_mode in Hc. apply Hc; eauto.
        intros _. apply Hn. rewrite Hm. apply mode_dir_node_mode.
    + destruct (Z.land mode S_IFMT =? S_IFLNK)%Z eqn:Hlnk.
      * destruct (Hcases (Z.lor (Z.land mode S_IALLUGO) S_IFLNK) data None)
          as [[Ha Hg] | (Ha & i & Hg & Hm & Hn)]; rewrite Hg; simpl.
        -- intros [= <- <-]. eapply inode_failed; eauto.
        -- intros [= <- <-].
           pose proof (created e name mode parent st pinned p px i) as Hc.
           unfold created_state, node_mode in Hc. rewrite Hdir, Hlnk in Hc.
           rewrite Hm, mode_lnk_node_mode in Hc. apply Hc; eauto. done.
      * destruct (Hcases (Z.lor (Z.land mode S_IALLUGO) S_IFREG) data fops)
          as [[Ha Hg] | (Ha & i & Hg & Hm & Hn)]; rewrite Hg; simpl.
        -- intros [= <- <-]. eapply inode_failed; eauto.
        -- intros [= <- <-].
           pose proof (created e name mode parent st pinned p px i) as Hc.
           unfold created_state, node_mode in Hc. rewrite Hdir, Hlnk in Hc.
           rewrite Hm, mode_reg_node_mode in Hc. apply Hc; eauto. done.
Qed.

(** The mode each public creation function passes on. *)
Definition creation_mode (c : creation) : Z :=
  match c with
  | create_file _ mode _ _ => mode
  | create_dir _ => Z.lor (Z.lor (Z.lor S_IFDIR S_IRWXU) S_IRUGO) S_IXUGO
  | create_symlink _ _ => Z.lor S_IFLNK S_IRWXUGO
  end.

(** Whether the function gets as far as [__create_file], which pins first:
    [debugfs_create_symlink] returns before that when [kstrdup] fails. *)
Definition pin_attempted (e : env) (c : creation) : bool :=
  match c with
  | create_symlink _ _ => kstrdup_ok e
  | _ => true
  end.

Lemma run_creation_outcome e c parent st r st' :
  run_creation e c parent st = Some (r, st') →
  (pin_attempted e c = false ∧ r = NULL ∧ st' = st)
  ∨ (pin_attempted e c = true
     ∧ create_outcome e (creation_name c) (creation_mode c) parent st r st').
Proof.
  destruct c as [name mode data fops | name | name target]; simpl.
  - unfold debugfs_create_file. case_match; [|done].
    intros Hrun. right. split; [done|]. by eapply create_file_outcome.
  - unfold debugfs_create_dir. intros Hrun. right. split; [done|].
    by eapply create_file_outcome.
  - unfold debugfs_create_symlink. destruct (kstrdup_ok e).
    + intros Hrun. right. split; [done|]. by eapply create_file_outcome.
    + intros [= <- <-]. by left.
Qed.

Lemma fresh_ne_existing (st : state) (p : nat) (px : dentry) :
  dcache st !! p = Some px → p ≠ fresh (dom (dcache st)).
Proof. intros Hp ->. rewrite fresh_not_in in Hp. done. Qed.

Lemma created_state_self name p px i st :
  dcache st !! p = Some px →
  dcache (created_state (fresh (dom (dcache st))) p i (with_negative name p st))
    !! fresh (dom (dcache st))
  = Some (mk_dentry name (Some p) (Some i) false false []).
Proof.
  intros Hp. pose proof (fresh_ne_existing _ _ _ Hp) as Hne.
  unfold created_state.
  assert (dcache
    (update p (λ p0, set_subdirs (d_subdirs p0 ++ [fresh (dom (dcache st))]) p0)
       (update (fresh (dom (dcache st))) (set_inode (Some i))
          (with_negative name p st))) !! fresh (dom (dcache st))
    = Some (mk_dentry name (Some p) (Some i) false false [])) as H.
  { rewrite lookup_update_ne by done. rewrite lookup_update_eq.
    by rewrite with_negative_lookup_fresh. }
  destruct (S_ISDIR (i_mode i)); [rewrite lookup_update_ne by done|]; done.
Qed.

Lemma created_state_parent name p px i st :
  dcache st !! p = Some px →
  dcache (created_state (fresh (dom (dcache st))) p i (with_negative name p st))
    !! p
  = Some (let px' := set_subdirs (d_subdirs px ++ [fresh (dom (dcache st))]) px in
          if S_ISDIR (i_mode i)
          then set_inode (inc_nlink <$> d_inode px') px' else px').
Proof.
  intros Hp. pose proof (fresh_ne_existing _ _ _ Hp) as Hne.
  unfold created_state.
  assert (dcache
    (update p (λ p0, set_subdirs (d_subdirs p0 ++ [fresh (dom (dcache st))]) p0)
       (update (fresh (dom (dcache st))) (set_inode (Some i))
          (with_negative name p st))) !! p
    = Some (set_subdirs (d_subdirs px ++ [fresh (dom (dcache st))]) px)) as H.
  { rewrite lookup_update_eq. rewrite lookup_update_ne by done.
    rewrite with_negative_lookup_old by eauto. by rewrite Hp. }
  destruct (S_ISDIR (i_mode i)); [rewrite lookup_update_eq, H|]; done.
Qed.

Lemma created_state_other name p i st y :
  y ≠ p → y ≠ fresh (dom (dcache st)) →
  dcache (created_state (fresh (dom (dcache st))) p i (with_negative name p st))
    !! y
  = dcache st !! y.
Proof.
  intros Hp Hd. unfold created_state.
  assert (dcache
    (update p (λ p0, set_subdirs (d_subdirs p0 ++ [fresh (dom (dcache st))]) p0)
       (update (fresh (dom (dcache st))) (set_inode (Some i))
          (with_negative name p st))) !! y
    = dcache st !! y) as H.
  { rewrite !lookup_update_ne by done. unfold with_negative; simpl.
    by rewrite lookup_insert_ne. }
  destruct (S_ISDIR (i_mode i)); [rewrite lookup_update_ne by done|]; done.
Qed.

Lemma created_state_count d p i st :
  debugfs_mount_count (created_state d p i st) = debugfs_mount_count st
  ∧ debugfs_mount (created_state d p i st) = debugfs_mount st.
Proof. unfold created_state. by case_match. Qed.

Lemma with_negative_count name p st :
  debugfs_mount_count (with_negative name p st) = debugfs_mount_count st
  ∧ debugfs_mount (with_negative name p st) = debugfs_mount st.
Proof. done. Qed.

(** ** Creation and the pin counter *)

(** C6 (as the code has it): a creation function returns a dentry pointer
    and nothing else, NULL on every failure, no error code with it.  When it
    does not get to pin ([kstrdup] failed in [debugfs_create_symlink]) or
    when [simple_pin_fs] fails, it returns NULL and leaves the state as it
    was: [simple_release_fs] is not called.  When the pin succeeded and the
    creation fails afterwards (lookup failure, name taken, no inode), the
    state returned is [simple_release_fs] of a state that held the pin.  On
    success the new dentry is positive and the pin is kept: the counter is one
    above its start. *)
Theorem creation_pin_discipline (e : env) (c : creation) (parent : dentry_ptr)
    (st : state) (r : dentry_ptr) (st' : state) :
  run_creation e c parent st = Some (r, st') →
  match r with
  | PTR d =>
      fst (simple_pin_fs (attach e) st) = 0%Z
      ∧ positive_at st' d = true
      ∧ debugfs_mount_count st' = (debugfs_mount_count st + 1)%Z
      ∧ debugfs_mount st' = debugfs_mount (snd (simple_pin_fs (attach e) st))
  | NULL =>
      ((pin_attempted e c = false ∨ fst (simple_pin_fs (attach e) st) ≠ 0%Z)
       ∧ st' = st)
      ∨ (pin_attempted e c = true
         ∧ fst (simple_pin_fs (attach e) st) = 0%Z
         ∧ ∃ st2, debugfs_mount_count st2 = (debugfs_mount_count st + 1)%Z
                  ∧ st' = simple_release_fs st2)
  | ERR_PTR _ => False
  end.
Proof.
  intros H. apply run_creation_outcome in H as [(Hp & -> & ->) | [Hp H]].
  { left. split; [by left|done]. }
  destruct H as [Hfail | pinned p px Hpin _ _ _ _ | pinned p px ch Hpin _ _ _ _ _
                | pinned p px Hpin _ _ _ _ _ _
                | pinned p px i Hpin Hres Hpx Hip _ _ _ Hm Hn].
  - left. split; [by right|done].
  - right. split; [done|]. rewrite Hpin. split; [done|]. exists pinned.
    split; [|done].
    pose proof (pin_success_count (attach e) st) as Hc. rewrite Hpin in Hc.
    by apply Hc.
  - right. split; [done|]. rewrite Hpin. split; [done|]. exists pinned.
    split; [|done].
    pose proof (pin_success_count (attach e) st) as Hc. rewrite Hpin in Hc.
    by apply Hc.
  - right. split; [done|]. rewrite Hpin. split; [done|].
    exists (with_negative (creation_name c) p pinned). split; [|done].
    rewrite (proj1 (with_negative_count _ _ _)).
    pose proof (pin_success_count (attach e) st) as Hc. rewrite Hpin in Hc.
    by apply Hc.
  - rewrite Hpin. split; [done|]. split.
    + unfold positive_at. rewrite (created_state_self _ _ _ _ _ Hpx). done.
    + rewrite (proj1 (created_state_count _ _ _ _)),
        (proj2 (created_state_count _ _ _ _)).
      rewrite (proj1 (with_negative_count _ _ _)),
        (proj2 (with_negative_count _ _ _)).
      pose proof (pin_success_count (attach e) st) as Hc. rewrite Hpin in Hc.
      split; [by apply Hc|done].
Qed.

Lemma creation_pin_discipline_witness :
  run_creation ok_env (create_dir "a") NULL init_state
  = Some (PTR 1,
          created_state 1 0
            (mk_inode 16877 2 0 0 simple_dir_inode_operations
               debugfs_dir_operations no_ops (opaque_data 0))
            (with_negative "a" 0 (mk_state (dcache init_state) (Some 0) 1)))
  ∧ debugfs_mount_count
      (created_state 1 0
         (mk_inode 16877 2 0 0 simple_dir_inode_operations
            debugfs_dir_operations no_ops (opaque_data 0))
         (with_negative "a" 0 (mk_state (dcache init_state) (Some 0) 1)))
    = (debugfs_mount_count init_state + 1)%Z.
Proof.
  assert (H : run_creation ok_env (create_dir "a") NULL init_state
    = Some (PTR 1,
            created_state 1 0
              (mk_inode 16877 2 0 0 simple_dir_inode_operations
                 debugfs_dir_operations no_ops (opaque_data 0))
              (with_negative "a" 0 (mk_state (dcache init_state) (Some 0) 1))))
    by (vm_compute; reflexivity).
  split; [exact H|].
  exact (proj1 (proj2 (proj2
    (creation_pin_discipline ok_env (create_dir "a") NULL init_state _ _ H)))).
Defined.

(** The environment in which the backing store cannot be attached. *)
Definition no_mount_env : env := mk_env mount_fails true true true.

(** C6, the claim as stated fails: on the failure path behind a failed
    [simple_pin_fs] the function returns NULL without a call of
    [simple_release_fs]; the counter stays at 0, where a pin followed by an
    unpin would have left it at -1. *)
Lemma creation_pin_failure_skips_unpin :
  run_creation no_mount_env (create_dir "a") NULL init_state
  = Some (NULL, init_state)
  ∧ debugfs_mount_count init_state = 0%Z
  ∧ debugfs_mount_count
      (simple_release_fs (snd (simple_pin_fs mount_fails init_state)))
    = (-1)%Z.
Proof. vm_compute. done. Qed.

(** ** Creation and name uniqueness *)

Definition has_positive_child (st : state) (parent : nat) (name : string) : Prop :=
  ∃ p c y, dcache st !! parent = Some p ∧ c ∈ d_subdirs p
           ∧ dcache st !! c = Some y
           ∧ debugfs_positive y = true ∧ d_name y = name.

(** [debugfs_create_file] asserts ([BUG()]) that the mode names a regular
    file or no type at all. *)
Definition creation_mode_ok (c : creation) : Prop :=
  match c with
  | create_file _ mode _ _ =>
      Z.land mode S_IFMT = S_IFREG ∨ Z.land mode S_IFMT = 0%Z
  | _ => True
  end.

Lemma find_named_positive_dcache st1 st2 name l :
  dcache st1 = dcache st2 →
  List.find (named_positive st1 name) l = List.find (named_positive st2 name) l.
Proof. intros H. unfold named_positive. by rewrite H. Qed.

Lemma find_positive_child st parent p name :
  dcache st !! parent = Some p →
  has_positive_child st parent name
  ↔ is_Some (List.find (named_positive st name) (d_subdirs p)).
Proof.
  intros Hp. split.
  - intros (p' & c & y & Hp' & Hin & Hc & Hpos & Hname).
    rewrite Hp in Hp'. injection Hp' as <-.
    destruct (List.find (named_positive st name) (d_subdirs p)) eqn:Hf; [eauto|].
    eapply find_none in Hf; [|by apply list_elem_of_In].
    unfold named_positive in Hf. rewrite Hc, Hpos in Hf. simpl in Hf.
    by rewrite bool_decide_eq_false in Hf.
  - intros [c Hf]. apply find_some in Hf as [Hin Hnp].
    unfold named_positive in Hnp.
    destruct (dcache st !! c) as [y|] eqn:Hc; [|done].
    apply andb_prop in Hnp as [Hpos Hname].
    apply bool_decide_eq_true in Hname.
    exists p, c, y. repeat split; try done. by apply list_elem_of_In.
Qed.

Lemma create_file_total e name mode parent data fops st p px :
  resolve_parent parent (snd (simple_pin_fs (attach e) st)) = Some p →
  dcache st !! p = Some px →
  is_Some (d_inode px) →
  is_Some (__create_file e name mode parent data fops st).
Proof.
  intros Hres Hp [ip Hip]. unfold __create_file.
  pose proof (pin_dcache (attach e) st) as Hdc.
  destruct (simple_pin_fs (attach e) st) as [error pinned]. simpl in *.
  destruct (error =? 0)%Z; simpl; [|eauto].
  fold (resolve_parent parent pinned). rewrite Hres. simpl.
  rewrite <- Hdc in Hp.
  unfold inode_of at 1. rewrite Hp. simpl. rewrite Hip. simpl.
  destruct (lookup_ok e).
  2: { simpl. eauto. }
  destruct (List.find (named_positive pinned name) (d_subdirs px)) as [c|]
    eqn:Hfind.
  - destruct (lookup_one_len_found _ _ _ _ _ Hp Hfind)
      as (Hl & y & i & Hc & Hi & _).
    rewrite Hl. simpl.
    unfold debugfs_mkdir, debugfs_link, debugfs_create.
    rewrite !(mknod_exists _ _ _ _ _ _ _ _ _ Hc Hi). simpl.
    repeat case_match; eauto.
  - rewrite (lookup_one_len_new _ _ _ _ Hp Hfind). simpl.
    unfold debugfs_mkdir, debugfs_link, debugfs_create.
    rewrite !(mknod_new _ _ _ _ _ _ _ _ Hp).
    assert (Hinc : ∀ i,
      is_Some (on_inode inc_nlink p
        (update p
           (λ p0, set_subdirs (d_subdirs p0 ++ [fresh (dom (dcache pinned))]) p0)
           (update (fresh (dom (dcache pinned))) (set_inode (Some i))
              (with_negative name p pinned))))).
    { intros i. unfold on_inode, inode_of. rewrite lookup_update_eq.
      rewrite lookup_update_ne by (by eapply not_eq_sym, fresh_ne_existing).
      rewrite with_negative_lookup_old by eauto. rewrite Hp. simpl.
      rewrite Hip. simpl. eauto. }
    repeat case_match; simpl; eauto.
    destruct (Hinc i) as [st3 Hst3]. rewrite Hst3. simpl. eauto.
Qed.

Lemma run_creation_total e c parent st p px :
  creation_mode_ok c →
  resolve_parent parent (snd (simple_pin_fs (attach e) st)) = Some p →
  dcache st !! p = Some px →
  is_Some (d_inode px) →
  is_Some (run_creation e c parent st).
Proof.
  intros Hmode Hres Hp Hi.
  destruct c as [name mode data fops | name | name target]; simpl in *.
  - unfold debugfs_create_file.
    assert (((Z.land mode S_IFMT =? S_IFREG) || (Z.land mode S_IFMT =? 0))%Z
            = true) as ->.
    { apply orb_true_iff. destruct Hmode as [H | H]; [left|right];
        by apply Z.eqb_eq. }
    by eapply create_file_total.
  - by eapply create_file_total.
  - unfold debugfs_create_symlink. destruct (kstrdup_ok e); [|eauto].
    by eapply create_file_total.
Qed.

Lemma pin_release_count att st pinned :
  simple_pin_fs att st = (0%Z, pinned) →
  debugfs_mount_count (simple_release_fs pinned) = debugfs_mount_count st.
Proof.
  intros Hpin. rewrite release_count.
  pose proof (pin_success_count att st) as Hc. rewrite Hpin in Hc.
  simpl in Hc. rewrite Hc by done. lia.
Qed.

Lemma pin_eq_dcache att st err pinned :
  simple_pin_fs att st = (err, pinned) → dcache pinned = dcache st.
Proof. intros H. pose proof (pin_dcache att st) as Hd. by rewrite H in Hd. Qed.

(** C5: under a parent directory that already has a positive child of the
    requested name, [debugfs_mknod] answers [-EEXIST] for that child and each
    of the three creation functions returns NULL with the dentries (so the
    children of the parent) and the pin counter as they were; when there is
    no such child, and neither the pin, the lookup nor an allocation fails,
    exactly one new positive dentry of that name is added at the end of the
    children of the parent and no other dentry changes. *)
Theorem creation_name_uniqueness (e : env) (c : creation) (parent : nat)
    (px : dentry) (st : state) :
  dcache st !! parent = Some px →
  is_Some (d_inode px) →
  creation_mode_ok c →
  (has_positive_child st parent (creation_name c) →
   (∃ child,
       lookup_one_len true (creation_name c) parent st = Some (PTR child, st)
       ∧ ∀ alloc mode data fops,
           debugfs_mknod alloc parent child mode data fops st
           = Some ((- EEXIST)%Z, st))
   ∧ ∃ st', run_creation e c (PTR parent) st = Some (NULL, st')
            ∧ dcache st' = dcache st
            ∧ debugfs_mount_count st' = debugfs_mount_count st)
  ∧ (¬ has_positive_child st parent (creation_name c) →
     fst (simple_pin_fs (attach e) st) = 0%Z →
     lookup_ok e = true → alloc_ok e = true → pin_attempted e c = true →
     ∃ d st' x,
       run_creation e c (PTR parent) st = Some (PTR d, st')
       ∧ dcache st !! d = None
       ∧ dcache st' !! d = Some x
       ∧ debugfs_positive x = true
       ∧ d_name x = creation_name c
       ∧ d_parent x = Some parent
       ∧ d_subdirs <$> dcache st' !! parent = Some (d_subdirs px ++ [d])
       ∧ ∀ y, y ≠ d → y ≠ parent → dcache st' !! y = dcache st !! y).
Proof.
  intros Hp Hi Hmode.
  destruct (run_creation_total e c (PTR parent) st parent px Hmode eq_refl Hp Hi)
    as [[r st'] Hrun].
  pose proof (run_creation_outcome _ _ _ _ _ _ Hrun) as Hout.
  split.
  - intros Hchild. split.
    + apply (find_positive_child st parent px _ Hp) in Hchild as [child Hfind].
      destruct (lookup_one_len_found _ _ _ _ _ Hp Hfind)
        as (Hl & y & i & Hc & Hiy & _).
      exists child. split; [done|]. intros. by eapply mknod_exists.
    + destruct Hout as [(_ & -> & ->) | [_ Hout]]; [eauto|].
      destruct Hout as [Hfail | pinned p py Hpin _ _ _ _
                       | pinned p py ch Hpin _ _ _ _ _
                       | pinned p py Hpin Hres Hpy _ _ Hfind _
                       | pinned p py i Hpin Hres Hpy _ _ Hfind _ _ _].
      * eauto.
      * exists (simple_release_fs pinned). split; [done|].
        rewrite release_dcache. split; [by eapply pin_eq_dcache|].
        by eapply pin_release_count.
      * exists (simple_release_fs pinned). split; [done|].
        rewrite release_dcache. split; [by eapply pin_eq_dcache|].
        by eapply pin_release_count.
      * exfalso. simpl in Hres. injection Hres as <-.
        pose proof (pin_eq_dcache _ _ _ _ Hpin) as Hdc.
        rewrite Hdc, Hp in Hpy. injection Hpy as <-.
        rewrite (find_named_positive_dcache pinned st) in Hfind by done.
        apply (find_positive_child st parent px _ Hp) in Hchild as [? Hf].
        congruence.
      * exfalso. simpl in Hres. injection Hres as <-.
        pose proof (pin_eq_dcache _ _ _ _ Hpin) as Hdc.
        rewrite Hdc, Hp in Hpy. injection Hpy as <-.
        rewrite (find_named_positive_dcache pinned st) in Hfind by done.
        apply (find_positive_child st parent px _ Hp) in Hchild as [? Hf].
        congruence.
  - intros Hnone Hpinok Hlook Halloc Hatt.
    destruct Hout as [(Hatt' & _) | [_ Hout]]; [congruence|].
    destruct Hout as [Hfail | pinned p py Hpin _ _ _ Hl
                     | pinned p py ch Hpin Hres Hpy _ _ Hfind
                     | pinned p py Hpin _ _ _ _ _ Ha
                     | pinned p py i Hpin Hres Hpy _ _ Hfind _ Hm Hn];
      try congruence.
    + exfalso. simpl in Hres. injection Hres as <-.
      pose proof (pin_eq_dcache _ _ _ _ Hpin) as Hdc.
      rewrite Hdc, Hp in Hpy. injection Hpy as <-.
      rewrite (find_named_positive_dcache pinned st) in Hfind by done.
      apply Hnone. apply (find_positive_child st parent px _ Hp). eauto.
    + simpl in Hres. injection Hres as <-.
      pose proof (pin_eq_dcache _ _ _ _ Hpin) as Hdc.
      eexists _, _, _. split; [exact Hrun|].
      split; [rewrite <- Hdc; apply fresh_not_in|].
      split; [eapply created_state_self; exact Hpy|].
      split; [done|]. split; [done|]. split; [done|].
      split.
      * rewrite (created_state_parent _ _ _ _ _ Hpy). simpl.
        rewrite Hdc in Hpy. rewrite Hp in Hpy. injection Hpy as <-.
        by destruct (S_ISDIR (i_mode i)).
      * intros y Hyd Hyp. rewrite created_state_other by done. by rewrite Hdc.
Qed.

Lemma creation_name_uniqueness_witness :
  (∃ st', run_creation ok_env (create_file "f" 0 (opaque_data 0) None) (PTR 0)
            one_file_state = Some (NULL, st')
          ∧ dcache st' = dcache one_file_state
          ∧ debugfs_mount_count st' = debugfs_mount_count one_file_state)
  ∧ (∃ d st' x, run_creation ok_env (create_dir "g") (PTR 0) one_file_state
                = Some (PTR d, st')
       ∧ dcache one_file_state !! d = None
       ∧ dcache st' !! d = Some x
       ∧ debugfs_positive x = true
       ∧ d_name x = "g"
       ∧ d_parent x = Some 0).
Proof.
  assert (Hp : ∃ px, dcache one_file_state !! 0 = Some px
                     ∧ is_Some (d_inode px)).
  { eexists. split; [vm_compute; reflexivity | simpl; eauto]. }
  destruct Hp as (px & Hp & Hi).
  split.
  - destruct (creation_name_uniqueness ok_env
                (create_file "f" 0 (opaque_data 0) None) 0 px one_file_state
                Hp Hi (or_intror eq_refl)) as [Hexists _].
    apply Hexists. apply (find_positive_child _ _ _ _ Hp).
    vm_compute in Hp. injection Hp as <-. vm_compute. eauto.
  - destruct (creation_name_uniqueness ok_env (create_dir "g") 0 px
                one_file_state Hp Hi I) as [_ Hfree].
    destruct Hfree as (d & st' & x & H1 & H2 & H3 & H4 & H5 & H6 & _);
      try reflexivity.
    + rewrite (find_positive_child _ _ _ _ Hp).
      vm_compute in Hp. injection Hp as <-. vm_compute. by intros [? ?].
    + exists d, st', x. done.
Defined.

(** ** The privilege flag of the mount options *)






Global Opaque sha_transform.





(** ** Rename *)

(** The store behind [simple_rename] for a move of [old_dentry] (a directory
    or not) from [old_dir] to [new_dir]. *)
Definition relinked_state (old_dir new_dir : nat) (is_dir : bool) (st : state)
    : state :=
  if is_dir && negb (bool_decide (old_dir = new_dir)) then
    update new_dir (λ d, set_inode (inc_nlink <$> d_inode d) d)
      (update old_dir (λ d, set_inode (drop_nlink <$> d_inode d) d) st)
  else st.

Lemma simple_rename_spec old_dir old_dentry new_dir target st od nd x i :
  dcache st !! old_dir = Some od → is_Some (d_inode od) →
  dcache st !! new_dir = Some nd → is_Some (d_inode nd) →
  dcache st !! old_dentry = Some x → d_inode x = Some i →
  simple_rename old_dir old_dentry new_dir target st
  = Some (0%Z, relinked_state old_dir new_dir (S_ISDIR (i_mode i)) st).
Proof.
  intros Hod [iod Hiod] Hnd [ind Hind] Hx Hi.
  unfold simple_rename, relinked_state, inode_of. rewrite Hx. simpl.
  rewrite Hi. simpl.
  destruct (S_ISDIR (i_mode i) && negb (bool_decide (old_dir = new_dir)))
    eqn:Hc; [|done].
  apply andb_prop in Hc as [_ Hne]. apply negb_true_iff in Hne.
  apply bool_decide_eq_false in Hne.
  unfold on_inode at 2. unfold inode_of. rewrite Hod. simpl. rewrite Hiod.
  simpl. unfold on_inode, inode_of. rewrite lookup_update_ne by done.
  rewrite Hnd. simpl. rewrite Hind. simpl. done.
Qed.

(** How [debugfs_rename] returns: NULL with the state untouched, or
    [old_dentry] with the state that [simple_rename] and [d_move] built
    behind a lookup that found the new name free. *)
Lemma rename_cases trap lookup_good old_dir old_dentry new_dir new_name st r st' :
  (∀ t, trap = Some t → is_Some (dcache st !! t)) →
  debugfs_rename trap lookup_good old_dir old_dentry new_dir new_name st
  = Some (r, st') →
  (r = NULL ∧ st' = st)
  ∨ (r = PTR old_dentry
     ∧ ∃ od nd x i,
         dcache st !! old_dir = Some od ∧ is_Some (d_inode od)
         ∧ dcache st !! new_dir = Some nd ∧ is_Some (d_inode nd)
         ∧ dcache st !! old_dentry = Some x ∧ d_inode x = Some i
         ∧ trap ≠ Some old_dentry ∧ d_mounted x = false
         ∧ lookup_good = true
         ∧ List.find (named_positive st new_name) (d_subdirs nd) = None
         ∧ d_move old_dentry (fresh (dom (dcache st)))
             (relinked_state old_dir new_dir (S_ISDIR (i_mode i))
                (with_negative new_name new_dir st))
           = Some st').
Proof.
  intros Htrap. unfold debugfs_rename.
  destruct (dcache st !! old_dir) as [od|] eqn:Hod; simpl; [|done].
  destruct (dcache st !! new_dir) as [nd|] eqn:Hnd; simpl; [|done].
  destruct (d_inode od) as [iod|] eqn:Hiod.
  2: { rewrite bool_decide_eq_false_2 by (by intros [? ?]). simpl.
       intros [= <- <-]. by left. }
  rewrite (bool_decide_eq_true_2 (is_Some (Some iod))) by eauto. simpl.
  destruct (d_inode nd) as [ind|] eqn:Hind.
  2: { rewrite bool_decide_eq_false_2 by (by intros [? ?]). simpl.
       intros [= <- <-]. by left. }
  rewrite (bool_decide_eq_true_2 (is_Some (Some ind))) by eauto. simpl.
  destruct (dcache st !! old_dentry) as [x|] eqn:Hx; simpl; [|done].
  destruct (d_inode x) as [i|] eqn:Hi.
  2: { rewrite bool_decide_eq_false_2 by (by intros [? ?]). simpl.
       intros [= <- <-]. by left. }
  rewrite (bool_decide_eq_true_2 (is_Some (Some i))) by eauto. simpl.
  destruct (bool_decide (Some old_dentry = trap)) eqn:Htr; simpl.
  { intros [= <- <-]. by left. }
  apply bool_decide_eq_false in Htr.
  destruct (d_mounted x) eqn:Hm; simpl.
  { intros [= <- <-]. by left. }
  destruct lookup_good.
  2: { simpl. intros [= <- <-]. by left. }
  destruct (List.find (named_positive st new_name) (d_subdirs nd)) as [c|]
    eqn:Hfind.
  - destruct (lookup_one_len_found _ _ _ _ _ Hnd Hfind)
      as (Hl & y & iy & Hc & Hiy & _).
    rewrite Hl. simpl. rewrite Hc. simpl. rewrite Hiy.
    rewrite (bool_decide_eq_true_2 (is_Some (Some iy))) by eauto.
    rewrite orb_true_r. intros [= <- <-]. by left.
  - rewrite (lookup_one_len_new _ _ _ _ Hnd Hfind).
    cbn [mbind option_bind].
    rewrite with_negative_lookup_fresh. simpl.
    rewrite bool_decide_eq_false_2.
    2: { intros Heq. destruct (Htrap _ (eq_sym Heq)) as [? Hf].
         by rewrite fresh_not_in in Hf. }
    simpl.
    assert (Hold : ∀ y v, dcache st !! y = Some v →
              dcache (with_negative new_name new_dir st) !! y = Some v).
    { intros y v Hy. rewrite with_negative_lookup_old by eauto. done. }
    rewrite (simple_rename_spec old_dir old_dentry new_dir _ _ od nd x i)
      by eauto.
    simpl.
    destruct (d_move old_dentry _ _) as [st3|] eqn:Hmove; simpl; [|done].
    intros [= <- <-]. right. split; [done|].
    exists od, nd, x, i. repeat split; eauto.
Qed.

Lemma relinked_state_lookup_some old_dir new_dir b st y v :
  dcache st !! y = Some v →
  ∃ v', dcache (relinked_state old_dir new_dir b st) !! y = Some v'
        ∧ d_parent v' = d_parent v ∧ d_name v' = d_name v
        ∧ d_subdirs v' = d_subdirs v ∧ d_unhashed v' = d_unhashed v
        ∧ d_mounted v' = d_mounted v.
Proof.
  intros Hy. unfold relinked_state.
  destruct (b && negb (bool_decide (old_dir = new_dir))); [|eauto 10].
  destruct (decide (new_dir = y)) as [->|Hn].
  - rewrite lookup_update_eq.
    destruct (decide (old_dir = y)) as [->|Ho].
    + rewrite lookup_update_eq, Hy. simpl. eauto 10.
    + rewrite lookup_update_ne, Hy by done. simpl. eauto 10.
  - rewrite lookup_update_ne by done.
    destruct (decide (old_dir = y)) as [->|Ho].
    + rewrite lookup_update_eq, Hy. simpl. eauto 10.
    + rewrite lookup_update_ne, Hy by done. eauto 10.
Qed.

Lemma rename_total trap lookup_good old_dir old_dentry new_dir new_name st :
  is_Some (dcache st !! old_dir) →
  is_Some (dcache st !! new_dir) →
  is_Some (dcache st !! old_dentry) →
  is_Some
    (debugfs_rename trap lookup_good old_dir old_dentry new_dir new_name st).
Proof.
  intros [od Hod] [nd Hnd] [x Hx]. unfold debugfs_rename.
  rewrite Hod, Hnd. simpl.
  destruct (negb (bool_decide (is_Some (d_inode od)))
            || negb (bool_decide (is_Some (d_inode nd)))) eqn:Hpar; [eauto|].
  rewrite Hx. simpl.
  destruct (negb (bool_decide (is_Some (d_inode x)))
            || bool_decide (Some old_dentry = trap) || d_mounted x) eqn:Hsrc;
    [eauto|].
  apply orb_false_iff in Hpar as [Ho Hn].
  apply negb_false_iff, bool_decide_eq_true in Ho, Hn.
  apply orb_false_iff in Hsrc as [Hsrc _].
  apply orb_false_iff in Hsrc as [Hsrc _].
  apply negb_false_iff, bool_decide_eq_true in Hsrc as [i Hi].
  destruct lookup_good.
  2: { simpl. eauto. }
  destruct (List.find (named_positive st new_name) (d_subdirs nd)) as [c|]
    eqn:Hfind.
  - destruct (lookup_one_len_found _ _ _ _ _ Hnd Hfind)
      as (Hl & y & iy & Hc & Hiy & _).
    rewrite Hl. simpl. rewrite Hc. simpl. rewrite Hiy.
    rewrite (bool_decide_eq_true_2 (is_Some (Some iy))) by eauto.
    rewrite orb_true_r. eauto.
  - rewrite (lookup_one_len_new _ _ _ _ Hnd Hfind).
    cbn [mbind option_bind].
    rewrite with_negative_lookup_fresh. simpl.
    case_match; [eauto|].
    assert (Hold : ∀ y v, dcache st !! y = Some v →
              dcache (with_negative new_name new_dir st) !! y = Some v).
    { intros y v Hy. rewrite with_negative_lookup_old by eauto. done. }
    rewrite (simple_rename_spec old_dir old_dentry new_dir _ _ od nd x i)
      by eauto.
    simpl. unfold d_move.
    destruct (relinked_state_lookup_some old_dir new_dir (S_ISDIR (i_mode i))
                _ old_dentry x (Hold _ _ Hx)) as (x' & -> & _).
    destruct (relinked_state_lookup_some old_dir new_dir (S_ISDIR (i_mode i))
                _ (fresh (dom (dcache st))) _
                (with_negative_lookup_fresh new_name new_dir st))
      as (t' & -> & _).
    simpl. eauto.
Qed.

(** When [debugfs_rename] refuses: the new parent already has a positive
    child of the new name, or [old_dentry] is the trap, or the looked-up
    dentry is the trap, or [old_dentry] has no inode, or it is a mount
    point. *)
Definition rename_refused (trap : option nat) (lookup_good : bool)
    (old_dentry new_dir : nat) (new_name : string) (st : state) : Prop :=
  has_positive_child st new_dir new_name
  ∨ trap = Some old_dentry
  ∨ (∃ t st1, lookup_one_len lookup_good new_name new_dir st
              = Some (PTR t, st1) ∧ trap = Some t)
  ∨ (∃ x, dcache st !! old_dentry = Some x
          ∧ (d_inode x = None ∨ d_mounted x = true)).

(** X20: [debugfs_rename] returns NULL and leaves the whole state as it was
    whenever the new parent already has a positive child of the new name, or
    [old_dentry] or the looked-up dentry is the trap that [lock_rename]
    returned, or [old_dentry] has no inode or is a mount point. *)
Theorem rename_refusals_change_nothing (trap : option nat) (lookup_good : bool)
    (old_dir old_dentry new_dir : nat) (new_name : string) (st : state) :
  is_Some (dcache st !! old_dir) →
  is_Some (dcache st !! new_dir) →
  is_Some (dcache st !! old_dentry) →
  (∀ t, trap = Some t → is_Some (dcache st !! t)) →
  rename_refused trap lookup_good old_dentry new_dir new_name st →
  debugfs_rename trap lookup_good old_dir old_dentry new_dir new_name st
  = Some (NULL, st).
Proof.
  intros Hod Hnd Hx Htrap Href.
  destruct (rename_total trap lookup_good old_dir old_dentry new_dir new_name
              st Hod Hnd Hx) as [[r st'] Hrun].
  rewrite Hrun.
  destruct (rename_cases _ _ _ _ _ _ _ _ _ Htrap Hrun)
    as [[-> ->] | (-> & od & nd & x & i & Hod' & _ & Hnd' & _ & Hx' & Hi
                   & Htr & Hm & -> & Hfind & _)]; [done|].
  exfalso. destruct Href as [Hchild | [Hold | [(t & st1 & Hl & Ht) | Hneg]]].
  - apply (find_positive_child st new_dir nd _ Hnd') in Hchild as [c Hc].
    congruence.
  - done.
  - rewrite (lookup_one_len_new _ _ _ _ Hnd' Hfind) in Hl.
    injection Hl as <- <-. destruct (Htrap _ Ht) as [? Hf].
    by rewrite fresh_not_in in Hf.
  - destruct Hneg as (x' & Hx'' & [Hno | Hmnt]); rewrite Hx' in Hx'';
      injection Hx'' as <-; congruence.
Qed.

Lemma rename_refusals_change_nothing_witness :
  rename_refused None true 1 0 "f" one_file_state
  ∧ debugfs_rename None true 0 1 0 "f" one_file_state
    = Some (NULL, one_file_state).
Proof.
  assert (Href : rename_refused None true 1 0 "f" one_file_state).
  { left. eapply find_positive_child; [vm_compute; reflexivity|].
    vm_compute. eauto. }
  split; [exact Href|].
  apply (rename_refusals_change_nothing None true 0 1 0 "f" one_file_state).
  - vm_compute. eauto.
  - vm_compute. eauto.
  - vm_compute. eauto.
  - intros t Ht. discriminate Ht.
  - exact Href.
Defined.

(** The store with a directory ["d"] (dentry 1) and a file ["f"] (dentry 2)
    under the root, after [debugfs_remove] of the file: the file is unhashed
    and, as [d_delete] leaves it here, still holds its inode. *)
Definition removed_file_state : state :=
  Eval vm_compute in
    match
      '(d, st) ← debugfs_create_dir ok_env "d" NULL init_state;
      '(f, st) ← debugfs_create_file ok_env "f" 0 NULL (opaque_data 0) None st;
      debugfs_remove f st
    with
    | Some st => st
    | None => init_state
    end.

Definition nlink_at (st : state) (d : nat) : option Z :=
  i_nlink <$> inode_of d st.

Definition children_at (st : state) (d : nat) : option (list nat) :=
  d_subdirs <$> dcache st !! d.

Lemma relinked_state_same dir b st : relinked_state dir dir b st = st.
Proof.
  unfold relinked_state. rewrite bool_decide_eq_true_2 by done.
  by rewrite andb_false_r.
Qed.

Lemma relinked_state_other old_dir new_dir b st y :
  y ≠ old_dir → y ≠ new_dir →
  dcache (relinked_state old_dir new_dir b st) !! y = dcache st !! y.
Proof.
  intros Ho Hn. unfold relinked_state. case_match; [|done].
  by rewrite !lookup_update_ne.
Qed.

Lemma relinked_state_old_dir old_dir new_dir b st :
  old_dir ≠ new_dir →
  dcache (relinked_state old_dir new_dir b st) !! old_dir
  = (λ d, if b then set_inode (drop_nlink <$> d_inode d) d else d)
    <$> dcache st !! old_dir.
Proof.
  intros Hne. unfold relinked_state.
  rewrite bool_decide_eq_false_2 by done. simpl. rewrite andb_true_r.
  destruct b.
  - rewrite lookup_update_ne by done. by rewrite lookup_update_eq.
  - by destruct (dcache st !! old_dir).
Qed.

Lemma relinked_state_new_dir old_dir new_dir b st :
  old_dir ≠ new_dir →
  dcache (relinked_state old_dir new_dir b st) !! new_dir
  = (λ d, if b then set_inode (inc_nlink <$> d_inode d) d else d)
    <$> dcache st !! new_dir.
Proof.
  intros Hne. unfold relinked_state.
  rewrite bool_decide_eq_false_2 by done. simpl. rewrite andb_true_r.
  destruct b.
  - rewrite lookup_update_eq. by rewrite lookup_update_ne.
  - by destruct (dcache st !! new_dir).
Qed.

Lemma elem_of_detach_self d p : d ∉ d_subdirs (detach d p).
Proof. unfold detach; simpl. rewrite list_elem_of_filter. by intros [? _]. Qed.

(** C8: behind a successful [debugfs_rename] of [old_dentry], a child of
    [old_dir], the function returns [old_dentry] itself; its name is
    [new_name] and its parent [new_dir]; it is the last child of [new_dir]
    and, when the two directories differ, no child of [old_dir] any more;
    when it is a directory and the two directories differ, the link count of
    [old_dir] is one less and that of [new_dir] one more, otherwise both
    link counts are what they were. *)
Theorem rename_moves_the_node (trap : option nat) (lookup_good : bool)
    (old_dir old_dentry new_dir : nat) (new_name : string) (st st' : state)
    (r : dentry_ptr) (x : dentry) (i : inode) :
  (∀ t, trap = Some t → is_Some (dcache st !! t)) →
  dcache st !! old_dentry = Some x →
  d_inode x = Some i →
  d_parent x = Some old_dir →
  old_dentry ≠ old_dir →
  old_dentry ≠ new_dir →
  debugfs_rename trap lookup_good old_dir old_dentry new_dir new_name st
  = Some (r, st') →
  r ≠ NULL →
  r = PTR old_dentry
  ∧ dcache st' !! old_dentry
    = Some (mk_dentry new_name (Some new_dir) (d_inode x) (d_unhashed x)
              (d_mounted x) (d_subdirs x))
  ∧ (∃ l, children_at st' new_dir = Some (l ++ [old_dentry]))
  ∧ (old_dir ≠ new_dir →
     ∃ l, children_at st' old_dir = Some l ∧ old_dentry ∉ l)
  ∧ (if S_ISDIR (i_mode i) && negb (bool_decide (old_dir = new_dir))
     then nlink_at st' old_dir = (λ n, n - 1)%Z <$> nlink_at st old_dir
          ∧ nlink_at st' new_dir = (λ n, n + 1)%Z <$> nlink_at st new_dir
     else nlink_at st' old_dir = nlink_at st old_dir
          ∧ nlink_at st' new_dir = nlink_at st new_dir).
Proof.
  intros Htrap Hx Hi Hpar Hne_old Hne_new Hrun Hr.
  destruct (rename_cases _ _ _ _ _ _ _ _ _ Htrap Hrun)
    as [[-> _] | (-> & od & nd & x0 & i0 & Hod & _ & Hnd & _ & Hx0 & Hi0
                  & _ & _ & _ & _ & Hmove)]; [done|].
  rewrite Hx in Hx0. injection Hx0 as <-.
  rewrite Hi in Hi0. injection Hi0 as <-.
  split; [done|].
  set (t := fresh (dom (dcache st))) in *.
  set (b := S_ISDIR (i_mode i)) in *.
  set (st1 := with_negative new_name new_dir st) in *.
  assert (Hold : ∀ y v, dcache st !! y = Some v → dcache st1 !! y = Some v).
  { intros y v Hy. unfold st1. rewrite with_negative_lookup_old by eauto.
    done. }
  assert (Ht_old : t ≠ old_dir) by (by eapply not_eq_sym, fresh_ne_existing).
  assert (Ht_new : t ≠ new_dir) by (by eapply not_eq_sym, fresh_ne_existing).
  assert (Ht_x : t ≠ old_dentry) by (by eapply not_eq_sym, fresh_ne_existing).
  unfold d_move in Hmove.
  rewrite (relinked_state_other old_dir new_dir b st1 old_dentry) in Hmove
    by done.
  rewrite (Hold _ _ Hx) in Hmove. cbn [mbind option_bind] in Hmove.
  rewrite (relinked_state_other old_dir new_dir b st1 t) in Hmove by done.
  assert (Ht : dcache st1 !! t = Some (negative_dentry new_name new_dir))
    by apply with_negative_lookup_fresh.
  rewrite Ht in Hmove.
  cbn [mbind option_bind negative_dentry d_parent d_name] in Hmove.
  rewrite Hpar in Hmove. injection Hmove as <-.
  split; [|split; [|split]].
  - rewrite lookup_update_ne by done. rewrite lookup_update_eq.
    rewrite lookup_update_ne by done.
    rewrite relinked_state_other by done. rewrite (Hold _ _ Hx). done.
  - unfold children_at. rewrite lookup_update_eq.
    rewrite lookup_update_ne by done.
    destruct (decide (old_dir = new_dir)) as [->|Hne].
    + rewrite lookup_update_eq, relinked_state_same, (Hold _ _ Hnd). simpl.
      eauto.
    + rewrite lookup_update_ne by done.
      rewrite relinked_state_new_dir, (Hold _ _ Hnd) by done. simpl.
      destruct b; simpl; eauto.
  - intros Hne. unfold children_at.
    rewrite !lookup_update_ne by done. rewrite lookup_update_eq.
    rewrite relinked_state_old_dir, (Hold _ _ Hod) by done. simpl.
    eexists. split; [done|]. rewrite list_elem_of_filter. by intros [? _].
  - unfold nlink_at, inode_of.
    destruct (decide (old_dir = new_dir)) as [->|Hne].
    + rewrite bool_decide_eq_true_2 by done. rewrite andb_false_r.
      rewrite lookup_update_eq. rewrite lookup_update_ne by done.
      rewrite lookup_update_eq, relinked_state_same, (Hold _ _ Hnd), Hnd.
      done.
    + rewrite bool_decide_eq_false_2 by done. rewrite andb_true_r.
      rewrite (lookup_update_ne new_dir _ _ old_dir) by done.
      rewrite (lookup_update_ne old_dentry _ _ old_dir) by done.
      rewrite (lookup_update_eq old_dir).
      rewrite (lookup_update_eq new_dir).
      rewrite (lookup_update_ne old_dentry _ _ new_dir) by done.
      rewrite (lookup_update_ne old_dir _ _ new_dir) by done.
      rewrite relinked_state_old_dir, relinked_state_new_dir by done.
      rewrite (Hold _ _ Hnd), (Hold _ _ Hod), Hnd, Hod. simpl.
      destruct b; simpl; [|done].
      destruct (d_inode od), (d_inode nd); done.
Qed.

(** Two directories under the root: ["x"] (dentry 1) and ["z"] (dentry 2). *)
Definition two_dirs_state : state :=
  Eval vm_compute in
    match
      '(x, st) ← debugfs_create_dir ok_env "x" NULL init_state;
      '(z, st) ← debugfs_create_dir ok_env "z" NULL st;
      Some st
    with
    | Some st => st
    | None => init_state
    end.

Lemma rename_moves_the_node_witness :
  nlink_at two_dirs_state 0 = Some 4%Z
  ∧ nlink_at two_dirs_state 2 = Some 2%Z
  ∧ ∃ st', debugfs_rename None true 0 1 2 "y" two_dirs_state
           = Some (PTR 1, st')
           ∧ d_name <$> dcache st' !! 1 = Some "y"
           ∧ (∃ l, children_at st' 0 = Some l ∧ 1 ∉ l)
           ∧ (∃ l, children_at st' 2 = Some (l ++ [1]))
           ∧ nlink_at st' 0 = Some 3%Z
           ∧ nlink_at st' 2 = Some 3%Z.
Proof.
  split; [reflexivity|]. split; [reflexivity|].
  assert (∃ st', debugfs_rename None true 0 1 2 "y" two_dirs_state
                 = Some (PTR 1, st')) as [st' Hrun]
    by (eexists; vm_compute; reflexivity).
  exists st'. split; [exact Hrun|].
  edestruct (rename_moves_the_node None true 0 1 2 "y" two_dirs_state st'
               (PTR 1)) as (_ & Hself & Hnew & Hold & Hlink);
    [ intros t Ht; discriminate Ht
    | vm_compute; reflexivity
    | reflexivity
    | reflexivity
    | lia
    | lia
    | exact Hrun
    | discriminate
    | ].
  split; [by rewrite Hself|].
  split; [apply Hold; lia|].
  split; [exact Hnew|].
  lazymatch type of Hlink with
  | (if ?c then _ else _) =>
      replace c with true in Hlink by (vm_compute; reflexivity)
  end.
  destruct Hlink as [H0 H2]. rewrite H0, H2. split; reflexivity.
Defined.

(** ** The tree of dentries *)

Definition child_of (st : state) (c p : nat) : Prop :=
  ∃ x, dcache st !! p = Some x ∧ c ∈ d_subdirs x.

(** [below st p y]: [y] is a descendant of [p], [p] itself excluded. *)
Inductive below (st : state) (p : nat) : nat → Prop :=
  | below_child c : child_of st c p → below st p c
  | below_step b y : below st p b → child_of st y b → below st p y.

Definition in_subtree (st : state) (root y : nat) : Prop :=
  y = root ∨ below st root y.

(** Acyclicity, through a rank that decreases from parent to child. *)
Definition ranked (rank : nat → nat) (st : state) : Prop :=
  ∀ c p, child_of st c p → rank c < rank p.

(** The children lists describe a forest of positive nodes: a listed child
    exists, points back to the directory that lists it and is positive, and
    no list has a repetition. *)
Record tree_ok (st : state) : Prop := mk_tree_ok {
  ok_listed : ∀ p x c,
    dcache st !! p = Some x → c ∈ d_subdirs x →
    ∃ y, dcache st !! c = Some y ∧ d_parent y = Some p
         ∧ debugfs_positive y = true;
  ok_nodup : ∀ p x, dcache st !! p = Some x → NoDup (d_subdirs x)
}.

Lemma below_rank rank st p y : ranked rank st → below st p y → rank y < rank p.
Proof.
  intros Hr. induction 1 as [c Hc | b y _ IH Hy].
  - by apply Hr.
  - apply Hr in Hy. lia.
Qed.

Lemma below_trans st p b y : below st p b → below st b y → below st p y.
Proof.
  intros Hpb. induction 1 as [c Hc | b' y _ IH Hy].
  - by eapply below_step.
  - by eapply below_step.
Qed.

Lemma below_first st p y :
  below st p y → ∃ c, child_of st c p ∧ (y = c ∨ below st c y).
Proof.
  induction 1 as [c Hc | b y _ (c & Hc & IH) Hy].
  - exists c. split; [done|]. by left.
  - exists c. split; [done|]. right. destruct IH as [-> | IH].
    + by apply below_child.
    + by eapply below_step.
Qed.

Lemma below_mono st st' p y :
  (∀ a b, child_of st' a b → child_of st a b) →
  below st' p y → below st p y.
Proof.
  intros Hm. induction 1 as [c Hc | b y _ IH Hy].
  - apply below_child. by apply Hm.
  - eapply below_step; [done|]. by apply Hm.
Qed.

Lemma below_listed st p y : below st p y → ∃ b, child_of st y b.
Proof. destruct 1; eauto. Qed.

Lemma child_positive st c p :
  tree_ok st → child_of st c p → positive_at st c = true.
Proof.
  intros Hok (x & Hp & Hin).
  destruct (ok_listed st Hok p x c Hp Hin) as (y & Hc & _ & Hpos).
  unfold positive_at. by rewrite Hc.
Qed.

Lemma child_parent_unique st c p q :
  tree_ok st → child_of st c p → child_of st c q → p = q.
Proof.
  intros Hok (x & Hp & Hin) (x' & Hq & Hin').
  destruct (ok_listed st Hok p x c Hp Hin) as (y & Hc & Hpar & _).
  destruct (ok_listed st Hok q x' c Hq Hin') as (y' & Hc' & Hpar' & _).
  congruence.
Qed.

(** ** What a removal does to the tree *)

(** The parent's entry once the child [c] is gone from under it. *)
Definition unlinked (c : nat) (was_dir : bool) (x : dentry) : dentry :=
  detach c (if was_dir then set_inode (drop_nlink <$> d_inode x) x else x).

Lemma removed_state_lookup c p b st y :
  c ≠ p →
  dcache (removed_state c p b st) !! y
  = if decide (y = c) then set_unhashed true <$> dcache st !! c
    else if decide (y = p) then unlinked c b <$> dcache st !! p
    else dcache st !! y.
Proof.
  intros Hne. destruct (decide (y = c)) as [->|Hc].
  { by apply removed_state_self. }
  destruct (decide (y = p)) as [->|Hp].
  { by apply removed_state_parent. }
  by apply removed_state_other.
Qed.

Lemma unlinked_positive c b x :
  debugfs_positive (unlinked c b x) = debugfs_positive x.
Proof.
  unfold unlinked, detach, debugfs_positive. destruct b; simpl; [|done].
  by destruct (d_inode x).
Qed.

Lemma unlinked_fields c b x :
  d_parent (unlinked c b x) = d_parent x
  ∧ d_name (unlinked c b x) = d_name x
  ∧ d_unhashed (unlinked c b x) = d_unhashed x
  ∧ d_mounted (unlinked c b x) = d_mounted x
  ∧ d_subdirs (unlinked c b x) = filter (λ y, y ≠ c) (d_subdirs x)
  ∧ i_mode <$> d_inode (unlinked c b x) = i_mode <$> d_inode x.
Proof.
  unfold unlinked, detach. destruct b; simpl; repeat split.
  by destruct (d_inode x).
Qed.

(** Apart from the removed node, every entry keeps its parent pointer and
    its state; only the parent's entry differs at all. *)
Lemma removed_state_kept c p b st y v :
  c ≠ p → y ≠ c → dcache st !! y = Some v →
  ∃ v', dcache (removed_state c p b st) !! y = Some v'
        ∧ d_parent v' = d_parent v
        ∧ debugfs_positive v' = debugfs_positive v
        ∧ (∀ z, z ∈ d_subdirs v' → z ∈ d_subdirs v ∧ (y = p → z ≠ c))
        ∧ (y ≠ p → v' = v)
        ∧ (y = p → v' = unlinked c b v).
Proof.
  intros Hne Hyc Hy. rewrite removed_state_lookup by done.
  rewrite decide_False by done. destruct (decide (y = p)) as [->|Hp].
  - rewrite Hy. simpl. eexists. split; [done|].
    destruct (unlinked_fields c b v) as (Hpar & _ & _ & _ & Hsub & _).
    split; [done|]. split; [apply unlinked_positive|].
    split; [|split; [done|done]].
    intros z. rewrite Hsub, list_elem_of_filter. intros [? ?]. done.
  - exists v. repeat split; try done.
Qed.

Lemma removed_state_tree_ok c p b st xc :
  tree_ok st →
  dcache st !! c = Some xc → d_parent xc = Some p → c ≠ p →
  tree_ok (removed_state c p b st).
Proof.
  intros Hok Hc Hpar Hne.
  assert (Hchild : ∀ q x z, dcache st !! q = Some x → z ∈ d_subdirs x →
            (q = p → z ≠ c) →
            ∃ y, dcache (removed_state c p b st) !! z = Some y
                 ∧ d_parent y = Some q ∧ debugfs_positive y = true).
  { intros q x z Hq Hz Hqp.
    destruct (ok_listed st Hok q x z Hq Hz) as (y & Hy & Hyp & Hpos).
    assert (z ≠ c) as Hzc.
    { intros ->. rewrite Hc in Hy. injection Hy as <-.
      rewrite Hpar in Hyp. injection Hyp as ->. by apply Hqp. }
    destruct (removed_state_kept c p b st z y Hne Hzc Hy)
      as (y' & Hy' & Hpar' & Hpos' & _).
    exists y'. split; [done|]. split; congruence. }
  split.
  - intros q x' z Hq Hz.
    destruct (decide (q = c)) as [->|Hqc].
    + rewrite removed_state_self, Hc in Hq by done. injection Hq as <-.
      simpl in Hz. eapply Hchild; eauto.
    + destruct (dcache st !! q) as [x|] eqn:Hq0.
      2: { rewrite removed_state_lookup in Hq by done.
           rewrite decide_False in Hq by done.
           destruct (decide (q = p)) as [->|]; by rewrite Hq0 in Hq. }
      destruct (removed_state_kept c p b st q x Hne Hqc Hq0)
        as (x'' & Hq' & _ & _ & Hsub & _).
      rewrite Hq in Hq'. injection Hq' as <-.
      destruct (Hsub z Hz) as [Hzx Hzc]. eapply Hchild; eauto.
  - intros q x' Hq.
    destruct (decide (q = c)) as [->|Hqc].
    + rewrite removed_state_self, Hc in Hq by done. injection Hq as <-.
      simpl. by eapply ok_nodup.
    + rewrite removed_state_lookup in Hq by done.
      rewrite decide_False in Hq by done.
      destruct (decide (q = p)) as [->|Hqp].
      * destruct (dcache st !! p) as [x|] eqn:Hp; [|done].
        injection Hq as <-.
        destruct (unlinked_fields c b x) as (_ & _ & _ & _ & -> & _).
        apply NoDup_filter. by eapply ok_nodup.
      * by eapply ok_nodup.
Qed.

Lemma removed_state_child_of c p b st a q :
  c ≠ p → child_of (removed_state c p b st) a q → child_of st a q.
Proof.
  intros Hne (x' & Hq & Ha). rewrite removed_state_lookup in Hq by done.
  destruct (decide (q = c)) as [->|Hqc].
  { destruct (dcache st !! c) as [x|] eqn:Hc; [|done]. injection Hq as <-.
    by exists x. }
  destruct (decide (q = p)) as [->|Hqp].
  { destruct (dcache st !! p) as [x|] eqn:Hp; [|done]. injection Hq as <-.
    exists x. split; [done|].
    destruct (unlinked_fields c b x) as (_ & _ & _ & _ & Hsub & _).
    rewrite Hsub in Ha. by apply list_elem_of_filter in Ha as [_ ?]. }
  by exists x'.
Qed.

Lemma removed_state_positive c p b st y :
  c ≠ p →
  positive_at (removed_state c p b st) y
  = if decide (y = c) then false else positive_at st y.
Proof.
  intros Hne. destruct (decide (y = c)) as [->|Hyc].
  { by apply positive_at_removed. }
  unfold positive_at. destruct (dcache st !! y) as [v|] eqn:Hy.
  - destruct (removed_state_kept c p b st y v Hne Hyc Hy)
      as (v' & -> & _ & -> & _). done.
  - rewrite removed_state_lookup by done. rewrite decide_False by done.
    destruct (decide (y = p)) as [->|]; by rewrite Hy.
Qed.

(** ** Running the recursive removal *)

Fixpoint rr_steps (k : nat) (dentry : nat) (c : rr_config) : option rr_config :=
  match k with
  | O => Some c
  | S k => c' ← rr_step dentry c; rr_steps k dentry c'
  end.

Lemma rr_steps_app k1 k2 dentry c c' c'' :
  rr_steps k1 dentry c = Some c' →
  rr_steps k2 dentry c' = Some c'' →
  rr_steps (k1 + k2) dentry c = Some c''.
Proof.
  revert c. induction k1 as [|k1 IH]; intros c; simpl.
  - by intros [= ->].
  - destruct (rr_step dentry c) as [c1|]; simpl; [|done]. apply IH.
Qed.

Lemma rr_run_return fuel dentry st log :
  rr_run fuel dentry (at_return, st, log) = Some (st, log).
Proof. by destruct fuel. Qed.

Lemma rr_run_unfold fuel dentry c :
  rr_run (S fuel) dentry c = rr_step dentry c ≫= rr_run fuel dentry.
Proof.
  destruct c as [[pc st] log]. destruct pc; try done.
  simpl. by rewrite rr_run_return.
Qed.

Lemma rr_run_steps k fuel dentry c st log :
  rr_steps k dentry c = Some (at_return, st, log) →
  rr_run (k + fuel) dentry c = Some (st, log).
Proof.
  revert c. induction k as [|k IH]; intros c.
  - simpl. intros [= ->]. apply rr_run_return.
  - change (S k + fuel) with (S (k + fuel)). rewrite rr_run_unfold. simpl.
    destruct (rr_step dentry c) as [c1|]; simpl; [|done]. apply IH.
Qed.

Lemma list_next_head c l : list_next (c :: l) c = head l.
Proof. simpl. by rewrite decide_True. Qed.

Lemma list_next_in l x n : list_next l x = Some n → n ∈ l.
Proof.
  induction l as [|y l IH]; simpl; [done|].
  destruct (decide (y = x)) as [->|Hne].
  - destruct l as [|z l]; simpl; [done|]. intros [= ->]. set_solver.
  - intros H. apply IH in H. set_solver.
Qed.

Lemma list_next_ne l x n : NoDup l → list_next l x = Some n → n ≠ x.
Proof.
  induction l as [|y l IH]; simpl; [done|].
  intros Hnd. apply NoDup_cons in Hnd as [Hy Hnd].
  destruct (decide (y = x)) as [->|Hne].
  - destruct l as [|z l]; simpl; [done|]. intros [= ->] ->. set_solver.
  - by apply IH.
Qed.

(** [before l z y]: [z] occurs in [l] at an earlier position than [y]. *)
Definition before (l : list nat) (z y : nat) : Prop :=
  ∃ i j, l !! i = Some z ∧ l !! j = Some y ∧ i < j.

Lemma before_app_l l1 l2 z y : before l1 z y → before (l1 ++ l2) z y.
Proof.
  intros (i & j & Hi & Hj & Hlt). exists i, j.
  split; [by apply lookup_app_l_Some|]. split; [by apply lookup_app_l_Some|done].
Qed.

Lemma before_app_r l1 l2 z y : before l2 z y → before (l1 ++ l2) z y.
Proof.
  intros (i & j & Hi & Hj & Hlt). exists (length l1 + i), (length l1 + j).
  rewrite !lookup_app_r by lia.
  replace (length l1 + i - length l1) with i by lia.
  replace (length l1 + j - length l1) with j by lia.
  split; [done|]. split; [done|lia].
Qed.

Lemma before_snoc l z y : z ∈ l → before (l ++ [y]) z y.
Proof.
  intros Hz. apply list_elem_of_lookup in Hz as [i Hi].
  exists i, (length l). split; [by apply lookup_app_l_Some|].
  split.
  - rewrite lookup_app_r by lia. by rewrite Nat.sub_diag.
  - by eapply lookup_lt_Some.
Qed.

Lemma before_trans l x y z :
  NoDup l → before l x y → before l y z → before l x z.
Proof.
  intros Hnd (i & j & Hi & Hj & Hij) (j' & k & Hj' & Hk & Hjk).
  assert (j = j') as <- by (by eapply NoDup_lookup).
  exists i, k. split; [done|]. split; [done|lia].
Qed.

Lemma tree_ok_dcache st st' : dcache st' = dcache st → tree_ok st → tree_ok st'.
Proof.
  intros Heq [H1 H2]. split.
  - intros p x c. rewrite !Heq. apply H1.
  - intros p x. rewrite Heq. apply H2.
Qed.

Lemma child_of_dcache st st' a b :
  dcache st' = dcache st → child_of st' a b ↔ child_of st a b.
Proof. intros Heq. unfold child_of. by rewrite Heq. Qed.

Lemma positive_at_dcache st st' y :
  dcache st' = dcache st → positive_at st' y = positive_at st y.
Proof. intros Heq. unfold positive_at. by rewrite Heq. Qed.

(** A dentry with another list of children and another link count: what the
    removal of children leaves of their directory. *)
Definition bookkept (l : list nat) (n : Z) (x : dentry) : dentry :=
  set_subdirs l (set_inode (set_nlink n <$> d_inode x) x).

Lemma bookkept_id x : ∃ n, bookkept (d_subdirs x) n x = x.
Proof.
  destruct x as [nm par [i|] uh mt l]; unfold bookkept; simpl.
  - exists (i_nlink i). by destruct i.
  - by exists 0%Z.
Qed.

Lemma bookkept_twice l1 n1 l2 n2 x :
  bookkept l2 n2 (bookkept l1 n1 x) = bookkept l2 n2 x.
Proof.
  destruct x as [nm par [i|] uh mt l]; unfold bookkept; simpl; [|done].
  by destruct i.
Qed.

Lemma unlinked_bookkept c b x :
  ∃ n, unlinked c b x = bookkept (filter (λ y, y ≠ c) (d_subdirs x)) n x.
Proof.
  destruct x as [nm par [i|] uh mt l]; unfold unlinked, bookkept, detach; simpl.
  - destruct b; simpl.
    + exists (i_nlink i - 1)%Z. by destruct i.
    + exists (i_nlink i). by destruct i.
  - exists 0%Z. by destruct b.
Qed.

Lemma bookkept_positive l n x :
  debugfs_positive (bookkept l n x) = debugfs_positive x.
Proof. unfold bookkept, debugfs_positive; simpl. by destruct (d_inode x). Qed.

Lemma bookkept_inode l n x i :
  d_inode x = Some i → d_inode (bookkept l n x) = Some (set_nlink n i).
Proof. unfold bookkept; simpl. by intros ->. Qed.

Lemma filter_ne_head (c : nat) (rest : list nat) :
  NoDup (c :: rest) → filter (λ y, y ≠ c) (c :: rest) = rest.
Proof.
  intros Hnd. apply NoDup_cons in Hnd as [Hc _].
  rewrite filter_cons_False by (intros H; by apply H).
  induction rest as [|z rest IH]; [done|].
  rewrite filter_cons_True by set_solver. f_equal. apply IH. set_solver.
Qed.

(** One turn through the label [up]: the childless positive node [c] is
    removed from under [p] and the loop moves on to [next]. *)
Lemma rr_up_step dentry p c next sa lg xc ic xpa :
  dcache sa !! c = Some xc →
  debugfs_positive xc = true →
  d_inode xc = Some ic →
  d_subdirs xc = [] →
  dcache sa !! p = Some xpa →
  is_Some (d_inode xpa) →
  c ≠ p →
  rr_step dentry (at_up p c next, sa, lg)
  = Some (at_loop p next
            (next ≫= list_next (filter (λ y, y ≠ c) (d_subdirs xpa))),
          simple_release_fs (removed_state c p (S_ISDIR (i_mode ic)) sa),
          lg ++ [c]).
Proof.
  intros Hc Hpos Hic Hleaf Hp Hip Hne.
  assert (Hrm : __debugfs_remove c p sa
                = Some (0%Z, removed_state c p (S_ISDIR (i_mode ic)) sa)).
  { eapply debugfs_remove_positive; eauto.
    - unfold inode_of. rewrite Hp. simpl. done.
    - intros _. unfold simple_empty. rewrite Hc. simpl. by rewrite Hleaf. }
  unfold rr_step, rr_remove. rewrite Hrm. simpl.
  assert (positive_at sa c = true) as -> by (unfold positive_at; by rewrite Hc).
  rewrite positive_at_removed by done. simpl.
  unfold rr_advance. rewrite release_dcache.
  rewrite removed_state_parent, Hp by done. simpl.
  by destruct (S_ISDIR (i_mode ic)).
Qed.

(** What a stretch of the walk has achieved between [st] and [st']: the
    nodes in [T] are removed and logged, children before their parents; the
    directory [p] being emptied is left with the children [l']; nothing else
    has changed. *)
Record walk_post (st : state) (p : nat) (xp : dentry) (T : nat → Prop)
    (l' : list nat) (st' : state) (log' : list nat) : Prop := mk_walk_post {
  wp_ok : tree_ok st';
  wp_child : ∀ a b, child_of st' a b → child_of st a b;
  wp_pos : ∀ y, positive_at st' y = true → positive_at st y = true;
  wp_frame : ∀ y, ¬ T y → y ≠ p → dcache st' !! y = dcache st !! y;
  wp_parent : ∃ n, dcache st' !! p = Some (bookkept l' n xp);
  wp_removed : ∀ y, T y → positive_at st' y = false;
  wp_log : ∀ y, y ∈ log' ↔ T y;
  wp_nodup : NoDup log';
  wp_order : ∀ y z, y ∈ log' → child_of st z y → before log' z y
}.

Lemma below_nil st p xp y :
  dcache st !! p = Some xp → d_subdirs xp = [] → ¬ below st p y.
Proof.
  intros Hp Hl Hb. apply below_first in Hb as (c & (x & Hx & Hin) & _).
  rewrite Hp in Hx. injection Hx as <-. rewrite Hl in Hin. set_solver.
Qed.

Lemma walk_post_nil st p xp :
  tree_ok st → dcache st !! p = Some xp → d_subdirs xp = [] →
  walk_post st p xp (below st p) [] st [].
Proof.
  intros Hok Hp Hl. split; try done.
  - destruct (bookkept_id xp) as [n Hn]. exists n. rewrite <- Hl. by rewrite Hn.
  - intros y Hb. by eapply below_nil in Hb.
  - intros y. split; [set_solver|]. intros Hb. by eapply below_nil in Hb.
  - constructor.
  - set_solver.
Qed.

Lemma ranked_irrefl rank st p : ranked rank st → ¬ below st p p.
Proof. intros Hr Hb. apply (below_rank rank) in Hb; [lia|done]. Qed.

Lemma walk_post_remove rank st p xp c xc ic sa log_a :
  tree_ok st → ranked rank st →
  dcache st !! p = Some xp → c ∈ d_subdirs xp →
  dcache st !! c = Some xc → d_inode xc = Some ic →
  walk_post st c xc (below st c) [] sa log_a →
  walk_post st p xp (λ y, y = c ∨ below st c y)
    (filter (λ y, y ≠ c) (d_subdirs xp))
    (simple_release_fs (removed_state c p (S_ISDIR (i_mode ic)) sa))
    (log_a ++ [c]).
Proof.
  intros Hok Hr Hp Hl Hc Hic [Hoka Hch Hpos Hfr [n Hpar] Hrem Hlg Hnd Hord].
  assert (Hcp : child_of st c p) by (by exists xp).
  assert (Hne : c ≠ p).
  { intros ->. apply Hr in Hcp. lia. }
  destruct (ok_listed st Hok p xp c Hp Hl) as (xc' & Hc' & Hcpar & Hcpos).
  rewrite Hc in Hc'. injection Hc' as <-.
  assert (Hpa : dcache sa !! p = Some xp).
  { rewrite Hfr; [done| |by apply not_eq_sym].
    intros Hb. apply (below_rank rank) in Hb; [|done]. apply Hr in Hcp. lia. }
  set (b := S_ISDIR (i_mode ic)).
  set (st1 := simple_release_fs (removed_state c p b sa)).
  assert (Hdc : dcache st1 = dcache (removed_state c p b sa))
    by apply release_dcache.
  split.
  - apply (tree_ok_dcache (removed_state c p b sa)); [done|].
    eapply (removed_state_tree_ok c p b sa); eauto.
  - intros a q Ha. apply Hch. eapply removed_state_child_of; [done|].
    by apply (child_of_dcache _ _ _ _ Hdc).
  - intros y. rewrite (positive_at_dcache _ _ _ Hdc).
    rewrite removed_state_positive by done. case_decide; [done|]. apply Hpos.
  - intros y HT Hyp. rewrite Hdc. rewrite removed_state_other; [|naive_solver|done].
    apply Hfr; naive_solver.
  - rewrite Hdc, removed_state_parent, Hpa by done.
    change (∃ n0, Some (unlinked c b xp)
                  = Some (bookkept (filter (λ y, y ≠ c) (d_subdirs xp)) n0 xp)).
    destruct (unlinked_bookkept c b xp) as [n' ->]. eauto.
  - intros y HT. rewrite (positive_at_dcache _ _ _ Hdc).
    rewrite removed_state_positive by done. case_decide; [done|].
    apply Hrem. naive_solver.
  - intros y. rewrite elem_of_app, Hlg. set_solver.
  - apply NoDup_app. split; [done|]. split; [|apply NoDup_singleton].
    intros y Hy Hy'. apply list_elem_of_singleton in Hy' as ->.
    apply Hlg in Hy. by eapply ranked_irrefl.
  - intros y z Hy Hz. apply elem_of_app in Hy as [Hy | Hy].
    + apply before_app_l. by apply Hord.
    + apply list_elem_of_singleton in Hy as ->. apply before_snoc.
      apply Hlg. by apply below_child.
Qed.

Lemma ranked_mono rank st st' :
  (∀ a b, child_of st' a b → child_of st a b) → ranked rank st → ranked rank st'.
Proof. intros Hm Hr c p Hc. apply Hr. by apply Hm. Qed.

Lemma below_positive st p y : tree_ok st → below st p y → positive_at st y = true.
Proof.
  intros Hok Hb. apply below_listed in Hb as [b Hb]. by eapply child_positive.
Qed.

(** The descendants of [p]: its first child [c], the descendants of [c], and
    what is left below [p] once [c] and its descendants are gone. *)
Lemma below_split rank st p xp c rest st1 log1 :
  tree_ok st → ranked rank st →
  dcache st !! p = Some xp → d_subdirs xp = c :: rest →
  walk_post st p xp (λ y, y = c ∨ below st c y) rest st1 log1 →
  ∀ y, below st p y ↔ (y = c ∨ below st c y) ∨ below st1 p y.
Proof.
  intros Hok Hr Hp Hl [Hok1 Hch Hpos Hfr [n Hpar] Hrem _ _ _] y.
  assert (Hcp : child_of st c p).
  { exists xp. split; [done|]. rewrite Hl. set_solver. }
  assert (Hr1 : ranked rank st1) by by eapply ranked_mono.
  split.
  - induction 1 as [y (x & Hx & Hin) | b y Hb IH Hy].
    + rewrite Hp in Hx. injection Hx as <-. rewrite Hl in Hin.
      apply elem_of_cons in Hin as [-> | Hin]; [by left; left|].
      right. apply below_child. eexists. split; [exact Hpar|done].
    + destruct IH as [[-> | Hcb] | Hb1].
      * left. right. by apply below_child.
      * left. right. by eapply below_step.
      * right. eapply below_step; [exact Hb1|].
        destruct Hy as (xb & Hxb & Hin). exists xb. split; [|done].
        rewrite Hfr; [done| |].
        -- intros HT. apply Hrem in HT.
           apply (below_positive _ _ _ Hok1) in Hb1. congruence.
        -- intros ->. by eapply ranked_irrefl.
  - intros [[-> | Hcy] | Hy1].
    + by apply below_child.
    + eapply below_trans; [|done]. by apply below_child.
    + by eapply below_mono.
Qed.

Lemma walk_post_compose rank st p xp c rest st1 log1 xp1 st' log2 :
  tree_ok st → ranked rank st →
  dcache st !! p = Some xp → d_subdirs xp = c :: rest →
  walk_post st p xp (λ y, y = c ∨ below st c y) rest st1 log1 →
  dcache st1 !! p = Some xp1 →
  walk_post st1 p xp1 (below st1 p) [] st' log2 →
  walk_post st p xp (below st p) [] st' (log1 ++ log2).
Proof.
  intros Hok Hr Hp Hl H1 Hp1 H2.
  pose proof (below_split rank st p xp c rest st1 log1 Hok Hr Hp Hl H1) as Hsplit.
  destruct H1 as [Hok1 Hch1 Hpos1 Hfr1 [n1 Hpar1] Hrem1 Hlg1 Hnd1 Hord1].
  destruct H2 as [Hok2 Hch2 Hpos2 Hfr2 [n2 Hpar2] Hrem2 Hlg2 Hnd2 Hord2].
  assert (Hr1 : ranked rank st1) by by eapply ranked_mono.
  assert (Hkeep : ∀ y, below st1 p y → dcache st1 !! y = dcache st !! y).
  { intros y Hy. apply Hfr1.
    - intros HT. apply Hrem1 in HT.
      apply (below_positive _ _ _ Hok1) in Hy. congruence.
    - intros ->. by eapply ranked_irrefl. }
  split.
  - done.
  - intros a b Hab. by apply Hch1, Hch2.
  - intros y Hy. by apply Hpos1, Hpos2.
  - intros y Hy Hyp. rewrite Hfr2, Hfr1; [done| |done| |done].
    + intros HT. apply Hy, Hsplit. by left.
    + intros Hb. apply Hy, Hsplit. by right.
  - exists n2. rewrite Hpar2. rewrite Hp1 in Hpar1. injection Hpar1 as ->.
    by rewrite bookkept_twice.
  - intros y Hy. apply Hsplit in Hy as [HT | Hb].
    + apply Hrem1 in HT. destruct (positive_at st' y) eqn:Hpy; [|done].
      apply Hpos2 in Hpy. congruence.
    + by apply Hrem2.
  - intros y. rewrite elem_of_app, Hlg1, Hlg2, Hsplit. done.
  - apply NoDup_app. split; [done|]. split; [|done].
    intros y Hy1 Hy2. apply Hlg1, Hrem1 in Hy1.
    apply Hlg2, (below_positive _ _ _ Hok1) in Hy2. congruence.
  - intros y z Hy Hz. apply elem_of_app in Hy as [Hy | Hy].
    + apply before_app_l. by apply Hord1.
    + apply before_app_r. apply Hord2; [done|].
      apply Hlg2 in Hy. destruct Hz as (xy & Hxy & Hin).
      exists xy. split; [|done]. by rewrite Hkeep.
Qed.

(** The loop of [debugfs_remove_recursive] at its test, about to visit the
    children [l] of [p] in order. *)
Definition loop_head (p : nat) (l : list nat) : rr_pc :=
  at_loop p (head l) (head l ≫= list_next l).

Lemma rr_steps_one dentry c c' :
  rr_step dentry c = Some c' → rr_steps 1 dentry c = Some c'.
Proof. simpl. by intros ->. Qed.

Lemma loop_head_cons p c rest :
  loop_head p (c :: rest) = at_loop p (Some c) (head rest).
Proof. unfold loop_head. simpl. by rewrite decide_True. Qed.

(** The walk below one directory: started at the loop test of [p] with all
    the children of [p] ahead, it arrives behind the loop with every
    descendant of [p] removed. *)
Lemma rr_level rank dentry n :
  ∀ p, rank p ≤ n → ∀ l st xp log,
    tree_ok st → ranked rank st →
    dcache st !! p = Some xp → d_subdirs xp = l → is_Some (d_inode xp) →
    ¬ below st p dentry →
    ∃ k st' log',
      rr_steps k dentry (loop_head p l, st, log)
      = Some (at_after p, st', log ++ log')
      ∧ walk_post st p xp (below st p) [] st' log'.
Proof.
  induction n as [n IHn] using lt_wf_ind.
  intros p Hrank l.
  induction l as [|c rest IHl]; intros st xp log Hok Hr Hp Hl Hip HD.
  { exists 1, st, []. split.
    - simpl. by rewrite app_nil_r.
    - by apply walk_post_nil. }
  assert (Hcp : child_of st c p).
  { exists xp. split; [done|]. rewrite Hl. set_solver. }
  destruct (ok_listed st Hok p xp c Hp) as (xc & Hc & Hcpar & Hcpos).
  { rewrite Hl. set_solver. }
  assert (Hrc : rank c < rank p) by by apply Hr.
  assert (Hne : c ≠ p) by (intros ->; lia).
  assert (HcD : c ≠ dentry).
  { intros ->. apply HD. by apply below_child. }
  assert (∃ ic, d_inode xc = Some ic) as [ic Hic].
  { unfold debugfs_positive in Hcpos. destruct (d_inode xc); [eauto|done]. }
  assert (Hnd : NoDup (c :: rest)).
  { rewrite <- Hl. by eapply ok_nodup. }
  (* down into [c] and back up to the label [up] *)
  assert (∃ k1 sa log_a,
    rr_steps k1 dentry (loop_head p (c :: rest), st, log)
    = Some (at_up p c (head rest), sa, log ++ log_a)
    ∧ walk_post st c xc (below st c) [] sa log_a) as (k1 & sa & log_a & Hrun1 & Hw).
  { rewrite loop_head_cons.
    destruct (d_subdirs xc) as [|c' lc] eqn:Hlc.
    - exists 1, st, []. split; [|by apply walk_post_nil].
      apply rr_steps_one. simpl. rewrite Hc. simpl. rewrite Hcpos. simpl.
      rewrite Hlc. simpl. by rewrite app_nil_r.
    - destruct (IHn (rank c) ltac:(lia) c ltac:(lia) (c' :: lc) st xc log)
        as (k' & sa & log_a & Hrun & Hw); try done.
      { intros Hb. apply HD. eapply below_trans; [|done]. by apply below_child. }
      exists (1 + (1 + (k' + 1))), sa, log_a. split; [|done].
      eapply rr_steps_app.
      { apply rr_steps_one. simpl. rewrite Hc. simpl. rewrite Hcpos. simpl.
        rewrite Hlc. simpl. done. }
      eapply rr_steps_app.
      { apply rr_steps_one. simpl. unfold inode_of. rewrite Hc. simpl.
        rewrite Hic. simpl. rewrite Hlc. done. }
      eapply rr_steps_app; [exact Hrun|].
      apply rr_steps_one.
      destruct Hw as [_ _ _ Hfr [m Hpar] _ _ _ _].
      assert (Hpa : dcache sa !! p = Some xp).
      { rewrite Hfr; [done| |by apply not_eq_sym].
        intros Hb. apply (below_rank rank) in Hb; [lia|done]. }
      simpl. rewrite Hpar. simpl. rewrite Hcpar. simpl.
      unfold inode_of. rewrite Hpa. simpl.
      destruct Hip as [ip Hip]. rewrite Hip. simpl.
      rewrite bool_decide_eq_true_2 by done. rewrite Hl.
      by rewrite list_next_head. }
  (* remove [c] *)
  pose proof (walk_post_remove rank st p xp c xc ic sa log_a
                Hok Hr Hp ltac:(rewrite Hl; set_solver) Hc Hic Hw) as H1.
  rewrite Hl, filter_ne_head in H1 by done.
  set (st1 := simple_release_fs (removed_state c p (S_ISDIR (i_mode ic)) sa))
    in *.
  assert (Hup : rr_step dentry (at_up p c (head rest), sa, log ++ log_a)
                = Some (loop_head p rest, st1, (log ++ log_a) ++ [c])).
  { destruct Hw as [_ _ _ Hfr [m Hpar] _ _ _ _].
    assert (Hpa : dcache sa !! p = Some xp).
    { rewrite Hfr; [done| |by apply not_eq_sym].
      intros Hb. apply (below_rank rank) in Hb; [lia|done]. }
    rewrite (rr_up_step dentry p c (head rest) sa (log ++ log_a)
               (bookkept [] m xc) (set_nlink m ic) xp); try done.
    - rewrite Hl, filter_ne_head by done. done.
    - by rewrite bookkept_positive.
    - by apply bookkept_inode. }
  (* the remaining children *)
  destruct (wp_parent _ _ _ _ _ _ _ H1) as [n1 Hp1].
  destruct (IHl st1 (bookkept rest n1 xp) ((log ++ log_a) ++ [c]))
    as (k2 & st' & log2 & Hrun2 & H2); try done.
  { by eapply wp_ok. }
  { eapply ranked_mono; [|done]. by eapply wp_child. }
  { destruct Hip as [ip Hip]. rewrite (bookkept_inode _ _ _ _ Hip). eauto. }
  { intros Hb. apply HD. eapply below_mono; [|done]. by eapply wp_child. }
  exists (k1 + (1 + k2)), st', ((log_a ++ [c]) ++ log2). split.
  - eapply rr_steps_app; [exact Hrun1|].
    eapply rr_steps_app; [by apply rr_steps_one|].
    rewrite Hrun2. by rewrite !app_assoc.
  - by eapply walk_post_compose.
Qed.

Lemma in_subtree_below st d y z :
  in_subtree st d y → below st y z → below st d z.
Proof. intros [-> | Hy] Hz; [done|]. by eapply below_trans. Qed.

(** C1: in a well-formed tree, [debugfs_remove_recursive] on a node [d]
    listed under a parent with an inode returns (for every fuel from some
    bound on) and then: no node that was in the subtree of [d] is positive
    any more; every dentry outside the subtree is the very record it was,
    except the parent of [d], which is the record it was with [d] taken out
    of its children and, when [d] is a directory, one link less (it is not
    removed itself: name, parent pointer, state and inode are kept); the
    removals performed are exactly the nodes of the subtree, each once, and
    every node is removed only after all of its descendants. *)
Theorem remove_recursive_removes_subtree (rank : nat → nat) (st : state)
    (d parent : nat) (px : dentry) :
  tree_ok st →
  ranked rank st →
  dcache st !! parent = Some px →
  d ∈ d_subdirs px →
  is_Some (d_inode px) →
  ∃ fuel0 st' log,
    (∀ fuel, fuel0 ≤ fuel →
       debugfs_remove_recursive fuel (PTR d) st = Some (st', log))
    ∧ (∀ y, in_subtree st d y → positive_at st' y = false)
    ∧ (∀ y, ¬ in_subtree st d y → y ≠ parent →
         dcache st' !! y = dcache st !! y)
    ∧ (∃ was_dir, dcache st' !! parent = Some (unlinked d was_dir px))
    ∧ (∀ y, y ∈ log ↔ in_subtree st d y)
    ∧ NoDup log
    ∧ (∀ y z, in_subtree st d y → below st y z → before log z y).
Proof.
  intros Hok Hr Hpx Hin Hipx.
  assert (Hdp : child_of st d parent) by (by exists px).
  destruct (ok_listed st Hok parent px d Hpx Hin) as (x & Hd & Hpar & Hpos).
  assert (∃ i, d_inode x = Some i) as [i Hi].
  { unfold debugfs_positive in Hpos. destruct (d_inode x); [eauto|done]. }
  assert (Hrk : rank d < rank parent) by by apply Hr.
  assert (Hne : d ≠ parent) by (intros ->; lia).
  destruct (rr_level rank d (rank d) d (le_n _) (d_subdirs x) st x [])
    as (k & sa & log_a & Hrun & Hw); try done.
  { by eapply ranked_irrefl. }
  pose proof (walk_post_remove rank st parent px d x i sa log_a
                Hok Hr Hpx Hin Hd Hi Hw) as H1.
  set (b := S_ISDIR (i_mode i)) in *.
  set (st' := simple_release_fs (removed_state d parent b sa)) in *.
  destruct Hw as [_ _ _ Hfr [m Hparent] _ _ _ _].
  assert (Hpa : dcache sa !! parent = Some px).
  { rewrite Hfr; [done| |by apply not_eq_sym].
    intros Hb. apply (below_rank rank) in Hb; [lia|done]. }
  assert (Hlast : rr_step d (at_after d, sa, log_a)
                  = Some (at_return, st', log_a ++ [d])).
  { assert (Hrm : __debugfs_remove d parent sa
                  = Some (0%Z, removed_state d parent b sa)).
    { unfold b.
      change (S_ISDIR (i_mode i)) with (S_ISDIR (i_mode (set_nlink m i))).
      eapply debugfs_remove_positive.
      - exact Hparent.
      - by rewrite bookkept_positive.
      - by apply bookkept_inode.
      - unfold inode_of. rewrite Hpa. done.
      - intros _. unfold simple_empty. rewrite Hparent. done. }
    simpl. rewrite Hparent. simpl. rewrite Hpar. simpl.
    unfold inode_of. rewrite Hpa. simpl.
    destruct Hipx as [ipx Hipx]. rewrite Hipx. simpl.
    rewrite bool_decide_eq_false_2 by (intros H; by apply H).
    unfold rr_remove. rewrite Hrm. simpl.
    assert (positive_at sa d = true) as ->.
    { unfold positive_at. rewrite Hparent. by rewrite bookkept_positive. }
    rewrite positive_at_removed by done. done. }
  exists (1 + (k + 1)), st', (log_a ++ [d]).
  destruct H1 as [_ _ _ Hfr1 _ Hrem1 Hlg1 Hnd1 Hord1].
  split; [|split; [|split; [|split; [|split; [|split]]]]].
  - intros fuel Hfuel.
    assert (∃ f, fuel = (1 + (k + 1)) + f) as [f ->]
      by (exists (fuel - (1 + (k + 1))); lia).
    unfold debugfs_remove_recursive. rewrite Hd. cbn [mbind option_bind].
    rewrite Hpar, Hpx. cbn [mbind option_bind].
    destruct Hipx as [ipx Hipx]. rewrite Hipx.
    apply rr_run_steps.
    eapply rr_steps_app.
    { apply rr_steps_one. simpl. unfold inode_of. rewrite Hd. simpl.
      rewrite Hi. simpl. done. }
    eapply rr_steps_app; [exact Hrun|]. by apply rr_steps_one.
  - intros y Hy. by apply Hrem1.
  - intros y Hy Hyp. by apply Hfr1.
  - exists b. unfold st'. rewrite release_dcache.
    rewrite removed_state_parent, Hpa by done. done.
  - done.
  - done.
  - intros y z Hy Hz. induction Hz as [z Hz | c z Hc IH Hz].
    + apply Hord1; [|done]. by apply Hlg1.
    + eapply before_trans; [done| |exact IH].
      apply Hord1; [|done]. apply Hlg1. right.
      by eapply in_subtree_below.
Qed.

(** ** Checking a concrete tree *)

Definition listed_ok (st : state) (p c : nat) : Prop :=
  match dcache st !! c with
  | Some y => d_parent y = Some p ∧ debugfs_positive y = true
  | None => False
  end.

Global Instance listed_ok_dec st p c : Decision (listed_ok st p c).
Proof. unfold listed_ok. destruct (dcache st !! c); apply _. Defined.

Definition tree_ok_check (st : state) : Prop :=
  map_Forall (λ p x, Forall (listed_ok st p) (d_subdirs x) ∧ NoDup (d_subdirs x))
    (dcache st).

Definition ranked_check (rank : nat → nat) (st : state) : Prop :=
  map_Forall (λ p x, Forall (λ c, rank c < rank p) (d_subdirs x)) (dcache st).

Lemma tree_ok_checked st : tree_ok_check st → tree_ok st.
Proof.
  intros H. split.
  - intros p x c Hp Hc. destruct (H p x Hp) as [Hl _].
    rewrite Forall_forall in Hl. specialize (Hl c Hc).
    unfold listed_ok in Hl. destruct (dcache st !! c) as [y|]; [|done].
    exists y. by destruct Hl.
  - intros p x Hp. by destruct (H p x Hp).
Qed.

Lemma ranked_checked rank st : ranked_check rank st → ranked rank st.
Proof.
  intros H c p (x & Hp & Hc). specialize (H p x Hp).
  rewrite Forall_forall in H. by apply H.
Qed.

(** The scenario of the specification: a directory ["a"] (dentry 1) under
    the root, a file ["b"] (2) and a directory ["c"] (3) under ["a"], a file
    ["d"] (4) under ["c"]. *)
Definition scenario_state : state :=
  Eval vm_compute in
    match
      '(a, st) ← debugfs_create_dir ok_env "a" NULL init_state;
      '(b, st) ← debugfs_create_file ok_env "b" 0 a (opaque_data 0) None st;
      '(c, st) ← debugfs_create_dir ok_env "c" a st;
      '(d, st) ← debugfs_create_file ok_env "d" 0 c (opaque_data 0) None st;
      Some st
    with
    | Some st => st
    | None => init_state
    end.

Definition scenario_rank (y : nat) : nat :=
  match y with
  | 0 => 4
  | 1 => 3
  | 2 => 1
  | 3 => 2
  | _ => 0
  end.

Lemma scenario_tree_ok : tree_ok scenario_state.
Proof.
  apply tree_ok_checked.
  apply (bool_decide_unpack (tree_ok_check scenario_state)).
  vm_compute. exact I.
Qed.

Lemma scenario_ranked : ranked scenario_rank scenario_state.
Proof.
  apply ranked_checked.
  apply (bool_decide_unpack (ranked_check scenario_rank scenario_state)).
  vm_compute. exact I.
Qed.

(** In the scenario the removals come in the order b, d, c, a: the children
    of ["a"] are visited in the order of their creation, and every node comes
    after its descendants; the root is left without children. *)
Example scenario_remove_recursive :
  ∃ st', debugfs_remove_recursive 12 (PTR 1) scenario_state
         = Some (st', [2; 4; 3; 1])
         ∧ children_at st' 0 = Some []
         ∧ nlink_at st' 0 = Some 2%Z
         ∧ debugfs_mount_count st' = 0%Z
         ∧ debugfs_mount st' = None.
Proof. eexists. split; [vm_compute; reflexivity|]. done. Qed.

(** The order among siblings is the order of the list of children.  With the
    children of ["a"] listed newest first, "c" before "b", the same walk
    removes d, c, b, a. *)
Example scenario_remove_recursive_newest_first :
  ∃ st', debugfs_remove_recursive 12 (PTR 1)
           (update 1 (set_subdirs [3; 2]) scenario_state)
         = Some (st', [4; 3; 2; 1])
         ∧ children_at st' 0 = Some []
         ∧ debugfs_mount_count st' = 0%Z.
Proof. eexists. split; [vm_compute; reflexivity|]. done. Qed.

Lemma remove_recursive_removes_subtree_witness :
  ∃ fuel0 st' log,
    (∀ fuel, fuel0 ≤ fuel →
       debugfs_remove_recursive fuel (PTR 1) scenario_state = Some (st', log))
    ∧ (∀ y, in_subtree scenario_state 1 y → positive_at st' y = false)
    ∧ (∀ y, ¬ in_subtree scenario_state 1 y → y ≠ 0 →
         dcache st' !! y = dcache scenario_state !! y)
    ∧ (∀ y, y ∈ log ↔ in_subtree scenario_state 1 y)
    ∧ NoDup log
    ∧ (∀ y z, in_subtree scenario_state 1 y → below scenario_state y z →
         before log z y).
Proof.
  assert (∃ px, dcache scenario_state !! 0 = Some px ∧ 1 ∈ d_subdirs px
                ∧ is_Some (d_inode px)) as (px & Hpx & Hin & Hi).
  { eexists. split; [vm_compute; reflexivity|]. split; [set_solver|].
    simpl. eauto. }
  destruct (remove_recursive_removes_subtree scenario_rank scenario_state 1 0
              px scenario_tree_ok scenario_ranked Hpx Hin Hi)
    as (fuel0 & st' & log & H1 & H2 & H3 & _ & H5 & H6 & H7).
  exists fuel0, st', log. done.
Defined.

(** ** Link counts *)

Definition is_dir (x : dentry) : bool :=
  match d_inode x with
  | Some i => S_ISDIR (i_mode i)
  | None => false
  end.

Definition is_positive_dir (st : state) (c : nat) : bool :=
  match dcache st !! c with
  | Some y => debugfs_positive y && is_dir y
  | None => false
  end.

(** The number of positive directories among the children [l]. *)
Definition count_dirs (st : state) (l : list nat) : Z :=
  Z.of_nat (length (filter (λ c, is_positive_dir st c = true) l)).

Lemma count_dirs_nil st : count_dirs st [] = 0%Z.
Proof. done. Qed.

Lemma count_dirs_cons st c l :
  count_dirs st (c :: l)
  = ((if is_positive_dir st c then 1 else 0) + count_dirs st l)%Z.
Proof.
  unfold count_dirs. destruct (is_positive_dir st c) eqn:Hc.
  - rewrite filter_cons_True by done. simpl length. lia.
  - rewrite filter_cons_False by (by rewrite Hc). lia.
Qed.

Lemma count_dirs_app st l1 l2 :
  count_dirs st (l1 ++ l2) = (count_dirs st l1 + count_dirs st l2)%Z.
Proof.
  induction l1 as [|c l1 IH]; simpl.
  - rewrite count_dirs_nil. lia.
  - rewrite !count_dirs_cons, IH. lia.
Qed.

Lemma count_dirs_ext st st' l :
  (∀ c, c ∈ l → is_positive_dir st' c = is_positive_dir st c) →
  count_dirs st' l = count_dirs st l.
Proof.
  induction l as [|c l IH]; intros H; [done|].
  rewrite !count_dirs_cons, IH, H by set_solver. done.
Qed.

Lemma filter_ne_notin (c : nat) (l : list nat) :
  c ∉ l → filter (λ y, y ≠ c) l = l.
Proof.
  induction l as [|z l IH]; [done|]. intros Hc.
  rewrite filter_cons_True by set_solver. f_equal. apply IH. set_solver.
Qed.

Lemma count_dirs_filter_ne st c l :
  NoDup l → c ∈ l →
  count_dirs st (filter (λ y, y ≠ c) l)
  = (count_dirs st l - (if is_positive_dir st c then 1 else 0))%Z.
Proof.
  induction l as [|z l IH]; [set_solver|].
  intros Hnd Hc. apply NoDup_cons in Hnd as [Hz Hnd].
  destruct (decide (z = c)) as [->|Hne].
  - rewrite filter_cons_False by (intros H; by apply H).
    rewrite filter_ne_notin by done. rewrite count_dirs_cons. lia.
  - rewrite filter_cons_True by done. rewrite !count_dirs_cons.
    rewrite IH by set_solver. lia.
Qed.

(** The invariant of the tree: the children lists are well formed, every
    positive node with a parent is listed under that parent, no node is its
    own parent, and every directory inode has two links plus one for each
    positive directory among its children. *)
Record tree_inv (st : state) : Prop := mk_tree_inv {
  inv_ok : tree_ok st;
  inv_attached : ∀ c y p,
    dcache st !! c = Some y → debugfs_positive y = true →
    d_parent y = Some p → child_of st c p;
  inv_parent_ne : ∀ c y, dcache st !! c = Some y → d_parent y ≠ Some c;
  inv_links : ∀ d x i,
    dcache st !! d = Some x → d_inode x = Some i →
    S_ISDIR (i_mode i) = true →
    i_nlink i = (2 + count_dirs st (d_subdirs x))%Z
}.

Lemma tree_inv_dcache st st' : dcache st' = dcache st → tree_inv st → tree_inv st'.
Proof.
  intros Heq [H1 H2 H3 H4]. split.
  - by eapply tree_ok_dcache.
  - intros c y p. rewrite (child_of_dcache _ _ _ _ Heq), Heq. apply H2.
  - intros c y. rewrite Heq. apply H3.
  - intros d x i. rewrite Heq. intros Hd Hi Hdir.
    rewrite (H4 d x i Hd Hi Hdir). f_equal. symmetry. apply count_dirs_ext.
    intros c _. unfold is_positive_dir. by rewrite Heq.
Qed.

Lemma init_state_inv root : tree_inv (mk_state {[ root := root_dentry ]} None 0).
Proof.
  split.
  - split.
    + intros p x c Hp Hc. simpl in Hp.
      apply lookup_singleton_Some in Hp as [_ <-]. simpl in Hc. set_solver.
    + intros p x Hp. simpl in Hp.
      apply lookup_singleton_Some in Hp as [_ <-]. constructor.
  - intros c y p Hc _ Hp. simpl in Hc.
    apply lookup_singleton_Some in Hc as [_ <-]. done.
  - intros c y Hc. simpl in Hc.
    apply lookup_singleton_Some in Hc as [_ <-]. done.
  - intros d x i Hd Hi _. simpl in Hd.
    apply lookup_singleton_Some in Hd as [_ <-]. simpl in Hi.
    injection Hi as <-. done.
Qed.

(** ** The invariant is kept by a creation *)

Lemma with_negative_lookup name p st y :
  dcache (with_negative name p st) !! y
  = if decide (y = fresh (dom (dcache st)))
    then Some (negative_dentry name p) else dcache st !! y.
Proof.
  case_decide as Hy.
  - subst y. apply with_negative_lookup_fresh.
  - unfold with_negative; simpl. by rewrite lookup_insert_ne.
Qed.

Lemma with_negative_positive_dir name p st c :
  is_positive_dir (with_negative name p st) c = is_positive_dir st c.
Proof.
  unfold is_positive_dir. rewrite with_negative_lookup. case_decide as Hc; [|done].
  subst c. by rewrite fresh_not_in.
Qed.

Lemma with_negative_child_of name p st a b :
  child_of (with_negative name p st) a b ↔ child_of st a b.
Proof.
  unfold child_of. rewrite with_negative_lookup. case_decide as Hb.
  - subst b. rewrite fresh_not_in. split; intros (x & Hx & Hin); [|done].
    injection Hx as <-. simpl in Hin. set_solver.
  - done.
Qed.

Lemma with_negative_inv name p st :
  is_Some (dcache st !! p) → tree_inv st → tree_inv (with_negative name p st).
Proof.
  intros [px Hp] [[Hl Hn] Ha Hpn Hk].
  assert (Hex : ∀ c v, dcache st !! c = Some v →
            dcache (with_negative name p st) !! c = Some v).
  { intros c v Hc. rewrite with_negative_lookup. case_decide as Hf; [|done].
    subst c. by rewrite fresh_not_in in Hc. }
  split; [split|..].
  - intros q x c Hq Hc. rewrite with_negative_lookup in Hq.
    case_decide; [injection Hq as <-; simpl in Hc; set_solver|].
    destruct (Hl q x c Hq Hc) as (y & Hy & Hyp & Hpos). exists y.
    split; [by apply Hex|done].
  - intros q x Hq. rewrite with_negative_lookup in Hq.
    case_decide; [injection Hq as <-; constructor|]. by eapply Hn.
  - intros c y q Hc Hpos Hpar. rewrite with_negative_lookup in Hc.
    case_decide; [by injection Hc as <-|].
    apply with_negative_child_of. by eapply Ha.
  - intros c y Hc. rewrite with_negative_lookup in Hc.
    case_decide as Hf; [|by eapply Hpn].
    injection Hc as <-. simpl. intros [= ->]. subst c.
    by rewrite fresh_not_in in Hp.
  - intros d x i Hd Hi Hdir. rewrite with_negative_lookup in Hd.
    case_decide; [by injection Hd as <-|].
    rewrite (Hk d x i Hd Hi Hdir). f_equal. symmetry.
    apply count_dirs_ext. intros c _. apply with_negative_positive_dir.
Qed.

(** The parent's entry once the child [c] has joined it. *)
Definition linked (c : nat) (is_directory : bool) (x : dentry) : dentry :=
  let x1 := set_subdirs (d_subdirs x ++ [c]) x in
  if is_directory then set_inode (inc_nlink <$> d_inode x1) x1 else x1.

Lemma linked_fields c b x :
  d_parent (linked c b x) = d_parent x
  ∧ debugfs_positive (linked c b x) = debugfs_positive x
  ∧ d_subdirs (linked c b x) = d_subdirs x ++ [c]
  ∧ is_dir (linked c b x) = is_dir x.
Proof.
  unfold linked, debugfs_positive, is_dir.
  destruct b; simpl; repeat split; by destruct (d_inode x).
Qed.

Lemma created_state_lookup name p px i st y :
  dcache st !! p = Some px →
  dcache (created_state (fresh (dom (dcache st))) p i (with_negative name p st))
    !! y
  = if decide (y = fresh (dom (dcache st)))
    then Some (mk_dentry name (Some p) (Some i) false false [])
    else if decide (y = p)
         then Some (linked (fresh (dom (dcache st))) (S_ISDIR (i_mode i)) px)
         else dcache st !! y.
Proof.
  intros Hp. case_decide as Hf.
  { subst y. by eapply created_state_self. }
  case_decide as Hyp.
  { subst y. by rewrite (created_state_parent _ _ _ _ _ Hp). }
  by apply created_state_other.
Qed.

Lemma created_state_inv name p px i st :
  tree_inv st →
  dcache st !! p = Some px →
  (S_ISDIR (i_mode i) = true → i_nlink i = 2%Z) →
  tree_inv
    (created_state (fresh (dom (dcache st))) p i (with_negative name p st)).
Proof.
  intros [[Hl Hn] Ha Hpn Hk] Hp Hdir2.
  set (d := fresh (dom (dcache st))).
  set (st' := created_state d p i (with_negative name p st)).
  assert (Hlk : ∀ y, dcache st' !! y
            = if decide (y = d)
              then Some (mk_dentry name (Some p) (Some i) false false [])
              else if decide (y = p) then Some (linked d (S_ISDIR (i_mode i)) px)
              else dcache st !! y)
    by (intros y; by apply created_state_lookup).
  assert (Hfresh : ∀ c v, dcache st !! c = Some v → c ≠ d).
  { intros c v Hc ->. unfold d in Hc. by rewrite fresh_not_in in Hc. }
  assert (Hpd : p ≠ d) by by eapply Hfresh.
  destruct (linked_fields d (S_ISDIR (i_mode i)) px) as (Lpar & Lpos & Lsub & Ldir).
  (* an entry of [st] keeps its parent pointer, its state and its kind *)
  assert (Hkeep : ∀ c v, dcache st !! c = Some v →
            ∃ v', dcache st' !! c = Some v' ∧ d_parent v' = d_parent v
                  ∧ debugfs_positive v' = debugfs_positive v
                  ∧ is_dir v' = is_dir v
                  ∧ (c ≠ p → v' = v)).
  { intros c v Hc. rewrite Hlk. rewrite decide_False by by eapply Hfresh.
    case_decide as Hcp.
    - subst c. rewrite Hp in Hc. injection Hc as <-.
      eexists. split; [done|]. repeat split; try done.
    - exists v. done. }
  assert (Hstatus : ∀ c, c ≠ d → is_positive_dir st' c = is_positive_dir st c).
  { intros c Hc. unfold is_positive_dir.
    destruct (dcache st !! c) as [v|] eqn:Hv.
    - destruct (Hkeep c v Hv) as (v' & -> & _ & -> & -> & _). done.
    - rewrite Hlk. rewrite decide_False by done.
      case_decide; [subst c; congruence|]. by rewrite Hv. }
  assert (Hlisted : ∀ q x c, dcache st !! q = Some x → c ∈ d_subdirs x →
            ∃ y, dcache st' !! c = Some y ∧ d_parent y = Some q
                 ∧ debugfs_positive y = true).
  { intros q x c Hq Hc. destruct (Hl q x c Hq Hc) as (y & Hy & Hyp & Hpos).
    destruct (Hkeep c y Hy) as (y' & Hy' & Hpar' & Hpos' & _).
    exists y'. split; [done|]. split; congruence. }
  assert (Hnotin : ∀ q x, dcache st !! q = Some x → d ∉ d_subdirs x).
  { intros q x Hq Hin. destruct (Hl q x d Hq Hin) as (y & Hy & _).
    by eapply Hfresh. }
  split; [split|..].
  - intros q x c Hq Hc. rewrite Hlk in Hq. case_decide as Hqd.
    { injection Hq as <-. simpl in Hc. set_solver. }
    case_decide as Hqp.
    + subst q. injection Hq as <-. rewrite Lsub in Hc.
      apply elem_of_app in Hc as [Hc | Hc]; [by eapply Hlisted|].
      apply list_elem_of_singleton in Hc as ->.
      eexists. rewrite Hlk. rewrite decide_True by done. done.
    + by eapply Hlisted.
  - intros q x Hq. rewrite Hlk in Hq. case_decide as Hqd.
    { injection Hq as <-. constructor. }
    case_decide as Hqp; [|by eapply Hn].
    subst q. injection Hq as <-. rewrite Lsub. apply NoDup_app.
    split; [by eapply Hn|]. split; [|apply NoDup_singleton].
    intros c Hc Hc'. apply list_elem_of_singleton in Hc' as ->.
    by eapply Hnotin.
  - intros c y q Hc Hpos Hpar. rewrite Hlk in Hc. case_decide as Hcd.
    + injection Hc as <-. simpl in Hpar. injection Hpar as <-.
      eexists. rewrite Hlk. rewrite decide_False by done.
      rewrite decide_True by done. split; [done|]. rewrite Lsub. set_solver.
    + assert (∃ v, dcache st !! c = Some v ∧ d_parent v = Some q
                   ∧ debugfs_positive v = true) as (v & Hv & Hvp & Hvpos).
      { case_decide as Hcp.
        - subst c. injection Hc as <-. exists px. split; [done|].
          split; congruence.
        - by exists y. }
      destruct (Ha c v q Hv Hvpos Hvp) as (xq & Hq & Hin).
      destruct (decide (q = p)) as [->|Hqp].
      * eexists. rewrite Hlk. rewrite decide_False by done.
        rewrite decide_True by done. split; [done|].
        rewrite Hp in Hq. injection Hq as <-. rewrite Lsub. set_solver.
      * exists xq. split; [|done]. rewrite Hlk.
        rewrite decide_False by by eapply Hfresh. by rewrite decide_False.
  - intros c y Hc. rewrite Hlk in Hc. case_decide as Hcd.
    + injection Hc as <-. simpl. subst c. congruence.
    + case_decide as Hcp.
      * subst c. injection Hc as <-. rewrite Lpar. by eapply Hpn.
      * by eapply Hpn.
  - intros q x j Hq Hj Hdir. rewrite Hlk in Hq. case_decide as Hqd.
    { injection Hq as <-. simpl in Hj. injection Hj as <-.
      rewrite count_dirs_nil. rewrite Hdir2 by done. done. }
    case_decide as Hqp.
    + subst q. injection Hq as <-. rewrite Lsub, count_dirs_app.
      rewrite count_dirs_cons, count_dirs_nil.
      assert (is_positive_dir st' d = S_ISDIR (i_mode i)) as ->.
      { unfold is_positive_dir. rewrite Hlk. by rewrite decide_True. }
      rewrite (count_dirs_ext st st').
      2: { intros c Hc. apply Hstatus. intros ->. by eapply Hnotin. }
      unfold linked in Hj.
      destruct (d_inode px) as [ipx|] eqn:Hipx.
      2: { destruct (S_ISDIR (i_mode i)); simpl in Hj; by rewrite Hipx in Hj. }
      destruct (S_ISDIR (i_mode i)) eqn:Hnew; simpl in Hj; rewrite Hipx in Hj;
        injection Hj as <-; simpl in *.
      * rewrite (Hk p px ipx Hp Hipx Hdir). lia.
      * rewrite (Hk p px ipx Hp Hipx Hdir). lia.
    + rewrite (Hk q x j Hq Hj Hdir). f_equal. symmetry.
      apply count_dirs_ext. intros c Hc. apply Hstatus. intros ->.
      by eapply Hnotin.
Qed.

(** ** The invariant is kept by a removal *)

Lemma unlinked_is_dir c b x : is_dir (unlinked c b x) = is_dir x.
Proof.
  unfold unlinked, detach, is_dir. destruct b; simpl; [|done].
  by destruct (d_inode x).
Qed.

Lemma removed_state_inv c p st xc ic :
  tree_inv st →
  dcache st !! c = Some xc →
  debugfs_positive xc = true →
  d_inode xc = Some ic →
  d_parent xc = Some p →
  tree_inv (removed_state c p (S_ISDIR (i_mode ic)) st).
Proof.
  intros [Hok Ha Hpn Hk] Hc Hpos Hic Hpar.
  set (b := S_ISDIR (i_mode ic)).
  set (st' := removed_state c p b st).
  assert (Hne : c ≠ p).
  { intros ->. by eapply Hpn. }
  assert (Hlk : ∀ y, dcache st' !! y
            = if decide (y = c) then set_unhashed true <$> dcache st !! c
              else if decide (y = p) then unlinked c b <$> dcache st !! p
              else dcache st !! y)
    by (intros y; by apply removed_state_lookup).
  destruct (Ha c xc p Hc Hpos Hpar) as (xp & Hp & Hcin).
  pose proof (ok_nodup st Hok p xp Hp) as Hndp.
  (* an entry other than [c] keeps its parent pointer, state and kind *)
  assert (Hback : ∀ y v, y ≠ c → dcache st' !! y = Some v →
            ∃ v0, dcache st !! y = Some v0 ∧ d_parent v = d_parent v0
                  ∧ debugfs_positive v = debugfs_positive v0
                  ∧ is_dir v = is_dir v0
                  ∧ d_inode v = (if decide (y = p)
                                 then d_inode (unlinked c b v0) else d_inode v0)
                  ∧ d_subdirs v = (if decide (y = p)
                                   then filter (λ z, z ≠ c) (d_subdirs v0)
                                   else d_subdirs v0)).
  { intros y v Hyc Hy. rewrite Hlk in Hy. rewrite decide_False in Hy by done.
    case_decide as Hyp.
    - subst y. rewrite Hp in Hy. injection Hy as <-. exists xp.
      destruct (unlinked_fields c b xp) as (? & _ & _ & _ & ? & _).
      repeat split; try done.
      + apply unlinked_positive.
      + apply unlinked_is_dir.
    - exists v. done. }
  assert (Hstatus : ∀ y, y ≠ c → is_positive_dir st' y = is_positive_dir st y).
  { intros y Hy. unfold is_positive_dir.
    destruct (dcache st' !! y) as [v|] eqn:Hv.
    - destruct (Hback y v Hy Hv) as (v0 & -> & _ & -> & -> & _). done.
    - rewrite Hlk in Hv. rewrite decide_False in Hv by done.
      case_decide as Hyp; [|by rewrite Hv].
      subst y. by rewrite Hp in Hv. }
  assert (Hself : ∀ q x, dcache st !! q = Some x → q ≠ p → c ∉ d_subdirs x).
  { intros q x Hq Hqp Hin.
    destruct (ok_listed st Hok q x c Hq Hin) as (y & Hy & Hyp & _).
    congruence. }
  split.
  - by eapply removed_state_tree_ok.
  - intros y v q Hy Hvpos Hvpar.
    assert (y ≠ c) as Hyc.
    { intros ->. rewrite Hlk in Hy. rewrite decide_True in Hy by done.
      rewrite Hc in Hy. injection Hy as <-.
      unfold debugfs_positive in Hvpos. simpl in Hvpos.
      by destruct (d_inode xc). }
    destruct (Hback y v Hyc Hy) as (v0 & Hv0 & Hpar0 & Hpos0 & _).
    destruct (Ha y v0 q Hv0 ltac:(congruence) ltac:(congruence))
      as (xq & Hq & Hin).
    unfold child_of. rewrite Hlk. case_decide as Hqc.
    + subst q. rewrite Hc in Hq. injection Hq as <-. rewrite Hc. simpl.
      eexists. split; [done|]. done.
    + case_decide as Hqp.
      * subst q. rewrite Hp in Hq. injection Hq as <-. rewrite Hp. simpl.
        eexists. split; [done|].
        destruct (unlinked_fields c b xp) as (_ & _ & _ & _ & -> & _).
        apply list_elem_of_filter. done.
      * by exists xq.
  - intros y v Hy. destruct (decide (y = c)) as [->|Hyc].
    + rewrite Hlk in Hy. rewrite decide_True in Hy by done.
      rewrite Hc in Hy. injection Hy as <-. simpl. rewrite Hpar.
      intros [= ->]. done.
    + destruct (Hback y v Hyc Hy) as (v0 & Hv0 & -> & _). by eapply Hpn.
  - intros q x j Hq Hj Hdir. destruct (decide (q = c)) as [->|Hqc].
    + rewrite Hlk in Hq. rewrite decide_True in Hq by done.
      rewrite Hc in Hq. injection Hq as <-. simpl in *.
      rewrite (Hk c xc j Hc Hj Hdir). f_equal. symmetry.
      apply count_dirs_ext. intros y Hy. apply Hstatus. intros ->.
      by apply (Hself c xc Hc Hne).
    + destruct (Hback q x Hqc Hq) as (x0 & Hx0 & _ & _ & _ & Hino & Hsub).
      rewrite Hsub. case_decide as Hqp.
      * subst q. rewrite Hp in Hx0. injection Hx0 as <-.
        rewrite (count_dirs_ext st st').
        2: { intros y Hy. apply Hstatus.
             apply list_elem_of_filter in Hy as [? _]. done. }
        rewrite count_dirs_filter_ne by done.
        assert (is_positive_dir st c = b) as ->.
        { unfold is_positive_dir, is_dir. by rewrite Hc, Hpos, Hic. }
        rewrite Hj in Hino.
        assert (Hj' : Some j = if b then drop_nlink <$> d_inode xp
                               else d_inode xp).
        { rewrite Hino. unfold unlinked, detach. by destruct b. }
        clear Hino. clearbody b.
        destruct (d_inode xp) as [ip|] eqn:Hip; [|by destruct b].
        pose proof (Hk p xp ip Hp Hip) as Hkp.
        destruct b; simpl in Hj'; injection Hj' as ->; simpl in *;
          rewrite Hkp by done; lia.
      * rewrite Hj in Hino. symmetry in Hino.
        rewrite (Hk q x0 j Hx0 Hino Hdir). f_equal. symmetry.
        apply count_dirs_ext. intros y Hy. apply Hstatus. intros ->.
        by apply (Hself q x0 Hx0 Hqp).
Qed.

Lemma debugfs_remove_cases d p st ret st' :
  __debugfs_remove d p st = Some (ret, st') →
  st' = st
  ∨ ∃ x i, dcache st !! d = Some x ∧ debugfs_positive x = true
           ∧ d_inode x = Some i ∧ ret = 0%Z
           ∧ (S_ISDIR (i_mode i) = true → simple_empty d st = Some true)
           ∧ st' = removed_state d p (S_ISDIR (i_mode i)) st.
Proof.
  unfold __debugfs_remove.
  destruct (dcache st !! d) as [x|] eqn:Hd; simpl; [|done].
  destruct (debugfs_positive x) eqn:Hpos.
  2: { intros [= <- <-]. by left. }
  destruct (d_inode x) as [i|] eqn:Hi; simpl; [|done].
  unfold removed_state.
  destruct (S_ISDIR (i_mode i)) eqn:Hdir.
  - unfold simple_rmdir.
    destruct (simple_empty d st) as [[|]|] eqn:He; simpl; [| |done].
    + unfold on_inode at 1.
      destruct (inode_of p st) as [ip|] eqn:Hip; simpl; [|done].
      unfold simple_unlink.
      destruct (inode_of_update_inode drop_nlink p st) as [j Hj]; [eauto|].
      rewrite Hj. simpl. intros [= <- <-]. right. exists x, i.
      rewrite Hdir. done.
    + intros [= <- <-]. by left.
  - unfold simple_unlink.
    destruct (inode_of p st) as [ip|] eqn:Hip; simpl; [|done].
    intros [= <- <-]. right. exists x, i. rewrite Hdir. done.
Qed.

Lemma debugfs_remove_step_inv d p st ret st' x :
  tree_inv st →
  dcache st !! d = Some x → d_parent x = Some p →
  __debugfs_remove d p st = Some (ret, st') →
  tree_inv st'.
Proof.
  intros Hinv Hd Hpar Hrm.
  apply debugfs_remove_cases in Hrm
    as [-> | (x' & i & Hd' & Hpos & Hi & _ & _ & ->)]; [done|].
  rewrite Hd in Hd'. injection Hd' as <-.
  by eapply removed_state_inv.
Qed.

Lemma run_creation_inv e c parent st r st' :
  tree_inv st → run_creation e c parent st = Some (r, st') → tree_inv st'.
Proof.
  intros Hinv Hrun.
  apply run_creation_outcome in Hrun as [(_ & _ & ->) | [_ Hout]]; [done|].
  destruct Hout as [Hfail | pinned p px Hpin _ _ _ _
                   | pinned p px ch Hpin _ _ _ _ _
                   | pinned p px Hpin _ Hpx _ _ _ _
                   | pinned p px i Hpin _ Hpx _ _ _ _ _ Hn].
  - done.
  - eapply tree_inv_dcache; [|exact Hinv]. rewrite release_dcache.
    by eapply pin_eq_dcache.
  - eapply tree_inv_dcache; [|exact Hinv]. rewrite release_dcache.
    by eapply pin_eq_dcache.
  - eapply tree_inv_dcache; [apply release_dcache|].
    apply with_negative_inv; [eauto|].
    eapply tree_inv_dcache; [|exact Hinv]. by eapply pin_eq_dcache.
  - eapply created_state_inv; [|done|done].
    eapply tree_inv_dcache; [|exact Hinv]. by eapply pin_eq_dcache.
Qed.

Lemma debugfs_remove_inv dentry st st' :
  tree_inv st → debugfs_remove dentry st = Some st' → tree_inv st'.
Proof.
  intros Hinv. unfold debugfs_remove. destruct dentry as [| |d];
    [by intros [= <-]..|].
  destruct (dcache st !! d) as [x|] eqn:Hd; simpl; [|done].
  destruct (d_parent x) as [p|] eqn:Hpar; [|by intros [= <-]].
  destruct (dcache st !! p) as [px|] eqn:Hp; simpl; [|done].
  destruct (d_inode px); [|by intros [= <-]].
  destruct (__debugfs_remove d p st) as [[ret st1]|] eqn:Hrm; simpl; [|done].
  intros [= <-].
  assert (tree_inv st1)
    by exact (debugfs_remove_step_inv d p st ret st1 x Hinv Hd Hpar Hrm).
  destruct (ret =? 0)%Z; [|done].
  eapply tree_inv_dcache; [apply release_dcache|done].
Qed.

(** ** The invariant is kept by the recursive removal, step by step *)

(** What the cursors of the walk point at. *)
Definition pc_ok (st : state) (pc : rr_pc) : Prop :=
  match pc with
  | at_loop p child next =>
      (∀ c, child = Some c → child_of st c p)
      ∧ (∀ n, next = Some n → child_of st n p ∧ child ≠ Some n)
  | at_up p c next =>
      (∃ x, dcache st !! c = Some x ∧ d_parent x = Some p)
      ∧ (∀ n, next = Some n → child_of st n p ∧ n ≠ c)
  | _ => True
  end.

Lemma head_in (l : list nat) c : head l = Some c → c ∈ l.
Proof. destruct l; [done|]. simpl. intros [= ->]. set_solver. Qed.

Lemma rr_advance_ok p next st pc :
  tree_inv st →
  (∀ n, next = Some n → child_of st n p) →
  rr_advance p next st = Some pc →
  pc_ok st pc.
Proof.
  intros Hinv Hnext. unfold rr_advance.
  destruct (dcache st !! p) as [xp|] eqn:Hp; simpl; [|done].
  intros [= <-]. simpl. split; [done|].
  intros n' Hn'. destruct next as [n|]; simpl in Hn'; [|done].
  split.
  - exists xp. split; [done|]. by eapply list_next_in.
  - intros [= ->]. eapply list_next_ne; [|exact Hn'|done].
    eapply ok_nodup; [by apply inv_ok|done].
Qed.

Lemma rr_remove_inv c p st log st' log' x next :
  tree_inv st →
  dcache st !! c = Some x → d_parent x = Some p →
  (∀ n, next = Some n → child_of st n p ∧ n ≠ c) →
  rr_remove c p st log = Some (st', log') →
  tree_inv st' ∧ (∀ n, next = Some n → child_of st' n p).
Proof.
  intros Hinv Hc Hpar Hnext. unfold rr_remove.
  destruct (__debugfs_remove c p st) as [[ret st1]|] eqn:Hrm; simpl; [|done].
  intros [= <- _].
  assert (Hinv1 : tree_inv st1)
    by exact (debugfs_remove_step_inv c p st ret st1 x Hinv Hc Hpar Hrm).
  assert (Hnext1 : ∀ n, next = Some n → child_of st1 n p).
  { intros n Hn. destruct (Hnext n Hn) as [(xp & Hp & Hin) Hne].
    apply debugfs_remove_cases in Hrm
      as [-> | (x' & i & _ & _ & _ & _ & _ & ->)]; [by exists xp|].
    assert (c ≠ p) as Hcp.
    { intros ->. by eapply (inv_parent_ne st Hinv p x). }
    eexists. rewrite removed_state_parent, Hp by done. split; [done|].
    simpl. apply list_elem_of_filter. split; [done|]. by destruct (S_ISDIR _). }
  destruct (ret =? 0)%Z; [|done]. split.
  - eapply tree_inv_dcache; [apply release_dcache|done].
  - intros n Hn.
    apply (proj2 (child_of_dcache st1 (simple_release_fs st1) n p
                    (release_dcache st1))).
    by apply Hnext1.
Qed.

Lemma rr_step_inv dentry pc st log pc' st' log' :
  tree_inv st → pc_ok st pc →
  rr_step dentry (pc, st, log) = Some (pc', st', log') →
  tree_inv st' ∧ pc_ok st' pc'.
Proof.
  intros Hinv Hpc. pose proof (inv_ok st Hinv) as Hok.
  destruct pc as [p | p [c|] next | p c next | p |]; simpl.
  - destruct (inode_of p st); simpl; [|done].
    destruct (dcache st !! p) as [xp|] eqn:Hp; simpl; [|done].
    intros [= <- <- <-]. split; [done|]. simpl. split.
    + intros c Hc. exists xp. split; [done|]. by apply head_in.
    + intros n Hn. destruct (head (d_subdirs xp)) as [c|] eqn:Hh; [|done].
      simpl in Hn. split.
      * exists xp. split; [done|]. by eapply list_next_in.
      * intros [= ->]. eapply list_next_ne; [|exact Hn|done].
        by eapply ok_nodup.
  - destruct Hpc as [Hc Hn].
    destruct (dcache st !! c) as [x|] eqn:Hx; simpl; [|done].
    destruct (debugfs_positive x); simpl.
    + destruct (bool_decide (d_subdirs x = [])); simpl;
        intros [= <- <- <-]; (split; [done|]); [|done].
      simpl. destruct (Hc c eq_refl) as (xp & Hp & Hin).
      destruct (ok_listed st Hok p xp c Hp Hin) as (x' & Hx' & Hpar & _).
      split; [eauto|]. intros n Hnn. destruct (Hn n Hnn) as [? Hne].
      split; [done|]. intros ->. by apply Hne.
    + destruct (rr_advance p next st) as [pc1|] eqn:Hadv; simpl; [|done].
      intros [= <- <- <-]. split; [done|].
      eapply rr_advance_ok; [done| |done]. intros n Hnn. by apply Hn.
  - intros [= <- <- <-]. done.
  - destruct Hpc as [(x & Hx & Hpar) Hn].
    destruct (rr_remove c p st log) as [[st1 log1]|] eqn:Hrm; simpl; [|done].
    destruct (rr_remove_inv c p st log st1 log1 x next Hinv Hx Hpar Hn Hrm)
      as [Hinv1 Hn1].
    destruct (rr_advance p next st1) as [pc1|] eqn:Hadv; simpl; [|done].
    intros [= <- <- <-]. split; [done|]. by eapply rr_advance_ok.
  - destruct (dcache st !! p) as [x|] eqn:Hx; simpl; [|done].
    destruct (d_parent x) as [q|] eqn:Hpar; simpl; [|done].
    destruct (inode_of q st); simpl; [|done].
    destruct (bool_decide (p ≠ dentry)).
    + destruct (dcache st !! q) as [xq|] eqn:Hq; simpl; [|done].
      intros [= <- <- <-]. split; [done|]. simpl. split; [eauto|].
      intros n Hn. split.
      * exists xq. split; [done|]. by eapply list_next_in.
      * eapply list_next_ne; [|exact Hn]. by eapply ok_nodup.
    + destruct (rr_remove p q st log) as [[st1 log1]|] eqn:Hrm; simpl; [|done].
      intros [= <- <- <-].
      destruct (rr_remove_inv p q st log st1 log1 x None Hinv Hx Hpar
                  ltac:(done) Hrm) as [Hinv1 _].
      done.
  - intros [= <- <- <-]. done.
Qed.

Lemma rr_run_inv fuel dentry pc st log st' log' :
  tree_inv st → pc_ok st pc →
  rr_run fuel dentry (pc, st, log) = Some (st', log') →
  tree_inv st'.
Proof.
  revert pc st log. induction fuel as [|fuel IH]; intros pc st log Hinv Hpc.
  - destruct pc; simpl; try done. by intros [= <- <-].
  - rewrite rr_run_unfold.
    destruct (rr_step dentry (pc, st, log)) as [[[pc1 st1] log1]|] eqn:Hstep;
      simpl; [|done].
    destruct (rr_step_inv _ _ _ _ _ _ _ Hinv Hpc Hstep) as [Hinv1 Hpc1].
    by apply IH.
Qed.

Lemma debugfs_remove_recursive_inv fuel dentry st st' log :
  tree_inv st →
  debugfs_remove_recursive fuel dentry st = Some (st', log) →
  tree_inv st'.
Proof.
  intros Hinv. unfold debugfs_remove_recursive.
  destruct dentry as [| |d]; [by intros [= <- _]..|].
  destruct (dcache st !! d) as [x|]; simpl; [|done].
  destruct (d_parent x) as [p|]; [|by intros [= <- _]].
  destruct (dcache st !! p) as [px|]; simpl; [|done].
  destruct (d_inode px); [|by intros [= <- _]].
  by apply rr_run_inv.
Qed.

(** ** The invariant is kept by a rename *)

(** The store behind a successful [debugfs_rename] of [o] from [od] to
    [nd]. *)
Definition renamed_state (od o nd : nat) (new_name : string) (b : bool)
    (st : state) : state :=
  update nd (λ p, set_subdirs (d_subdirs p ++ [o]) p)
    (update o
       (λ x : dentry,
          mk_dentry new_name (Some nd) (d_inode x) (d_unhashed x)
            (d_mounted x) (d_subdirs x))
       (update od (detach o)
          (relinked_state od nd b (with_negative new_name nd st)))).

Lemma d_move_renamed od o nd new_name b st x xod xnd :
  dcache st !! o = Some x → d_parent x = Some od →
  dcache st !! od = Some xod → dcache st !! nd = Some xnd →
  o ≠ od → o ≠ nd →
  d_move o (fresh (dom (dcache st)))
    (relinked_state od nd b (with_negative new_name nd st))
  = Some (renamed_state od o nd new_name b st).
Proof.
  intros Ho Hpar Hod Hnd Hne1 Hne2.
  set (t := fresh (dom (dcache st))).
  set (st1 := with_negative new_name nd st).
  assert (Hold : ∀ y v, dcache st !! y = Some v → dcache st1 !! y = Some v).
  { intros y v Hy. unfold st1. rewrite with_negative_lookup_old by eauto.
    done. }
  assert (Ht_od : t ≠ od) by (by eapply not_eq_sym, fresh_ne_existing).
  assert (Ht_nd : t ≠ nd) by (by eapply not_eq_sym, fresh_ne_existing).
  assert (Ht : dcache st1 !! t = Some (negative_dentry new_name nd))
    by apply with_negative_lookup_fresh.
  unfold d_move.
  rewrite (relinked_state_other od nd b st1 o) by done.
  rewrite (Hold _ _ Ho). cbn [mbind option_bind].
  rewrite (relinked_state_other od nd b st1 t) by done.
  rewrite Ht. cbn [mbind option_bind negative_dentry d_parent d_name].
  by rewrite Hpar.
Qed.

Lemma linked_after_inc (c : nat) (b : bool) (x : dentry) :
  set_subdirs
    (d_subdirs (if b then set_inode (inc_nlink <$> d_inode x) x else x) ++ [c])
    (if b then set_inode (inc_nlink <$> d_inode x) x else x)
  = linked c b x.
Proof. unfold linked. by destruct b. Qed.

Lemma renamed_lookup od o nd new_name b st x xod xnd y :
  dcache st !! o = Some x →
  dcache st !! od = Some xod → dcache st !! nd = Some xnd →
  o ≠ od → o ≠ nd →
  dcache (renamed_state od o nd new_name b st) !! y
  = if decide (y = fresh (dom (dcache st)))
    then Some (negative_dentry new_name nd)
    else if decide (y = o)
    then Some (mk_dentry new_name (Some nd) (d_inode x) (d_unhashed x)
                 (d_mounted x) (d_subdirs x))
    else if decide (y = nd)
    then Some (if decide (od = nd) then linked o false (detach o xnd)
               else linked o b xnd)
    else if decide (y = od) then Some (unlinked o b xod)
    else dcache st !! y.
Proof.
  intros Ho Hod Hnd Hne1 Hne2.
  set (t := fresh (dom (dcache st))).
  set (st1 := with_negative new_name nd st).
  assert (Hold : ∀ z v, dcache st !! z = Some v → dcache st1 !! z = Some v).
  { intros z v Hz. unfold st1. rewrite with_negative_lookup_old by eauto.
    done. }
  assert (Ht_od : t ≠ od) by (by eapply not_eq_sym, fresh_ne_existing).
  assert (Ht_nd : t ≠ nd) by (by eapply not_eq_sym, fresh_ne_existing).
  assert (Ht_o : t ≠ o) by (by eapply not_eq_sym, fresh_ne_existing).
  unfold renamed_state. fold st1.
  case_decide as Hyt.
  { subst y. rewrite !lookup_update_ne by done.
    rewrite relinked_state_other by done. apply with_negative_lookup_fresh. }
  case_decide as Hyo.
  { subst y. rewrite lookup_update_ne by done. rewrite lookup_update_eq.
    rewrite lookup_update_ne by done.
    rewrite relinked_state_other by done. by rewrite (Hold _ _ Ho). }
  case_decide as Hynd.
  { subst y. rewrite lookup_update_eq. rewrite lookup_update_ne by done.
    case_decide as Hsame.
    - subst od. rewrite lookup_update_eq, relinked_state_same.
      by rewrite (Hold _ _ Hnd).
    - rewrite lookup_update_ne by done.
      rewrite relinked_state_new_dir, (Hold _ _ Hnd) by done.
      cbn [fmap option_fmap option_map]. by rewrite linked_after_inc. }
  rewrite !lookup_update_ne by done.
  case_decide as Hyod.
  { subst y. rewrite lookup_update_eq.
    rewrite relinked_state_old_dir, (Hold _ _ Hod) by done. done. }
  rewrite lookup_update_ne by done.
  rewrite relinked_state_other by done.
  unfold st1. rewrite with_negative_lookup. by rewrite decide_False.
Qed.

Lemma detach_fields c x :
  d_parent (detach c x) = d_parent x
  ∧ debugfs_positive (detach c x) = debugfs_positive x
  ∧ is_dir (detach c x) = is_dir x
  ∧ d_inode (detach c x) = d_inode x
  ∧ d_subdirs (detach c x) = filter (λ y, y ≠ c) (d_subdirs x).
Proof. done. Qed.

Lemma linked_inode c b x :
  d_inode (linked c b x) = if b then inc_nlink <$> d_inode x else d_inode x.
Proof. unfold linked. by destruct b. Qed.

Lemma unlinked_inode c b x :
  d_inode (unlinked c b x) = if b then drop_nlink <$> d_inode x else d_inode x.
Proof. unfold unlinked, detach. by destruct b. Qed.

Lemma renamed_state_inv od o nd new_name st x i xod xnd :
  tree_inv st →
  dcache st !! o = Some x → debugfs_positive x = true →
  d_inode x = Some i → d_parent x = Some od →
  dcache st !! od = Some xod → dcache st !! nd = Some xnd →
  o ≠ nd →
  tree_inv (renamed_state od o nd new_name (S_ISDIR (i_mode i)) st).
Proof.
  intros [Hok Ha Hpn Hk] Ho Hpos Hi Hpar Hod Hnd Hne2.
  set (b := S_ISDIR (i_mode i)).
  set (t := fresh (dom (dcache st))).
  set (st' := renamed_state od o nd new_name b st).
  set (x' := mk_dentry new_name (Some nd) (d_inode x) (d_unhashed x)
               (d_mounted x) (d_subdirs x)).
  set (xnd' := if decide (od = nd) then linked o false (detach o xnd)
               else linked o b xnd).
  set (base := if decide (od = nd) then filter (λ y, y ≠ o) (d_subdirs xnd)
               else d_subdirs xnd).
  assert (Hne1 : o ≠ od).
  { intros Heq. apply (Hpn o x Ho). by rewrite Hpar, Heq. }
  assert (Hlk : ∀ y, dcache st' !! y
            = if decide (y = t) then Some (negative_dentry new_name nd)
              else if decide (y = o) then Some x'
              else if decide (y = nd) then Some xnd'
              else if decide (y = od) then Some (unlinked o b xod)
              else dcache st !! y)
    by (intros y; by apply renamed_lookup).
  assert (Hfresh : ∀ c v, dcache st !! c = Some v → c ≠ t).
  { intros c v Hc ->. unfold t in Hc. by rewrite fresh_not_in in Hc. }
  destruct (Ha o x od Ho Hpos Hpar) as (xod0 & Hod0 & Hoin).
  rewrite Hod in Hod0. injection Hod0 as <-.
  pose proof (ok_nodup st Hok) as Hnodup.
  assert (Fnd : d_parent xnd' = d_parent xnd
                ∧ debugfs_positive xnd' = debugfs_positive xnd
                ∧ is_dir xnd' = is_dir xnd
                ∧ d_subdirs xnd' = base ++ [o]
                ∧ d_inode xnd' = if b && negb (bool_decide (od = nd))
                                 then inc_nlink <$> d_inode xnd
                                 else d_inode xnd).
  { unfold xnd', base. destruct (decide (od = nd)) as [Hsame|Hsame].
    - rewrite bool_decide_eq_true_2, andb_false_r by done.
      destruct (linked_fields o false (detach o xnd)) as (-> & -> & -> & ->).
      by rewrite linked_inode.
    - rewrite bool_decide_eq_false_2, andb_true_r by done.
      destruct (linked_fields o b xnd) as (-> & -> & -> & ->).
      by rewrite linked_inode. }
  destruct Fnd as (Fpar & Fpos & Fdir & Fsub & Fino).
  destruct (unlinked_fields o b xod) as (Upar & _ & _ & _ & Usub & _).
  assert (Hbase : ∀ c, c ∈ base → c ∈ d_subdirs xnd ∧ c ≠ o).
  { intros c Hc. unfold base in Hc. destruct (decide (od = nd)) as [Hsame|Hsame].
    - apply list_elem_of_filter in Hc as [? ?]. done.
    - split; [done|]. intros ->.
      destruct (ok_listed st Hok nd xnd o Hnd Hc) as (y & Hy & Hyp & _).
      congruence. }
  assert (Hkeep : ∀ c v, dcache st !! c = Some v → c ≠ o →
            ∃ v', dcache st' !! c = Some v' ∧ d_parent v' = d_parent v
                  ∧ debugfs_positive v' = debugfs_positive v
                  ∧ is_dir v' = is_dir v).
  { intros c v Hc Hco. rewrite Hlk.
    rewrite decide_False by by eapply Hfresh. rewrite decide_False by done.
    destruct (decide (c = nd)) as [Hcnd|Hcnd].
    { subst c. rewrite Hnd in Hc. injection Hc as <-. eauto 10. }
    destruct (decide (c = od)) as [Hcod|Hcod]; [|by exists v].
    subst c. rewrite Hod in Hc. injection Hc as <-. eexists. split; [done|].
    split; [done|]. split; [apply unlinked_positive|apply unlinked_is_dir]. }
  assert (Hback : ∀ c v', dcache st' !! c = Some v' → c ≠ o → c ≠ t →
            ∃ v, dcache st !! c = Some v ∧ d_parent v' = d_parent v
                 ∧ debugfs_positive v' = debugfs_positive v).
  { intros c v' Hc Hco Hct. rewrite Hlk in Hc.
    rewrite !decide_False in Hc by done.
    destruct (decide (c = nd)) as [Hcnd|Hcnd].
    { subst c. injection Hc as <-. exists xnd. done. }
    destruct (decide (c = od)) as [Hcod|Hcod]; [|by exists v'].
    subst c. injection Hc as <-. exists xod. split; [done|].
    split; [done|apply unlinked_positive]. }
  assert (Hstatus : ∀ c, is_positive_dir st' c = is_positive_dir st c).
  { intros c. unfold is_positive_dir. destruct (decide (c = t)) as [->|Hct].
    { rewrite Hlk. rewrite decide_True by done. unfold t.
      by rewrite fresh_not_in. }
    destruct (decide (c = o)) as [->|Hco].
    { rewrite Hlk. rewrite decide_False, decide_True by done. by rewrite Ho. }
    destruct (dcache st !! c) as [v|] eqn:Hv.
    - destruct (Hkeep c v Hv Hco) as (v' & -> & _ & -> & ->). done.
    - rewrite Hlk. rewrite !decide_False by done.
      destruct (decide (c = nd)); [subst c; congruence|].
      destruct (decide (c = od)); [subst c; congruence|]. by rewrite Hv. }
  assert (Hcount : ∀ l, count_dirs st' l = count_dirs st l).
  { intros l. apply count_dirs_ext. intros c _. apply Hstatus. }
  assert (Ho' : dcache st' !! o = Some x').
  { rewrite Hlk. rewrite decide_False by by eapply Hfresh.
    by rewrite decide_True. }
  assert (Hnd' : dcache st' !! nd = Some xnd').
  { rewrite Hlk. rewrite decide_False by by eapply Hfresh.
    rewrite decide_False by done. by rewrite decide_True. }
  assert (Hlisted : ∀ q xq c, dcache st !! q = Some xq → c ∈ d_subdirs xq →
            c ≠ o →
            ∃ y, dcache st' !! c = Some y ∧ d_parent y = Some q
                 ∧ debugfs_positive y = true).
  { intros q xq c Hq Hc Hco.
    destruct (ok_listed st Hok q xq c Hq Hc) as (y & Hy & Hyp & Hypos).
    destruct (Hkeep c y Hy Hco) as (y' & Hy' & Hpar' & Hpos' & _).
    exists y'. split; [done|]. split; congruence. }
  assert (Honly : ∀ q xq, dcache st !! q = Some xq → o ∈ d_subdirs xq → q = od).
  { intros q xq Hq Hin.
    destruct (ok_listed st Hok q xq o Hq Hin) as (y & Hy & Hyp & _).
    congruence. }
  split; [split|..].
  - intros q xq' c Hq Hc. rewrite Hlk in Hq. destruct (decide (q = t)) as [Hqt|Hqt].
    { injection Hq as <-. simpl in Hc. set_solver. }
    destruct (decide (q = o)) as [Hqo|Hqo].
    { subst q. injection Hq as <-. simpl in Hc.
      eapply Hlisted; [exact Ho|done|]. intros ->.
      destruct (ok_listed st Hok o x o Ho Hc) as (y & Hy & Hyp & _).
      rewrite Ho in Hy. injection Hy as <-. exact (Hpn _ _ Ho Hyp). }
    destruct (decide (q = nd)) as [Hqnd|Hqnd].
    { subst q. injection Hq as <-. rewrite Fsub in Hc.
      apply elem_of_app in Hc as [Hc | Hc].
      - destruct (Hbase c Hc). by eapply Hlisted.
      - apply list_elem_of_singleton in Hc as ->. exists x'. done. }
    destruct (decide (q = od)) as [Hqod|Hqod].
    { subst q. injection Hq as <-. rewrite Usub in Hc.
      apply list_elem_of_filter in Hc as [Hco Hc]. by eapply Hlisted. }
    eapply Hlisted; [done|done|]. intros ->. apply Hqod. by eapply Honly.
  - intros q xq' Hq. rewrite Hlk in Hq. destruct (decide (q = t)) as [Hqt|Hqt].
    { injection Hq as <-. constructor. }
    destruct (decide (q = o)) as [Hqo|Hqo].
    { injection Hq as <-. simpl. by eapply Hnodup. }
    destruct (decide (q = nd)) as [Hqnd|Hqnd].
    { subst q. injection Hq as <-. rewrite Fsub. apply NoDup_app.
      split.
      - unfold base.
        destruct (decide (od = nd)); [apply NoDup_filter|]; by eapply Hnodup.
      - split; [|apply NoDup_singleton].
        intros c Hc Hc'. apply list_elem_of_singleton in Hc' as ->.
        by destruct (Hbase o Hc). }
    destruct (decide (q = od)) as [Hqod|Hqod].
    { injection Hq as <-. rewrite Usub. apply NoDup_filter. by eapply Hnodup. }
    by eapply Hnodup.
  - intros c y q Hc Hypos Hypar. destruct (decide (c = t)) as [->|Hct].
    { rewrite Hlk in Hc. rewrite decide_True in Hc by done.
      by injection Hc as <-. }
    destruct (decide (c = o)) as [->|Hco].
    { rewrite Ho' in Hc. injection Hc as <-. simpl in Hypar.
      injection Hypar as <-. exists xnd'. split; [done|]. rewrite Fsub.
      set_solver. }
    destruct (Hback c y Hc Hco Hct) as (v & Hv & Hvpar & Hvpos).
    destruct (Ha c v q Hv ltac:(congruence) ltac:(congruence))
      as (xq & Hq & Hin).
    unfold child_of. rewrite Hlk.
    rewrite decide_False by by eapply Hfresh.
    destruct (decide (q = o)) as [Hqo|Hqo].
    { subst q. rewrite Ho in Hq. injection Hq as <-. by exists x'. }
    destruct (decide (q = nd)) as [Hqnd|Hqnd].
    { subst q. rewrite Hnd in Hq. injection Hq as <-. exists xnd'.
      split; [done|]. rewrite Fsub. apply elem_of_app. left.
      unfold base. destruct (decide (od = nd)); [|done].
      by apply list_elem_of_filter. }
    destruct (decide (q = od)) as [Hqod|Hqod]; [|by exists xq].
    subst q. rewrite Hod in Hq. injection Hq as <-. eexists. split; [done|].
    rewrite Usub. by apply list_elem_of_filter.
  - intros c y Hc. destruct (decide (c = t)) as [->|Hct].
    { rewrite Hlk in Hc. rewrite decide_True in Hc by done.
      injection Hc as <-. simpl. intros [= ->]. by eapply Hfresh. }
    destruct (decide (c = o)) as [->|Hco].
    { rewrite Ho' in Hc. injection Hc as <-. simpl. congruence. }
    destruct (Hback c y Hc Hco Hct) as (v & Hv & -> & _). by eapply Hpn.
  - intros q xq' j Hq Hj Hdir. rewrite Hcount. rewrite Hlk in Hq.
    destruct (decide (q = t)) as [Hqt|Hqt].
    { by injection Hq as <-. }
    destruct (decide (q = o)) as [Hqo|Hqo].
    { injection Hq as <-. simpl in *. by eapply Hk. }
    assert (Hso : is_positive_dir st o = b).
    { unfold is_positive_dir, is_dir. by rewrite Ho, Hpos, Hi. }
    destruct (decide (q = nd)) as [Hqnd|Hqnd].
    { subst q. injection Hq as <-. rewrite Fsub, count_dirs_app.
      rewrite count_dirs_cons, count_dirs_nil, Hso.
      rewrite Hj in Fino. unfold base.
      destruct (d_inode xnd) as [ind|] eqn:Hind.
      2: { by destruct (b && negb (bool_decide (od = nd))). }
      pose proof (Hk nd xnd ind Hnd Hind) as Hknd.
      destruct (decide (od = nd)) as [Hsame|Hsame].
      - subst od. rewrite bool_decide_eq_true_2, andb_false_r in Fino by done.
        injection Fino as ->. rewrite Hknd by done.
        rewrite Hod in Hnd. injection Hnd as ->.
        rewrite count_dirs_filter_ne, Hso; [lia|by eapply Hnodup|done].
      - rewrite bool_decide_eq_false_2, andb_true_r in Fino by done.
        clearbody b. destruct b; simpl in Fino; injection Fino as ->;
          simpl in *; rewrite Hknd by done; lia. }
    destruct (decide (q = od)) as [Hqod|Hqod]; [|by eapply Hk].
    subst q. injection Hq as <-. rewrite Usub.
    rewrite count_dirs_filter_ne, Hso; [|by eapply Hnodup|done].
    rewrite unlinked_inode in Hj.
    destruct (d_inode xod) as [iod|] eqn:Hiod; [|by destruct b].
    pose proof (Hk od xod iod Hod Hiod) as Hkod.
    clearbody b. destruct b; simpl in Hj; injection Hj as <-; simpl in *;
      rewrite Hkod by done; lia.
Qed.

(** ** Reachable states *)

(** The states that come about from a freshly registered filesystem (nothing
    mounted, the counter at 0, a root directory with two links) through the
    exported functions, when [debugfs_rename] is applied to positive dentries
    only.  This is a restriction: [debugfs_rename] itself tests
    [old_dentry->d_inode], not [debugfs_positive], and accepts a removed
    dentry that still holds its inode (the section on renaming a removed
    dentry is about that call); the states behind such a call are not among
    these.  As documented,
    [old_dir] is the parent of [old_dentry], which is not itself the directory
    it is moved to, and the trap that [lock_rename] hands back is an existing
    dentry. *)
Inductive reachable : state → Prop :=
  | reach_init root :
      reachable (mk_state {[ root := root_dentry ]} None 0)
  | reach_create st e c parent r st' :
      reachable st →
      run_creation e c parent st = Some (r, st') →
      reachable st'
  | reach_remove st dentry st' :
      reachable st →
      debugfs_remove dentry st = Some st' →
      reachable st'
  | reach_remove_recursive st fuel dentry st' log :
      reachable st →
      debugfs_remove_recursive fuel dentry st = Some (st', log) →
      reachable st'
  | reach_rename st trap lookup_good old_dir old_dentry new_dir new_name
      r st' x :
      reachable st →
      dcache st !! old_dentry = Some x →
      debugfs_positive x = true →
      d_parent x = Some old_dir →
      old_dentry ≠ new_dir →
      (∀ t, trap = Some t → is_Some (dcache st !! t)) →
      debugfs_rename trap lookup_good old_dir old_dentry new_dir new_name st
      = Some (r, st') →
      reachable st'.

Lemma reachable_inv st : reachable st → tree_inv st.
Proof.
  induction 1 as [root | st e c parent r st' _ IH Hrun | st dentry st' _ IH Hrun
                 | st fuel dentry st' log _ IH Hrun
                 | st trap lg od o nd nn r st' x _ IH Hx Hpos Hpar Hne Htrap Hrun].
  - apply init_state_inv.
  - by eapply run_creation_inv.
  - by eapply debugfs_remove_inv.
  - by eapply debugfs_remove_recursive_inv.
  - apply rename_cases in Hrun; [|exact Htrap].
    destruct Hrun
      as [[_ ->] | (_ & xod & xnd & x0 & i & Hod & _ & Hnd & _ & Hx0 & Hi
                    & _ & _ & _ & _ & Hmove)]; [done|].
    rewrite Hx in Hx0. injection Hx0 as <-.
    assert (o ≠ od) as Hne1.
    { intros Heq. apply (inv_parent_ne st IH o x Hx). by rewrite Hpar, Heq. }
    rewrite (d_move_renamed od o nd nn _ st x xod xnd) in Hmove by done.
    injection Hmove as <-. by eapply renamed_state_inv.
Qed.


Lemma scenario_reachable : reachable scenario_state.
Proof.
  pose proof (reach_init 0) as H0.
  pose proof (reach_create _ ok_env (create_dir "a") NULL _ _ H0
                ltac:(vm_compute; reflexivity)) as H1.
  pose proof (reach_create _ ok_env
                (create_file "b" 0 (opaque_data 0) None) (PTR 1) _ _ H1
                ltac:(vm_compute; reflexivity)) as H2.
  pose proof (reach_create _ ok_env (create_dir "c") (PTR 1) _ _ H2
                ltac:(vm_compute; reflexivity)) as H3.
  pose proof (reach_create _ ok_env
                (create_file "d" 0 (opaque_data 0) None) (PTR 3) _ _ H3
                ltac:(vm_compute; reflexivity)) as H4.
  exact H4.
Qed.


(** ** Mount pin balance *)

(** The nodes that callers hold: the positive dentries below a directory
    (the root of the mount has no parent and is not one of them). *)
Definition is_node (x : dentry) : bool :=
  debugfs_positive x && bool_decide (is_Some (d_parent x)).

Definition nodes (st : state) : gset nat :=
  dom (filter (λ kx : nat * dentry, is_node kx.2 = true) (dcache st)).

(** [debugfs_remove] takes [d] out: [d] is a node, and if it is a directory
    it has no positive child ([simple_rmdir] would answer [-ENOTEMPTY]). *)
Definition removable (st : state) (d : nat) : bool :=
  match dcache st !! d with
  | Some x =>
      is_node x
      && match d_inode x with
         | Some i =>
             if S_ISDIR (i_mode i)
             then bool_decide (simple_empty d st = Some true)
             else true
         | None => false
         end
  | None => false
  end.

(** Runs of the interface from a freshly registered filesystem: [n]
    creations that returned a dentry and [m] removals, each of a node that
    was removable when [debugfs_remove] was called on it. *)
Inductive balanced_run : state → nat → nat → Prop :=
  | run_start root :
      balanced_run (mk_state {[ root := root_dentry ]} None 0) 0 0
  | run_create st n m e c parent d st' :
      balanced_run st n m →
      run_creation e c parent st = Some (PTR d, st') →
      balanced_run st' (S n) m
  | run_remove st n m d st' :
      balanced_run st n m →
      removable st d = true →
      debugfs_remove (PTR d) st = Some st' →
      balanced_run st' n (S m).

Definition has_inode (st : state) (p : nat) : Prop :=
  ∃ px, dcache st !! p = Some px ∧ is_Some (d_inode px).

(** Whatever a dentry names as its parent is a dentry with an inode. *)
Definition parents_ok (st : state) : Prop :=
  ∀ c y p, dcache st !! c = Some y → d_parent y = Some p → has_inode st p.

(** One created file, removed again. *)
Definition balanced_state : state :=
  Eval vm_compute in
    match
      '(f, st) ← debugfs_create_file ok_env "f" 0 NULL (opaque_data 0) None
                   init_state;
      debugfs_remove f st
    with
    | Some st => st
    | None => init_state
    end.

Lemma elem_of_nodes st d :
  d ∈ nodes st ↔ ∃ x, dcache st !! d = Some x ∧ is_node x = true.
Proof.
  unfold nodes. rewrite elem_of_dom. unfold is_Some.
  split.
  - intros [x Hx]. apply map_lookup_filter_Some in Hx as [Hx Hn]. eauto.
  - intros (x & Hx & Hn). exists x. by apply map_lookup_filter_Some.
Qed.

Lemma nodes_dcache st st' : dcache st' = dcache st → nodes st' = nodes st.
Proof. unfold nodes. by intros ->. Qed.

Lemma parents_ok_dcache st st' :
  dcache st' = dcache st → parents_ok st → parents_ok st'.
Proof. unfold parents_ok, has_inode. by intros ->. Qed.

Lemma is_node_linked c b x : is_node (linked c b x) = is_node x.
Proof.
  unfold is_node. destruct (linked_fields c b x) as (-> & -> & _). done.
Qed.

Lemma is_node_unlinked c b x : is_node (unlinked c b x) = is_node x.
Proof.
  unfold is_node. rewrite unlinked_positive.
  destruct (unlinked_fields c b x) as (-> & _). done.
Qed.

Lemma nodes_created name p px i st :
  dcache st !! p = Some px →
  nodes (created_state (fresh (dom (dcache st))) p i (with_negative name p st))
  = {[ fresh (dom (dcache st)) ]} ∪ nodes st.
Proof.
  intros Hp. apply set_eq. intros y.
  rewrite elem_of_union, elem_of_singleton, !elem_of_nodes.
  rewrite (created_state_lookup name p px i st y Hp).
  destruct (decide (y = fresh (dom (dcache st)))) as [->|Hf].
  { split; [by left|]. intros _. eexists. split; [done|].
    done. }
  destruct (decide (y = p)) as [->|Hyp].
  - rewrite Hp. split.
    + intros (x & [= <-] & Hn). right. exists px.
      by rewrite is_node_linked in Hn.
    + intros [?|(x & [= <-] & Hn)]; [done|]. eexists. split; [done|].
      by rewrite is_node_linked.
  - split; [by right|]. by intros [?|?].
Qed.

Lemma nodes_removed c p b st x :
  c ≠ p → dcache st !! c = Some x →
  nodes (removed_state c p b st) = nodes st ∖ {[ c ]}.
Proof.
  intros Hne Hc. apply set_eq. intros y.
  rewrite elem_of_difference, elem_of_singleton, !elem_of_nodes.
  rewrite (removed_state_lookup c p b st y Hne).
  destruct (decide (y = c)) as [->|Hyc].
  { rewrite Hc. simpl. split; [|by intros [_ ?]].
    intros (x' & [= <-] & Hn). unfold is_node, debugfs_positive in Hn.
    simpl in Hn. destruct (d_inode x); done. }
  destruct (decide (y = p)) as [->|Hyp].
  - destruct (dcache st !! p) as [px|]; simpl.
    + split.
      * intros (x' & [= <-] & Hn). rewrite is_node_unlinked in Hn.
        split; [eauto|done].
      * intros [(x' & [= <-] & Hn) _]. eexists. split; [done|].
        by rewrite is_node_unlinked.
    + split; [by intros (? & ? & _)|by intros [(? & ? & _) _]].
  - split; [by intros ?|by intros [? _]].
Qed.

Lemma created_parents_ok name p px i st :
  dcache st !! p = Some px → is_Some (d_inode px) →
  parents_ok st →
  parents_ok
    (created_state (fresh (dom (dcache st))) p i (with_negative name p st)).
Proof.
  intros Hp Hi HK.
  assert (Hmono : ∀ q, has_inode st q →
            has_inode (created_state (fresh (dom (dcache st))) p i
                         (with_negative name p st)) q).
  { intros q (qx & Hq & Hqi). unfold has_inode.
    rewrite (created_state_lookup name p px i st q Hp).
    destruct (decide (q = fresh (dom (dcache st)))) as [->|Hf].
    { by rewrite fresh_not_in in Hq. }
    destruct (decide (q = p)) as [->|Hqp]; [|eauto].
    eexists. split; [done|]. rewrite linked_inode.
    destruct Hi as [j ->]. destruct (S_ISDIR (i_mode i)); simpl; eauto. }
  intros c y q Hc Hpar.
  rewrite (created_state_lookup name p px i st c Hp) in Hc.
  destruct (decide (c = fresh (dom (dcache st)))) as [->|Hf].
  { injection Hc as <-. simpl in Hpar. injection Hpar as <-.
    apply Hmono. by exists px. }
  destruct (decide (c = p)) as [->|Hcp].
  - injection Hc as <-.
    destruct (linked_fields (fresh (dom (dcache st))) (S_ISDIR (i_mode i)) px)
      as (Hlp & _).
    rewrite Hlp in Hpar. apply Hmono. by eapply HK.
  - apply Hmono. by eapply HK.
Qed.

Lemma removed_parents_ok c p b st x :
  c ≠ p → dcache st !! c = Some x →
  parents_ok st → parents_ok (removed_state c p b st).
Proof.
  intros Hne Hx HK.
  assert (Hmono : ∀ q, has_inode st q → has_inode (removed_state c p b st) q).
  { intros q (qx & Hq & Hqi). unfold has_inode.
    rewrite (removed_state_lookup c p b st q Hne).
    destruct (decide (q = c)) as [->|Hqc].
    { rewrite Hq. simpl. eexists. split; [done|]. done. }
    destruct (decide (q = p)) as [->|Hqp]; [|eauto].
    rewrite Hq. simpl. eexists. split; [done|]. rewrite unlinked_inode.
    destruct Hqi as [j ->]. destruct b; simpl; eauto. }
  intros y v q Hy Hpar.
  rewrite (removed_state_lookup c p b st y Hne) in Hy.
  destruct (decide (y = c)) as [->|Hyc].
  { rewrite Hx in Hy. simpl in Hy. injection Hy as <-. simpl in Hpar.
    apply Hmono. by eapply HK. }
  destruct (decide (y = p)) as [->|Hyp].
  - destruct (dcache st !! p) as [px|] eqn:Hp; simpl in Hy; [|done].
    injection Hy as <-. destruct (unlinked_fields c b px) as (Hup & _).
    rewrite Hup in Hpar. apply Hmono. by eapply HK.
  - apply Hmono. by eapply HK.
Qed.

Lemma created_effect e c parent st d st' :
  run_creation e c parent st = Some (PTR d, st') →
  ∃ pinned name p px i,
    simple_pin_fs (attach e) st = (0%Z, pinned)
    ∧ dcache pinned !! p = Some px ∧ is_Some (d_inode px)
    ∧ st' = created_state (fresh (dom (dcache pinned))) p i
              (with_negative name p pinned).
Proof.
  intros Hrun.
  apply run_creation_outcome in Hrun as [(_ & Hr & _)|(_ & Hout)]; [done|].
  inversion Hout; subst. eauto 10.
Qed.

Lemma removed_effect d st st' :
  tree_inv st → parents_ok st →
  removable st d = true →
  debugfs_remove (PTR d) st = Some st' →
  ∃ p b x, d ≠ p ∧ dcache st !! d = Some x ∧ is_node x = true
           ∧ st' = simple_release_fs (removed_state d p b st).
Proof.
  intros Hinv HK. unfold removable, debugfs_remove.
  destruct (dcache st !! d) as [x|] eqn:Hd; simpl; [|done].
  intros Hrem. apply andb_true_iff in Hrem as [Hn Hrem].
  assert (Hn' := Hn). unfold is_node in Hn'.
  apply andb_true_iff in Hn' as [Hpos Hpar].
  apply bool_decide_eq_true in Hpar as [p Hpar]. rewrite Hpar.
  destruct (HK d x p Hd Hpar) as (px & Hp & [ip Hip]).
  rewrite Hp. simpl. rewrite Hip.
  destruct (d_inode x) as [i|] eqn:Hi; [|done].
  rewrite (debugfs_remove_positive d p x i st Hd Hpos Hi).
  - simpl. intros [= <-]. exists p, (S_ISDIR (i_mode i)), x.
    split; [|done]. intros ->. apply (inv_parent_ne st Hinv p x Hd Hpar).
  - unfold inode_of. rewrite Hp. simpl. rewrite Hip. eauto.
  - intros Hdir. rewrite Hdir in Hrem. by apply bool_decide_eq_true in Hrem.
Qed.

Lemma release_mount_zero st :
  debugfs_mount_count (simple_release_fs st) = 0%Z →
  debugfs_mount (simple_release_fs st) = None.
Proof.
  unfold simple_release_fs.
  destruct (debugfs_mount_count st - 1 =? 0)%Z eqn:Hz; simpl; [done|].
  apply Z.eqb_neq in Hz. done.
Qed.

Lemma balanced_run_inv st n m :
  balanced_run st n m →
  tree_inv st ∧ parents_ok st
  ∧ n = m + size (nodes st)
  ∧ debugfs_mount_count st = Z.of_nat (size (nodes st))
  ∧ (debugfs_mount_count st = 0%Z → debugfs_mount st = None).
Proof.
  induction 1 as [root | st n m e c parent d st' _ IH Hrun
                 | st n m d st' _ IH Hrem Hrun].
  - split; [apply init_state_inv|].
    split.
    { intros c y p Hc Hp. simpl in Hc.
      apply lookup_singleton_Some in Hc as [_ <-]. done. }
    assert (nodes (mk_state {[ root := root_dentry ]} None 0) = ∅) as ->.
    { apply set_eq. intros y. rewrite elem_of_nodes. simpl. split; [|done].
      intros (x & Hx & Hn). apply lookup_singleton_Some in Hx as [_ <-].
      done. }
    rewrite size_empty. done.
  - destruct IH as (Hinv & HK & Hn & Hcount & Hmount).
    split; [by eapply run_creation_inv|].
    apply created_effect in Hrun
      as (pinned & name & p & px & i & Hpin & Hp & Hi & ->).
    pose proof (pin_eq_dcache _ _ _ _ Hpin) as Hdc.
    pose proof (pin_success_count (attach e) st) as Hpc.
    rewrite Hpin in Hpc. simpl in Hpc. specialize (Hpc eq_refl).
    split.
    { apply (created_parents_ok name p px i pinned Hp Hi).
      by eapply parents_ok_dcache. }
    rewrite (nodes_created name p px i pinned Hp), (nodes_dcache st pinned Hdc).
    rewrite size_union, size_singleton.
    2: { apply disjoint_singleton_l. rewrite elem_of_nodes.
         intros (x & Hx & _). rewrite <- Hdc, fresh_not_in in Hx. done. }
    destruct (created_state_count (fresh (dom (dcache pinned))) p i
                (with_negative name p pinned)) as [-> _].
    destruct (with_negative_count name p pinned) as [-> _].
    rewrite Hpc. repeat split; lia.
  - destruct IH as (Hinv & HK & Hn & Hcount & Hmount).
    split; [by eapply debugfs_remove_inv|].
    apply removed_effect in Hrun
      as (p & b & x & Hne & Hd & Hnode & ->); [|done..].
    split.
    { eapply parents_ok_dcache; [apply release_dcache|].
      by eapply removed_parents_ok. }
    rewrite (nodes_dcache _ _ (release_dcache _)).
    rewrite (nodes_removed d p b st x Hne Hd).
    assert (d ∈ nodes st) as Hin by (apply elem_of_nodes; eauto).
    assert (size (nodes st) = S (size (nodes st ∖ {[ d ]}))) as Hsz.
    { rewrite (union_difference_singleton_L d (nodes st) Hin) at 1.
      rewrite size_union, size_singleton by set_solver. done. }
    split; [lia|]. split.
    + rewrite release_count.
      destruct (removed_state_count d p b st) as [-> _]. lia.
    + apply release_mount_zero.
Qed.

(** C4: along every run that starts on a freshly registered filesystem and
    consists of creations that return a dentry and of removals that each find
    their node removable (positive, and without a positive child if it is a
    directory), the pin counter is the number of creations minus the number
    of removals; it is never negative, and once every created node has been
    removed it is 0 and the mount is released. *)
Theorem pin_balance st n m :
  balanced_run st n m →
  m ≤ n
  ∧ debugfs_mount_count st = (Z.of_nat n - Z.of_nat m)%Z
  ∧ (0 ≤ debugfs_mount_count st)%Z
  ∧ (n = m → debugfs_mount_count st = 0%Z ∧ debugfs_mount st = None).
Proof.
  intros Hrun.
  apply balanced_run_inv in Hrun as (_ & _ & Hn & Hcount & Hmount).
  split; [lia|]. split; [lia|]. split; [lia|].
  intros ->. assert (debugfs_mount_count st = 0%Z) as Hz by lia. auto.
Qed.

Lemma balanced_state_run : balanced_run balanced_state 1 1.
Proof.
  pose proof (run_start 0) as H0.
  pose proof (run_create _ _ _ ok_env
                (create_file "f" 0 (opaque_data 0) None) NULL _ _ H0
                ltac:(vm_compute; reflexivity)) as H1.
  pose proof (run_remove _ _ _ 1 _ H1 ltac:(vm_compute; reflexivity)
                ltac:(vm_compute; reflexivity)) as H2.
  exact H2.
Qed.

Lemma pin_balance_witness :
  1 ≤ 1
  ∧ debugfs_mount_count balanced_state = (Z.of_nat 1 - Z.of_nat 1)%Z
  ∧ (0 ≤ debugfs_mount_count balanced_state)%Z
  ∧ (1 = 1 → debugfs_mount_count balanced_state = 0%Z
             ∧ debugfs_mount balanced_state = None).
Proof. exact (pin_balance balanced_state 1 1 balanced_state_run). Defined.

(** C4, the claim as stated fails when a removal is refused: a directory "a"
    and a file "b" inside it are created, then [debugfs_remove] is called on
    "a" and after that on "b".  The first call finds "a" not empty, removes
    nothing and releases nothing; after two creations and two removals of the
    created nodes the counter is 1 and the mount is still held. *)
Lemma pin_balance_fails_on_refused_removal :
  ('(a, st) ← debugfs_create_dir ok_env "a" NULL init_state;
   '(b, st) ← debugfs_create_file ok_env "b" 0 a (opaque_data 0) None st;
   st ← debugfs_remove a st;
   st ← debugfs_remove b st;
   Some (a, b, debugfs_mount_count st, debugfs_mount st,
         positive_at st 1, positive_at st 2))
  = Some (PTR 1, PTR 2, 1%Z, Some 0, true, false).
Proof. vm_compute. reflexivity. Qed.

(** * Further properties of the operations *)

(** ** What a creation leaves behind *)

(** The data and the operations that [__create_file] hands down for a mode:
    [debugfs_mkdir] passes neither, [debugfs_link] passes the data only. *)
Definition node_data (mode : Z) (data : private_data) : private_data :=
  if (Z.land mode S_IFMT =? S_IFDIR)%Z then opaque_data 0 else data.

Definition node_fops (mode : Z) (fops : option Z) : option Z :=
  if (Z.land mode S_IFMT =? S_IFDIR)%Z then None
  else if (Z.land mode S_IFMT =? S_IFLNK)%Z then None
  else fops.

Lemma create_file_created e name mode parent data fops st d st' :
  __create_file e name mode parent data fops st = Some (PTR d, st') →
  ∃ pinned p px i,
    simple_pin_fs (attach e) st = (0%Z, pinned)
    ∧ resolve_parent parent pinned = Some p
    ∧ dcache pinned !! p = Some px
    ∧ is_Some (d_inode px)
    ∧ debugfs_get_inode true (node_mode mode) (node_data mode data)
        (node_fops mode fops) = Some i
    ∧ d = fresh (dom (dcache pinned))
    ∧ st' = created_state d p i (with_negative name p pinned).
Proof.
  unfold __create_file.
  destruct (simple_pin_fs (attach e) st) as [error pinned] eqn:Hpin.
  destruct (error =? 0)%Z eqn:Herr; simpl; [|done].
  apply Z.eqb_eq in Herr. subst error.
  fold (resolve_parent parent pinned).
  destruct (resolve_parent parent pinned) as [p|] eqn:Hres; simpl; [|done].
  unfold inode_of at 1.
  destruct (dcache pinned !! p) as [px|] eqn:Hp; simpl; [|done].
  destruct (d_inode px) as [ip|] eqn:Hip; simpl; [|done].
  destruct (lookup_ok e) eqn:Hlook; [|done].
  destruct (List.find (named_positive pinned name) (d_subdirs px)) as [c|]
    eqn:Hfind.
  { destruct (lookup_one_len_found _ _ _ _ _ Hp Hfind)
      as (Hl & y & i & Hc & Hi & _).
    rewrite Hl. simpl.
    assert (Hmk : ∀ m dt fo, debugfs_mknod (alloc_ok e) p c m dt fo pinned
                             = Some ((- EEXIST)%Z, pinned))
      by (intros; eapply mknod_exists; eauto).
    unfold debugfs_mkdir, debugfs_link, debugfs_create.
    rewrite !Hmk. simpl. by repeat case_match. }
  rewrite (lookup_one_len_new _ _ _ _ Hp Hfind). simpl.
  unfold debugfs_mkdir, debugfs_link, debugfs_create.
  rewrite !(mknod_new _ _ _ _ _ _ _ _ Hp).
  unfold node_mode, node_data, node_fops.
  destruct (alloc_ok e).
  2: { by repeat case_match. }
  destruct (Z.land mode S_IFMT =? S_IFDIR)%Z eqn:Hdir.
  - destruct (debugfs_get_inode true
                (Z.lor (Z.land mode (Z.lor S_IRWXUGO S_ISVTX)) S_IFDIR)
                (opaque_data 0) None) as [i|] eqn:Hg; simpl; [|done].
    unfold on_inode, inode_of. rewrite lookup_update_eq.
    rewrite lookup_update_ne.
    2: { intros Heq. pose proof (fresh_not_in pinned) as Hf.
         rewrite Heq, Hp in Hf. done. }
    rewrite with_negative_lookup_old by eauto. rewrite Hp. simpl.
    rewrite Hip. simpl. intros [= <- <-].
    exists pinned, p, px, i. repeat (split; [by eauto|]).
    unfold created_state.
    rewrite (get_inode_mode _ _ _ _ _ Hg), mode_dir_node_mode. done.
  - destruct (Z.land mode S_IFMT =? S_IFLNK)%Z eqn:Hlnk.
    + destruct (debugfs_get_inode true (Z.lor (Z.land mode S_IALLUGO) S_IFLNK)
                  data None) as [i|] eqn:Hg; simpl; [|done].
      intros [= <- <-].
      exists pinned, p, px, i. repeat (split; [by eauto|]).
      unfold created_state.
      rewrite (get_inode_mode _ _ _ _ _ Hg), mode_lnk_node_mode. done.
    + destruct (debugfs_get_inode true (Z.lor (Z.land mode S_IALLUGO) S_IFREG)
                  data fops) as [i|] eqn:Hg; simpl; [|done].
      intros [= <- <-].
      exists pinned, p, px, i. repeat (split; [by eauto|]).
      unfold created_state.
      rewrite (get_inode_mode _ _ _ _ _ Hg), mode_reg_node_mode. done.
Qed.

Lemma get_inode_regular mode data fops :
  debugfs_get_inode true (Z.lor (Z.land mode S_IALLUGO) S_IFREG) data fops
  = Some (mk_inode (Z.lor (Z.land mode S_IALLUGO) S_IFREG) 1 0 0 no_ops
            debugfs_file_operations (from_option caller_ops no_ops fops) data).
Proof.
  unfold debugfs_get_inode, new_inode. simpl.
  assert (Z.land (Z.lor (Z.land mode S_IALLUGO) S_IFREG) S_IFMT = S_IFREG) as ->.
  { rewrite Z.land_lor_distr_l, <- Z.land_assoc.
    change (Z.land S_IALLUGO S_IFMT) with 0%Z. by rewrite Z.land_0_r. }
  done.
Qed.

(** X1: the dentry that a creation function returns is new, carries the
    requested name under the directory in use (the root of the mount for a
    NULL parent), has no children, and its inode is what the function asked
    [debugfs_get_inode] for: [debugfs_create_file] makes a regular file with
    the permission bits of [mode], [debugfs_file_operations] in front of the
    caller's operations and the caller's data; [debugfs_create_dir] a
    directory of mode 040755 with two links; [debugfs_create_symlink] a link
    of mode 0120777 whose private data is the copied target. *)
Theorem creation_result_attributes (e : env) (c : creation)
    (parent : dentry_ptr) (st : state) (d : nat) (st' : state) :
  run_creation e c parent st = Some (PTR d, st') →
  ∃ p i,
    resolve_parent parent (snd (simple_pin_fs (attach e) st)) = Some p
    ∧ dcache st !! d = None
    ∧ dcache st' !! d
      = Some (mk_dentry (creation_name c) (Some p) (Some i) false false [])
    ∧ match c with
      | create_file _ mode data fops =>
          i_mode i = Z.lor (Z.land mode S_IALLUGO) S_IFREG
          ∧ i_fop i = debugfs_file_operations
          ∧ pfops i = from_option caller_ops no_ops fops
          ∧ i_private i = data
      | create_dir _ =>
          i_mode i = Z.lor S_IFDIR DEBUGFS_DEFAULT_MODE
          ∧ i_nlink i = 2%Z
          ∧ i_op i = simple_dir_inode_operations
          ∧ i_fop i = debugfs_dir_operations
      | create_symlink _ target =>
          i_mode i = Z.lor S_IFLNK S_IRWXUGO
          ∧ i_op i = debugfs_link_operations
          ∧ i_private i = link_target target
      end.
Proof.
  intros Hrun.
  assert (∃ mode data fops,
            __create_file e (creation_name c) mode parent data fops st
            = Some (PTR d, st')
            ∧ match c with
              | create_file _ m dt fo =>
                  mode = m ∧ data = dt ∧ fops = fo
                  ∧ (Z.land m S_IFMT = S_IFREG ∨ Z.land m S_IFMT = 0%Z)
              | create_dir _ =>
                  mode = Z.lor (Z.lor (Z.lor S_IFDIR S_IRWXU) S_IRUGO) S_IXUGO
                  ∧ data = opaque_data 0 ∧ fops = None
              | create_symlink _ target =>
                  mode = Z.lor S_IFLNK S_IRWXUGO ∧ data = link_target target
                  ∧ fops = None
              end) as (mode & data & fops & Hcf & Hc).
  { destruct c as [name m dt fo | name | name target]; simpl in Hrun.
    - unfold debugfs_create_file in Hrun.
      destruct ((Z.land m S_IFMT =? S_IFREG) || (Z.land m S_IFMT =? 0))%Z
        eqn:Hm; [|done].
      exists m, dt, fo. split; [done|]. repeat split.
      apply orb_true_iff in Hm as [Hm|Hm]; apply Z.eqb_eq in Hm; auto.
    - unfold debugfs_create_dir in Hrun. eauto 10.
    - unfold debugfs_create_symlink in Hrun.
      destruct (kstrdup_ok e); [|done]. eauto 10. }
  apply create_file_created in Hcf
    as (pinned & p & px & i & Hpin & Hres & Hp & _ & Hg & -> & ->).
  exists p, i. rewrite Hpin. simpl. split; [done|].
  split.
  { rewrite <- (pin_eq_dcache _ _ _ _ Hpin). apply fresh_not_in. }
  split; [by eapply created_state_self|].
  destruct c as [name m dt fo | name | name target].
  - destruct Hc as (-> & -> & -> & Hm).
    assert (node_mode m = Z.lor (Z.land m S_IALLUGO) S_IFREG
            ∧ node_data m dt = dt ∧ node_fops m fo = fo) as (Hnm & Hnd & Hnf).
    { unfold node_mode, node_data, node_fops.
      destruct Hm as [-> | ->]; done. }
    rewrite Hnm, Hnd, Hnf, get_inode_regular in Hg. by injection Hg as <-.
  - destruct Hc as (-> & -> & ->). vm_compute in Hg. by injection Hg as <-.
  - destruct Hc as (-> & -> & ->). vm_compute in Hg. by injection Hg as <-.
Qed.

Lemma creation_result_attributes_witness :
  ∃ p i,
    resolve_parent NULL (snd (simple_pin_fs (attach ok_env) init_state)) = Some p
    ∧ dcache init_state !! 1 = None
    ∧ dcache one_file_state !! 1
      = Some (mk_dentry "f" (Some p) (Some i) false false [])
    ∧ i_mode i = Z.lor (Z.land 0 S_IALLUGO) S_IFREG
    ∧ i_fop i = debugfs_file_operations
    ∧ pfops i = from_option caller_ops no_ops None
    ∧ i_private i = opaque_data 0.
Proof.
  exact (creation_result_attributes ok_env
           (create_file "f" 0 (opaque_data 0) None) NULL init_state 1
           one_file_state ltac:(vm_compute; reflexivity)).
Defined.

(** ** Creation followed by removal *)

Lemma unlinked_linked c b x : c ∉ d_subdirs x → unlinked c b (linked c b x) = x.
Proof.
  intros Hc. destruct x as [nm par ino uh mt l]. simpl in Hc.
  assert (Hl : filter (λ y, y ≠ c) (l ++ [c]) = l).
  { rewrite filter_app, (filter_ne_notin c l Hc).
    by rewrite filter_cons_False, filter_nil, app_nil_r by (by intros ?). }
  destruct b, ino as [[m n u g o f pf pr]|];
    unfold unlinked, linked, detach, set_subdirs, set_inode, drop_nlink,
      inc_nlink, set_nlink; simpl; rewrite Hl; try done.
  do 3 f_equal. lia.
Qed.

Lemma pin_mount_kept att st pinned :
  simple_pin_fs att st = (0%Z, pinned) →
  debugfs_mount_count st ≠ 0%Z →
  debugfs_mount pinned = debugfs_mount st.
Proof.
  unfold simple_pin_fs. intros Hpin Hc.
  apply Z.eqb_neq in Hc. rewrite Hc in Hpin. by injection Hpin as <-.
Qed.

(** X2: removing a node right after its creation undoes the creation.
    [debugfs_remove] on the dentry a creation function has just returned takes
    effect whatever the node is; behind it every dentry that existed before
    the creation is the very record it was (the parent has its old children
    and its old link count), the new dentry is left behind negative, the pin
    counter is what it was, and the mount is released exactly when the
    counter was 0 before. *)
Theorem create_then_remove_restores (e : env) (c : creation)
    (parent : dentry_ptr) (st : state) (d : nat) (st1 : state) :
  tree_ok st →
  run_creation e c parent st = Some (PTR d, st1) →
  ∃ st2,
    debugfs_remove (PTR d) st1 = Some st2
    ∧ dcache st !! d = None
    ∧ positive_at st1 d = true
    ∧ positive_at st2 d = false
    ∧ (∀ y, y ≠ d → dcache st2 !! y = dcache st !! y)
    ∧ debugfs_mount_count st2 = debugfs_mount_count st
    ∧ debugfs_mount st2
      = if (debugfs_mount_count st =? 0)%Z then None else debugfs_mount st.
Proof.
  intros Hok Hrun.
  assert (∃ mode data fops,
            __create_file e (creation_name c) mode parent data fops st
            = Some (PTR d, st1)) as (mode & data & fops & Hcf).
  { destruct c as [name m dt fo | name | name target]; simpl in Hrun.
    - unfold debugfs_create_file in Hrun. case_match; [eauto|done].
    - unfold debugfs_create_dir in Hrun. eauto.
    - unfold debugfs_create_symlink in Hrun. case_match; [eauto|done]. }
  apply create_file_created in Hcf
    as (pinned & p & px & i & Hpin & _ & Hp & Hip & _ & -> & ->).
  pose proof (pin_eq_dcache _ _ _ _ Hpin) as Hdc.
  set (name := creation_name c) in *.
  set (f := fresh (dom (dcache pinned))) in *.
  set (b := S_ISDIR (i_mode i)).
  set (st1 := created_state f p i (with_negative name p pinned)).
  assert (Hfp : f ≠ p) by (by eapply not_eq_sym, fresh_ne_existing).
  assert (Hf : dcache st1 !! f
               = Some (mk_dentry name (Some p) (Some i) false false []))
    by (by eapply created_state_self).
  assert (Hp1 : dcache st1 !! p = Some (linked f b px)).
  { unfold st1, f. rewrite (created_state_lookup name p px i pinned p Hp).
    rewrite decide_False by (by apply not_eq_sym). by rewrite decide_True. }
  assert (Hi1 : is_Some (d_inode (linked f b px))).
  { rewrite linked_inode. destruct Hip as [j ->]. destruct b; simpl; eauto. }
  assert (Hrm : __debugfs_remove f p st1
                = Some (0%Z, removed_state f p b st1)).
  { apply (debugfs_remove_positive f p _ i st1 Hf); [done|done| |].
    - unfold inode_of. rewrite Hp1. simpl. by destruct Hi1 as [j ->]; eauto.
    - intros _. unfold simple_empty. by rewrite Hf. }
  exists (simple_release_fs (removed_state f p b st1)).
  split.
  { unfold debugfs_remove. rewrite Hf. simpl. rewrite Hp1. simpl.
    destruct Hi1 as [j ->]. by rewrite Hrm. }
  split; [rewrite <- Hdc; apply fresh_not_in|].
  split; [unfold positive_at; by rewrite Hf|].
  split.
  { eapply eq_trans; [apply positive_at_dcache, release_dcache|].
    by apply positive_at_removed. }
  split.
  { intros y Hy. rewrite release_dcache.
    rewrite (removed_state_lookup f p b st1 y Hfp), decide_False by done.
    destruct (decide (y = p)) as [->|Hyp].
    - rewrite Hp1. simpl. rewrite <- Hdc, Hp. f_equal.
      apply unlinked_linked. intros Hin.
      destruct (ok_listed st Hok p px f) as (v & Hv & _); [by rewrite <- Hdc|done|].
      rewrite <- Hdc in Hv. unfold f in Hv. by rewrite fresh_not_in in Hv.
    - unfold st1, f. rewrite created_state_other by done. by rewrite Hdc. }
  assert (Hcount : debugfs_mount_count (removed_state f p b st1)
                   = (debugfs_mount_count st + 1)%Z).
  { destruct (removed_state_count f p b st1) as [-> _]. unfold st1.
    destruct (created_state_count f p i (with_negative name p pinned)) as [-> _].
    destruct (with_negative_count name p pinned) as [-> _].
    pose proof (pin_success_count (attach e) st) as Hpc.
    rewrite Hpin in Hpc. by apply Hpc. }
  split; [rewrite release_count; lia|].
  unfold simple_release_fs. rewrite Hcount.
  replace (debugfs_mount_count st + 1 - 1)%Z with (debugfs_mount_count st) by lia.
  destruct (debugfs_mount_count st =? 0)%Z eqn:Hz; [done|].
  change (debugfs_mount (removed_state f p b st1) = debugfs_mount st).
  destruct (removed_state_count f p b st1) as [_ ->]. unfold st1.
  destruct (created_state_count f p i (with_negative name p pinned)) as [_ ->].
  destruct (with_negative_count name p pinned) as [_ ->].
  apply (pin_mount_kept _ _ _ Hpin). by apply Z.eqb_neq.
Qed.

Lemma create_then_remove_restores_witness :
  ∃ st2,
    debugfs_remove (PTR 1) one_file_state = Some st2
    ∧ dcache init_state !! 1 = None
    ∧ positive_at one_file_state 1 = true
    ∧ positive_at st2 1 = false
    ∧ (∀ y, y ≠ 1 → dcache st2 !! y = dcache init_state !! y)
    ∧ debugfs_mount_count st2 = debugfs_mount_count init_state
    ∧ debugfs_mount st2
      = if (debugfs_mount_count init_state =? 0)%Z then None
        else debugfs_mount init_state.
Proof.
  exact (create_then_remove_restores ok_env
           (create_file "f" 0 (opaque_data 0) None) NULL init_state 1
           one_file_state (inv_ok _ (init_state_inv 0))
           ltac:(vm_compute; reflexivity)).
Defined.

(** ** A directory in use is not removed *)

(** X3: [debugfs_remove] on a positive directory that still has a positive
    child does nothing at all: [simple_rmdir] answers [-ENOTEMPTY],
    [__debugfs_remove] hands that on, and the state, the pin counter included,
    is what it was.  The function returns nothing, so the caller is not
    told. *)
Theorem remove_refuses_directory_in_use (d p c : nat) (x px : dentry)
    (i : inode) (st : state) :
  dcache st !! d = Some x →
  d_parent x = Some p →
  dcache st !! p = Some px →
  is_Some (d_inode px) →
  debugfs_positive x = true →
  d_inode x = Some i →
  S_ISDIR (i_mode i) = true →
  c ∈ d_subdirs x →
  positive_at st c = true →
  __debugfs_remove d p st = Some ((- ENOTEMPTY)%Z, st)
  ∧ debugfs_remove (PTR d) st = Some st.
Proof.
  intros Hd Hpar Hp [ip Hip] Hpos Hi Hdir Hc Hcpos.
  assert (Hrm : __debugfs_remove d p st = Some ((- ENOTEMPTY)%Z, st)).
  { apply (debugfs_remove_not_empty d p x i st Hd Hpos Hi Hdir).
    unfold simple_empty. rewrite Hd. simpl. f_equal.
    apply not_true_is_false. intros Hall.
    rewrite forallb_forall in Hall.
    specialize (Hall c (proj1 (list_elem_of_In _ _) Hc)).
    by rewrite Hcpos in Hall. }
  split; [done|].
  unfold debugfs_remove. rewrite Hd. simpl. rewrite Hpar, Hp. simpl.
  rewrite Hip, Hrm. done.
Qed.

Lemma remove_refuses_directory_in_use_witness :
  __debugfs_remove 1 0 scenario_state = Some ((- ENOTEMPTY)%Z, scenario_state)
  ∧ debugfs_remove (PTR 1) scenario_state = Some scenario_state.
Proof.
  assert (∃ x px i,
            dcache scenario_state !! 1 = Some x ∧ d_parent x = Some 0
            ∧ dcache scenario_state !! 0 = Some px ∧ is_Some (d_inode px)
            ∧ debugfs_positive x = true ∧ d_inode x = Some i
            ∧ S_ISDIR (i_mode i) = true ∧ 2 ∈ d_subdirs x)
    as (x & px & i & H1 & H2 & H3 & H4 & H5 & H6 & H7 & H8).
  { eexists _, _, _. split; [vm_compute; reflexivity|].
    split; [reflexivity|]. split; [vm_compute; reflexivity|].
    split; [simpl; eauto|]. split; [reflexivity|]. split; [reflexivity|].
    split; [reflexivity|]. simpl. set_solver. }
  exact (remove_refuses_directory_in_use 1 0 2 x px i scenario_state
           H1 H2 H3 H4 H5 H6 H7 H8 ltac:(vm_compute; reflexivity)).
Defined.

(** ** Recursive removal of a node without children *)

(** The walk on a dentry without children: down, an empty loop, and the
    removal of the dentry itself. *)
Lemma rr_run_leaf fuel d st x i p px ip :
  dcache st !! d = Some x → d_subdirs x = [] → d_inode x = Some i →
  d_parent x = Some p → dcache st !! p = Some px → d_inode px = Some ip →
  rr_run (S (S (S fuel))) d (at_down d, st, []) = rr_remove d p st [].
Proof.
  intros Hd Hleaf Hi Hpar Hp Hip.
  rewrite rr_run_unfold.
  assert (rr_step d (at_down d, st, [])
          = Some (at_loop d None None, st, [])) as ->.
  { simpl. unfold inode_of. rewrite Hd. simpl. by rewrite Hi, Hleaf. }
  cbn [mbind option_bind]. rewrite rr_run_unfold.
  change (rr_step d (at_loop d None None, st, []))
    with (Some (at_after d, st, [] : list nat)).
  cbn [mbind option_bind]. rewrite rr_run_unfold.
  assert (rr_step d (at_after d, st, [])
          = '(st1, log) ← rr_remove d p st []; Some (at_return, st1, log))
    as ->.
  { simpl. rewrite Hd. simpl. rewrite Hpar. simpl.
    unfold inode_of. rewrite Hp. simpl. rewrite Hip. simpl.
    by rewrite bool_decide_eq_false_2 by (by intros ?). }
  destruct (rr_remove d p st []) as [[s lg]|]; [|done].
  cbn [mbind option_bind]. apply rr_run_return.
Qed.

(** X4: on a dentry that has an inode and no children,
    [debugfs_remove_recursive] comes to the same as [debugfs_remove]: the
    walk finds nothing below the node, ascends at once and removes the node
    itself; three steps of the walk are enough, and the two functions return
    the same state (or fault together). *)
Theorem remove_recursive_of_leaf (fuel : nat) (d : nat) (x : dentry)
    (st : state) :
  dcache st !! d = Some x →
  d_subdirs x = [] →
  is_Some (d_inode x) →
  3 ≤ fuel →
  fst <$> debugfs_remove_recursive fuel (PTR d) st = debugfs_remove (PTR d) st.
Proof.
  intros Hd Hleaf [i Hi] Hfuel.
  destruct fuel as [|[|[|fuel]]]; [lia..|].
  unfold debugfs_remove_recursive, debugfs_remove. rewrite Hd.
  cbn [mbind option_bind].
  destruct (d_parent x) as [p|] eqn:Hpar; [|done].
  destruct (dcache st !! p) as [px|] eqn:Hp; cbn [mbind option_bind]; [|done].
  destruct (d_inode px) as [ip|] eqn:Hip; [|done].
  rewrite (rr_run_leaf fuel d st x i p px ip Hd Hleaf Hi Hpar Hp Hip).
  unfold rr_remove.
  by destruct (__debugfs_remove d p st) as [[ret s]|].
Qed.

Lemma remove_recursive_of_leaf_witness :
  fst <$> debugfs_remove_recursive 3 (PTR 1) one_file_state
  = debugfs_remove (PTR 1) one_file_state.
Proof.
  assert (∃ x, dcache one_file_state !! 1 = Some x ∧ d_subdirs x = []
               ∧ is_Some (d_inode x)) as (x & H1 & H2 & H3).
  { eexists. split; [vm_compute; reflexivity|]. split; [reflexivity|].
    simpl. eauto. }
  exact (remove_recursive_of_leaf 3 1 x one_file_state H1 H2 H3 (le_n 3)).
Defined.

(** ** What a rename leaves alone *)




(** * Mount options *)

Definition EINVAL : Z := 22.

(** [enum { Opt_uid, Opt_gid, Opt_mode, Opt_passwd, Opt_err }] *)
Inductive token :=
  | Opt_uid
  | Opt_gid
  | Opt_mode
  | Opt_passwd
  | Opt_err.

(** What [debugfs_parse_options] asks of the option parser (lib/parser.c) and
    of the user namespace, neither among the sources: the answers are
    arguments, and the properties below hold for every such answer. *)
Record parser := mk_parser {
  (* match_token(p, tokens, args): the token, and the text of args[0] *)
  match_token : string → token * string;
  (* match_int(&args[0], &option): the int stored, None for a nonzero return *)
  match_int : string → option Z;
  (* match_octal(&args[0], &option) *)
  match_octal : string → option Z;
  (* make_kuid(current_user_ns(), option).val when uid_valid, else None *)
  make_kuid : Z → option Z;
  (* make_kgid(current_user_ns(), option).val when gid_valid, else None *)
  make_kgid : Z → option Z;
  (* the passwd buffer behind memset and match_strlcpy of args[0] *)
  match_strlcpy : string → list Z
}.

(** Modelled from the spec: [strsep(&data, ",")] (lib/string.c) on "a string
    of comma-separated key=value pairs": the text up to the first comma, and
    what follows that comma, [None] when there is no comma left. *)
Fixpoint strsep (s : string) : string * option string :=
  match s with
  | EmptyString => (EmptyString, None)
  | String c s' =>
      if Ascii.eqb c ","%char then (EmptyString, Some s')
      else let '(p, rest) := strsep s' in (String c p, rest)
  end.

(** The strings that the calls of [strsep] in
    [while ((p = strsep(&data, ",")) != NULL)] return, in order. *)
Fixpoint pieces (s : string) : list string :=
  match s with
  | EmptyString => [EmptyString]
  | String c s' =>
      if Ascii.eqb c ","%char then EmptyString :: pieces s'
      else match pieces s' with
           | p :: ps => String c p :: ps
           | [] => [String c EmptyString]
           end
  end.

Definition set_opt_uid (v : Z) (o : debugfs_mount_opts) : debugfs_mount_opts :=
  mk_opts v (opt_gid o) (opt_mode o) (opt_passwd o) (opt_privilege o).

Definition set_opt_gid (v : Z) (o : debugfs_mount_opts) : debugfs_mount_opts :=
  mk_opts (opt_uid o) v (opt_mode o) (opt_passwd o) (opt_privilege o).

Definition set_opt_mode (v : Z) (o : debugfs_mount_opts) : debugfs_mount_opts :=
  mk_opts (opt_uid o) (opt_gid o) v (opt_passwd o) (opt_privilege o).

Definition set_opt_passwd (v : list Z) (o : debugfs_mount_opts)
    : debugfs_mount_opts :=
  mk_opts (opt_uid o) (opt_gid o) (opt_mode o) v (opt_privilege o).

(** The body of the loop of [debugfs_parse_options] on one piece [p]: the
    value returned from inside the [switch] ([-EINVAL]), or 0 to go on. *)
Definition parse_option (lib : parser) (p : string) (opts : debugfs_mount_opts)
    : Z * debugfs_mount_opts :=
  if bool_decide (p = EmptyString) then (0%Z, opts)   (* if (!*p) continue; *)
  else
    let '(token, arg) := match_token lib p in
    match token with
    | Opt_uid =>
        match match_int lib arg with
        | None => ((- EINVAL)%Z, opts)
        | Some option =>
            match make_kuid lib option with
            | None => ((- EINVAL)%Z, opts)
            | Some uid => (0%Z, set_opt_uid uid opts)
            end
        end
    | Opt_gid =>
        match match_int lib arg with
        | None => ((- EINVAL)%Z, opts)
        | Some option =>
            match make_kgid lib option with
            | None => ((- EINVAL)%Z, opts)
            | Some gid => (0%Z, set_opt_gid gid opts)
            end
        end
    | Opt_mode =>
        match match_octal lib arg with
        | None => ((- EINVAL)%Z, opts)
        | Some option => (0%Z, set_opt_mode (Z.land option S_IALLUGO) opts)
        end
    | Opt_passwd => (0%Z, set_opt_passwd (match_strlcpy lib arg) opts)
    | Opt_err => (0%Z, opts)
    end.

(** The loop of [debugfs_parse_options] over the pieces still ahead. *)
Fixpoint parse_pieces (lib : parser) (ps : list string)
    (opts : debugfs_mount_opts) : Z * debugfs_mount_opts :=
  match ps with
  | [] => (0%Z, opts)
  | p :: ps =>
      let '(err, opts) := parse_option lib p opts in
      if (err =? 0)%Z then parse_pieces lib ps opts else (err, opts)
  end.

(** [static int debugfs_parse_options(char *data, struct debugfs_mount_opts
    *opts)]; [data] is NULL or a string. *)
Definition debugfs_parse_options (lib : parser) (data : option string)
    (opts : debugfs_mount_opts) : Z * debugfs_mount_opts :=
  let opts := set_opt_mode DEBUGFS_DEFAULT_MODE opts in
  parse_pieces lib (from_option pieces [] data) opts.

(** [static int debugfs_remount(struct super_block *sb, int *flags, char
    *data)], on the mount options in [sb->s_fs_info] and the inode of
    [sb->s_root]. *)
Definition debugfs_remount (lib : parser) (cfg : digest_config)
    (data : option string) (fsi : debugfs_mount_opts) (root : inode)
    : Z * debugfs_mount_opts * inode :=
  let '(err, fsi) := debugfs_parse_options lib data fsi in
  if negb (err =? 0)%Z then (err, fsi, root)
  else
    let '(fsi, root) := debugfs_apply_options cfg fsi root in
    (err, fsi, root).

(** [static int debugfs_show_options(struct seq_file *m, struct dentry
    *root)]: the calls of [seq_printf], each with its format and its
    argument; [from_kuid_munged] and [from_kgid_munged] are those of
    [init_user_ns]. *)
Definition debugfs_show_options (from_kuid_munged from_kgid_munged : Z → Z)
    (opts : debugfs_mount_opts) : list (string * Z) :=
  (if negb (opt_uid opts =? 0)%Z
   then [(",uid=%u", from_kuid_munged (opt_uid opts))] else [])
  ++ (if negb (opt_gid opts =? 0)%Z
      then [(",gid=%u", from_kgid_munged (opt_gid opts))] else [])
  ++ (if negb (opt_mode opts =? DEBUGFS_DEFAULT_MODE)%Z
      then [(",mode=%o", opt_mode opts)] else [])
  ++ (if opt_privilege opts then [(",privilege=%d", 1%Z)] else []).

(** [static int debug_fill_super(struct super_block *sb, void *data, int
    silent)].  [kzalloc] hands out zeroed options (with a [passwd] buffer of
    [passwd_size] bytes) or NULL; [simple_fill_super] (fs/libfs.c) fails with
    an error (nonzero) or installs a root inode.  The result is the value returned,
    [sb->s_fs_info] and the inode of [sb->s_root]. *)
Definition debug_fill_super (lib : parser) (cfg : digest_config)
    (kzalloc_ok : bool) (passwd_size : nat) (simple_fill_super : Z + inode)
    (data : option string) : Z * option debugfs_mount_opts * option inode :=
  if kzalloc_ok then
    let fsi := mk_opts 0 0 0 (replicate passwd_size 0%Z) false in
    let '(err, fsi) := debugfs_parse_options lib data fsi in
    if negb (err =? 0)%Z then (err, None, None)
    else
      match simple_fill_super with
      | inl err => (err, None, None)
      | inr root =>
          let root := mk_inode (i_mode root) (i_nlink root) (i_uid root)
                        (i_gid root) (i_op root) debugfs_dir_operations
                        (pfops root) (i_private root) in
          let '(fsi, root) := debugfs_apply_options cfg fsi root in
          (0%Z, Some fsi, Some root)
      end
  else ((- ENOMEM)%Z, None, None).

(** A parser for the examples, modelled from the spec: "key=value pairs
    recognized as uid: numeric, gid: numeric, mode: octal, passwd: string;
    unrecognized keys are silently ignored". *)
Fixpoint number (base : Z) (acc : option Z) (s : string) : option Z :=
  match s with
  | EmptyString => acc
  | String c s' =>
      let v := (Z.of_nat (nat_of_ascii c) - 48)%Z in
      if (0 <=? v)%Z && (v <? base)%Z
      then number base (Some (from_option id 0 acc * base + v)%Z) s'
      else None
  end.

Fixpoint strip (key s : string) : option string :=
  match key, s with
  | EmptyString, _ => Some s
  | String a key', String b s' =>
      if Ascii.eqb a b then strip key' s' else None
  | String _ _, EmptyString => None
  end.

Definition example_parser : parser :=
  mk_parser
    (λ p,
       match strip "uid=" p, strip "gid=" p, strip "mode=" p, strip "passwd=" p with
       | Some a, _, _, _ => (Opt_uid, a)
       | _, Some a, _, _ => (Opt_gid, a)
       | _, _, Some a, _ => (Opt_mode, a)
       | _, _, _, Some a => (Opt_passwd, a)
       | _, _, _, _ => (Opt_err, EmptyString)
       end)
    (number 10 None)
    (number 8 None)
    (λ v, if (v =? 4294967295)%Z then None else Some v)
    (λ v, if (v =? 4294967295)%Z then None else Some v)
    (λ a, map (λ c, Z.of_nat (nat_of_ascii c)) (String.list_ascii_of_string a)).

(** ** The pieces of an option string *)

Lemma pieces_strsep s :
  pieces s = let '(p, rest) := strsep s in p :: from_option pieces [] rest.
Proof.
  induction s as [|c s IH]; [done|]. simpl.
  destruct (Ascii.eqb c ","); [done|].
  rewrite IH. by destruct (strsep s) as [p rest].
Qed.

Lemma pieces_nonempty s : pieces s ≠ [].
Proof.
  destruct s as [|c s]; simpl; [done|].
  destruct (Ascii.eqb c ","); [done|]. by destruct (pieces s).
Qed.

Lemma pieces_app_comma a b :
  pieces (a +:+ "," +:+ b) = pieces a ++ pieces b.
Proof.
  induction a as [|c a IH]; [done|]. simpl.
  destruct (Ascii.eqb c ","); simpl; [by rewrite IH|].
  rewrite IH. pose proof (pieces_nonempty a) as Hne.
  by destruct (pieces a) as [|p ps].
Qed.

Fixpoint comma_free (s : string) : bool :=
  match s with
  | EmptyString => true
  | String c s' => negb (Ascii.eqb c ","%char) && comma_free s'
  end.

Lemma pieces_comma_free p : comma_free p = true → pieces p = [p].
Proof.
  induction p as [|c p IH]; [done|]. simpl.
  destruct (Ascii.eqb c ","); simpl; [done|]. intros Hp. by rewrite IH.
Qed.

Lemma parse_pieces_app lib ps1 ps2 opts :
  parse_pieces lib (ps1 ++ ps2) opts
  = let '(err, o) := parse_pieces lib ps1 opts in
    if (err =? 0)%Z then parse_pieces lib ps2 o else (err, o).
Proof.
  revert opts. induction ps1 as [|p ps1 IH]; intros opts; [done|]. simpl.
  destruct (parse_option lib p opts) as [err o].
  destruct (err =? 0)%Z eqn:He; [apply IH|]. by rewrite He.
Qed.

(** X7: the options of a string are handled from left to right, each on the
    record the ones before it have left: parsing "a,b" is parsing "a" and,
    when that returns 0, going on with the pieces of "b" on the options that
    "a" produced; when "a" fails, its error is returned and "b" is not looked
    at. *)
Theorem parse_options_in_order (lib : parser) (a b : string)
    (opts : debugfs_mount_opts) :
  debugfs_parse_options lib (Some (a +:+ "," +:+ b)) opts
  = let '(err, o) := debugfs_parse_options lib (Some a) opts in
    if (err =? 0)%Z then parse_pieces lib (pieces b) o else (err, o).
Proof.
  unfold debugfs_parse_options. simpl.
  by rewrite pieces_app_comma, parse_pieces_app.
Qed.

(** X8: an empty piece and a piece that [match_token] does not recognise
    ([Opt_err]) are skipped without an error: the string with such a piece
    between two commas parses exactly as the string without it. *)
Theorem parse_skips_unknown_options (lib : parser) (a p b : string)
    (opts : debugfs_mount_opts) :
  comma_free p = true →
  p = EmptyString ∨ fst (match_token lib p) = Opt_err →
  debugfs_parse_options lib (Some (a +:+ "," +:+ p +:+ "," +:+ b)) opts
  = debugfs_parse_options lib (Some (a +:+ "," +:+ b)) opts.
Proof.
  intros Hfree Hp. unfold debugfs_parse_options. simpl.
  rewrite !pieces_app_comma, (pieces_comma_free p Hfree).
  rewrite !parse_pieces_app.
  destruct (parse_pieces lib (pieces a) _) as [err o].
  destruct (err =? 0)%Z; [|done].
  assert (parse_option lib p o = (0%Z, o)) as Hskip.
  { unfold parse_option. destruct Hp as [-> | Hp]; [done|].
    case_bool_decide; [done|].
    destruct (match_token lib p) as [tk arg]. simpl in Hp. by subst tk. }
  simpl. by rewrite Hskip.
Qed.

Lemma parse_skips_unknown_options_witness :
  debugfs_parse_options example_parser (Some "uid=7,quiet,mode=700")
    (mk_opts 0 0 0 [] false)
  = debugfs_parse_options example_parser (Some "uid=7,mode=700")
      (mk_opts 0 0 0 [] false).
Proof.
  exact (parse_skips_unknown_options example_parser "uid=7" "quiet" "mode=700"
           (mk_opts 0 0 0 [] false) eq_refl (or_intror eq_refl)).
Defined.

(** ** What a parse can return *)

(** The string [data] names an option of kind [tk]. *)
Definition names (lib : parser) (data : option string) (tk : token) : Prop :=
  ∃ p, p ∈ from_option pieces [] data ∧ p ≠ EmptyString
       ∧ fst (match_token lib p) = tk.

Lemma land_S_IALLUGO_range v :
  (0 ≤ Z.land v S_IALLUGO ≤ 4095)%Z.
Proof.
  change S_IALLUGO with (Z.ones 12). rewrite Z.land_ones by lia.
  pose proof (Z.mod_pos_bound v (2 ^ 12) ltac:(lia)). lia.
Qed.

Lemma parse_option_shape lib p o :
  let r := parse_option lib p o in
  (fst r = 0%Z ∨ fst r = (- EINVAL)%Z)
  ∧ ((0 ≤ opt_mode o ≤ 4095)%Z → (0 ≤ opt_mode (snd r) ≤ 4095)%Z)
  ∧ opt_privilege (snd r) = opt_privilege o
  ∧ (¬ (p ≠ EmptyString ∧ fst (match_token lib p) = Opt_mode) →
     opt_mode (snd r) = opt_mode o)
  ∧ (¬ (p ≠ EmptyString ∧ fst (match_token lib p) = Opt_uid) →
     opt_uid (snd r) = opt_uid o)
  ∧ (¬ (p ≠ EmptyString ∧ fst (match_token lib p) = Opt_gid) →
     opt_gid (snd r) = opt_gid o)
  ∧ (¬ (p ≠ EmptyString ∧ fst (match_token lib p) = Opt_passwd) →
     opt_passwd (snd r) = opt_passwd o).
Proof.
  unfold parse_option. case_bool_decide as Hp; simpl.
  { repeat split; auto; lia. }
  destruct (match_token lib p) as [tk arg]. simpl.
  destruct tk; simpl.
  - destruct (match_int lib arg) as [v|]; simpl;
      [destruct (make_kuid lib v) as [u|]; simpl|];
      repeat split; auto; try lia;
      intros Hn; exfalso; apply Hn; by split.
  - destruct (match_int lib arg) as [v|]; simpl;
      [destruct (make_kgid lib v) as [u|]; simpl|];
      repeat split; auto; try lia;
      intros Hn; exfalso; apply Hn; by split.
  - destruct (match_octal lib arg) as [v|]; simpl;
      [pose proof (land_S_IALLUGO_range v)|];
      repeat split; auto; try lia;
      intros Hn; exfalso; apply Hn; by split.
  - repeat split; auto; try lia. intros Hn; exfalso; apply Hn; by split.
  - repeat split; auto; lia.
Qed.

Lemma parse_pieces_shape lib ps o :
  let r := parse_pieces lib ps o in
  (fst r = 0%Z ∨ fst r = (- EINVAL)%Z)
  ∧ ((0 ≤ opt_mode o ≤ 4095)%Z → (0 ≤ opt_mode (snd r) ≤ 4095)%Z)
  ∧ opt_privilege (snd r) = opt_privilege o
  ∧ ∀ tk, (¬ ∃ p, p ∈ ps ∧ p ≠ EmptyString ∧ fst (match_token lib p) = tk) →
      match tk with
      | Opt_mode => opt_mode (snd r) = opt_mode o
      | Opt_uid => opt_uid (snd r) = opt_uid o
      | Opt_gid => opt_gid (snd r) = opt_gid o
      | Opt_passwd => opt_passwd (snd r) = opt_passwd o
      | Opt_err => True
      end.
Proof.
  revert o. induction ps as [|p ps IH]; intros o; simpl.
  { repeat split; auto; try lia. intros tk _. by destruct tk. }
  pose proof (parse_option_shape lib p o) as Hp. simpl in Hp.
  destruct (parse_option lib p o) as [err o1]. simpl in Hp.
  destruct Hp as (He & Hm & Hpr & Hmode & Huid & Hgid & Hpw).
  assert (Hhere : ∀ tk,
            (¬ ∃ q, q ∈ p :: ps ∧ q ≠ EmptyString
                    ∧ fst (match_token lib q) = tk) →
            ¬ (p ≠ EmptyString ∧ fst (match_token lib p) = tk)).
  { intros tk Hn [H1 H2]. apply Hn. exists p. set_solver. }
  assert (Hrest : ∀ tk,
            (¬ ∃ q, q ∈ p :: ps ∧ q ≠ EmptyString
                    ∧ fst (match_token lib q) = tk) →
            ¬ ∃ q, q ∈ ps ∧ q ≠ EmptyString ∧ fst (match_token lib q) = tk).
  { intros tk Hn (q & Hq & H1 & H2). apply Hn. exists q. set_solver. }
  destruct (err =? 0)%Z eqn:Herr; simpl.
  - specialize (IH o1). simpl in IH.
    destruct IH as (He' & Hm' & Hpr' & Habs).
    split; [done|]. split; [auto|]. split; [congruence|].
    intros tk Hn. specialize (Habs tk (Hrest tk Hn)).
    specialize (Hhere tk Hn).
    destruct tk; [rewrite Habs; auto..|done].
  - split; [done|]. split; [auto|]. split; [done|].
    intros tk Hn. specialize (Hhere tk Hn). destruct tk; auto.
Qed.

Lemma parse_options_facts lib data opts e o :
  debugfs_parse_options lib data opts = (e, o) →
  (e = 0%Z ∨ e = (- EINVAL)%Z)
  ∧ (0 ≤ opt_mode o ≤ 4095)%Z
  ∧ opt_privilege o = opt_privilege opts
  ∧ (¬ names lib data Opt_mode → opt_mode o = DEBUGFS_DEFAULT_MODE)
  ∧ (¬ names lib data Opt_uid → opt_uid o = opt_uid opts)
  ∧ (¬ names lib data Opt_gid → opt_gid o = opt_gid opts)
  ∧ (¬ names lib data Opt_passwd → opt_passwd o = opt_passwd opts).
Proof.
  unfold debugfs_parse_options, names. intros Hrun.
  pose proof (parse_pieces_shape lib (from_option pieces [] data)
                (set_opt_mode DEBUGFS_DEFAULT_MODE opts)) as H.
  cbv zeta in H. rewrite Hrun in H. simpl in H.
  destruct H as (He & Hm & Hpr & Habs).
  split; [done|]. split; [apply Hm; unfold DEBUGFS_DEFAULT_MODE; lia|].
  split; [done|]. repeat split; intros Hn.
  - apply (Habs Opt_mode Hn).
  - apply (Habs Opt_uid Hn).
  - apply (Habs Opt_gid Hn).
  - apply (Habs Opt_passwd Hn).
Qed.

(** X9: whatever the parser library answers, [debugfs_parse_options] returns
    0 or [-EINVAL]; the mode it leaves in the options is a set of permission
    bits (at most 07777), on success as on failure; it never touches the
    privilege flag; a kind of option that the string does not name keeps the
    value the options had, except the mode, which is put back to 0755: the
    mode of an earlier parse does not survive. *)
Theorem parse_options_result (lib : parser) (data : option string)
    (opts : debugfs_mount_opts) :
  let r := debugfs_parse_options lib data opts in
  (fst r = 0%Z ∨ fst r = (- EINVAL)%Z)
  ∧ (0 ≤ opt_mode (snd r) ≤ 4095)%Z
  ∧ opt_privilege (snd r) = opt_privilege opts
  ∧ (¬ names lib data Opt_mode → opt_mode (snd r) = DEBUGFS_DEFAULT_MODE)
  ∧ (¬ names lib data Opt_uid → opt_uid (snd r) = opt_uid opts)
  ∧ (¬ names lib data Opt_gid → opt_gid (snd r) = opt_gid opts)
  ∧ (¬ names lib data Opt_passwd → opt_passwd (snd r) = opt_passwd opts).
Proof.
  cbv zeta. apply (parse_options_facts lib data opts).
  by destruct (debugfs_parse_options lib data opts).
Qed.

Lemma parse_options_result_witness :
  let r := debugfs_parse_options example_parser (Some "uid=7")
             (mk_opts 1 2 448 [] false) in
  fst r = 0%Z ∧ opt_uid (snd r) = 7%Z ∧ opt_gid (snd r) = 2%Z
  ∧ opt_mode (snd r) = DEBUGFS_DEFAULT_MODE.
Proof.
  destruct (parse_options_result example_parser (Some "uid=7")
              (mk_opts 1 2 448 [] false))
    as (_ & _ & _ & Hmode & _ & Hgid & _).
  split; [reflexivity|]. split; [reflexivity|]. split.
  - apply Hgid. intros (p & Hp & _ & Htk).
    apply list_elem_of_singleton in Hp. subst p. discriminate Htk.
  - apply Hmode. intros (p & Hp & _ & Htk).
    apply list_elem_of_singleton in Hp. subst p. discriminate Htk.
Defined.

(** ** Applying the options to the root inode *)

Lemma testbit_S_IFMT n :
  (0 ≤ n)%Z → Z.testbit S_IFMT n = (12 <=? n)%Z && (n <? 16)%Z.
Proof.
  intros Hn. change S_IFMT with (Z.shiftl (Z.ones 4) 12).
  rewrite Z.shiftl_spec by done.
  destruct (12 <=? n)%Z eqn:H12; simpl.
  - apply Z.leb_le in H12. destruct (n <? 16)%Z eqn:H16.
    + apply Z.ltb_lt in H16. apply Z.ones_spec_low. lia.
    + apply Z.ltb_ge in H16. apply Z.ones_spec_high. lia.
  - apply Z.leb_gt in H12. apply Z.testbit_neg_r. lia.
Qed.

Lemma testbit_S_IALLUGO n :
  (0 ≤ n)%Z → Z.testbit S_IALLUGO n = (n <? 12)%Z.
Proof.
  intros Hn. change S_IALLUGO with (Z.ones 12).
  destruct (n <? 12)%Z eqn:H12.
  - apply Z.ltb_lt in H12. apply Z.ones_spec_low. lia.
  - apply Z.ltb_ge in H12. apply Z.ones_spec_high. lia.
Qed.

Lemma testbit_permission_bits m n :
  (0 ≤ m ≤ 4095)%Z → (12 ≤ n)%Z → Z.testbit m n = false.
Proof.
  intros Hm Hn. rewrite <- (Z.mod_small m (2 ^ 12)) by lia.
  apply Z.mod_pow2_bits_high. lia.
Qed.

Lemma testbit_umode m n :
  (0 ≤ m < 2 ^ 16)%Z → (16 ≤ n)%Z → Z.testbit m n = false.
Proof.
  intros Hm Hn. rewrite <- (Z.mod_small m (2 ^ 16)) by lia.
  apply Z.mod_pow2_bits_high. lia.
Qed.

(** The mode that [debugfs_apply_options] stores, bit by bit. *)
Lemma applied_mode_testbit old m n :
  (0 ≤ old < 2 ^ 16)%Z → (0 ≤ m ≤ 4095)%Z → (0 ≤ n)%Z →
  Z.testbit
    (Z.lor (Z.land old (Z.lnot S_IALLUGO) mod 2 ^ 16) m mod 2 ^ 16) n
  = if (n <? 12)%Z then Z.testbit m n else Z.testbit old n.
Proof.
  intros Hold Hm Hn.
  destruct (n <? 16)%Z eqn:H16.
  - apply Z.ltb_lt in H16.
    rewrite Z.mod_pow2_bits_low, Z.lor_spec by lia.
    rewrite Z.mod_pow2_bits_low, Z.land_spec, Z.lnot_spec by lia.
    rewrite testbit_S_IALLUGO by done.
    destruct (n <? 12)%Z eqn:H12; simpl.
    + by rewrite andb_false_r.
    + apply Z.ltb_ge in H12.
      by rewrite andb_true_r, (testbit_permission_bits m n), orb_false_r.
  - apply Z.ltb_ge in H16.
    rewrite Z.mod_pow2_bits_high by lia.
    replace (n <? 12)%Z with false by (symmetry; apply Z.ltb_ge; lia).
    symmetry. by apply testbit_umode.
Qed.

Lemma apply_options_facts cfg opts root o' r' :
  (0 ≤ i_mode root < 2 ^ 16)%Z →
  (0 ≤ opt_mode opts ≤ 4095)%Z →
  debugfs_apply_options cfg opts root = (o', r') →
  Z.land (i_mode r') S_IALLUGO = opt_mode opts
  ∧ Z.land (i_mode r') S_IFMT = Z.land (i_mode root) S_IFMT
  ∧ S_ISDIR (i_mode r') = S_ISDIR (i_mode root)
  ∧ (0 ≤ i_mode r' < 2 ^ 16)%Z
  ∧ i_uid r' = opt_uid opts
  ∧ i_gid r' = opt_gid opts
  ∧ i_nlink r' = i_nlink root
  ∧ i_op r' = i_op root ∧ i_fop r' = i_fop root
  ∧ i_private r' = i_private root
  ∧ opt_mode o' = opt_mode opts
  ∧ opt_uid o' = opt_uid opts ∧ opt_gid o' = opt_gid opts
  ∧ opt_passwd o' = opt_passwd opts
  ∧ opt_privilege o' = debugfs_check_passwd cfg (opt_passwd opts)
  ∧ debugfs_apply_options cfg o' r' = (o', r').
Proof.
  intros Hroot Hmode. unfold debugfs_apply_options. cbn [fst snd i_mode
    i_uid i_gid i_nlink i_op i_fop i_private opt_mode opt_uid opt_gid
    opt_passwd opt_privilege pfops].
  set (new := (Z.lor (Z.land (i_mode root) (Z.lnot S_IALLUGO) mod 2 ^ 16)
                 (opt_mode opts) mod 2 ^ 16)%Z).
  intros [= <- <-]. cbn [fst snd i_mode
    i_uid i_gid i_nlink i_op i_fop i_private opt_mode opt_uid opt_gid
    opt_passwd opt_privilege pfops].
  assert (Hbit : ∀ n, (0 ≤ n)%Z →
            Z.testbit new n
            = if (n <? 12)%Z then Z.testbit (opt_mode opts) n
              else Z.testbit (i_mode root) n)
    by (intros n Hn; by apply applied_mode_testbit).
  assert (Hperm : Z.land new S_IALLUGO = opt_mode opts).
  { apply Z.bits_inj'. intros n Hn.
    rewrite Z.land_spec, Hbit, testbit_S_IALLUGO by done.
    destruct (n <? 12)%Z eqn:H12; [by rewrite andb_true_r|].
    apply Z.ltb_ge in H12. rewrite andb_false_r. symmetry.
    by apply testbit_permission_bits. }
  assert (Htype : Z.land new S_IFMT = Z.land (i_mode root) S_IFMT).
  { apply Z.bits_inj'. intros n Hn.
    rewrite !Z.land_spec, Hbit, testbit_S_IFMT by done.
    destruct (n <? 12)%Z eqn:H12; [|done].
    apply Z.ltb_lt in H12.
    replace (12 <=? n)%Z with false by (symmetry; apply Z.leb_gt; lia).
    by rewrite !andb_false_r. }
  assert (Hrange : (0 ≤ new < 2 ^ 16)%Z)
    by (apply Z.mod_pos_bound; lia).
  split; [done|]. split; [done|].
  split; [unfold S_ISDIR; by rewrite Htype|].
  split; [done|]. do 11 (split; [done|]).
  assert (Hagain : (Z.lor (Z.land new (Z.lnot S_IALLUGO) mod 2 ^ 16)
                      (opt_mode opts) mod 2 ^ 16)%Z = new).
  { apply Z.bits_inj'. intros n Hn.
    rewrite (applied_mode_testbit new (opt_mode opts) n Hrange Hmode Hn).
    rewrite (Hbit n Hn). by destruct (n <? 12)%Z. }
  by rewrite Hagain.
Qed.

(** X10: [debugfs_apply_options] replaces the permission bits of the root
    inode by the mode of the options and nothing else of the mode: the file
    type bits are kept, so the root stays a directory; the owner and the
    group become those of the options, the link count, the operations and
    the private data stay; and applying the same options a second time
    changes nothing. *)
Theorem apply_options_sets_permissions (cfg : digest_config)
    (opts : debugfs_mount_opts) (root : inode) :
  (0 ≤ i_mode root < 2 ^ 16)%Z →
  (0 ≤ opt_mode opts ≤ 4095)%Z →
  let r := debugfs_apply_options cfg opts root in
  Z.land (i_mode (snd r)) S_IALLUGO = opt_mode opts
  ∧ Z.land (i_mode (snd r)) S_IFMT = Z.land (i_mode root) S_IFMT
  ∧ S_ISDIR (i_mode (snd r)) = S_ISDIR (i_mode root)
  ∧ (0 ≤ i_mode (snd r) < 2 ^ 16)%Z
  ∧ i_uid (snd r) = opt_uid opts
  ∧ i_gid (snd r) = opt_gid opts
  ∧ i_nlink (snd r) = i_nlink root
  ∧ i_op (snd r) = i_op root ∧ i_fop (snd r) = i_fop root
  ∧ i_private (snd r) = i_private root
  ∧ opt_mode (fst r) = opt_mode opts
  ∧ opt_uid (fst r) = opt_uid opts ∧ opt_gid (fst r) = opt_gid opts
  ∧ debugfs_apply_options cfg (fst r) (snd r) = r.
Proof.
  intros Hroot Hmode r.
  destruct (apply_options_facts cfg opts root (fst r) (snd r) Hroot Hmode)
    as (H1 & H2 & H3 & H4 & H5 & H6 & H7 & H8 & H9 & H10 & H11 & H12 & H13
        & _ & _ & H14).
  { apply surjective_pairing. }
  rewrite H14, <- surjective_pairing. repeat split; try done; lia.
Qed.

Lemma apply_options_sets_permissions_witness :
  let r := debugfs_apply_options default_config
             (mk_opts 7 8 448 [] false)
             (mk_inode (Z.lor S_IFDIR 493) 2 0 0 simple_dir_inode_operations
                debugfs_dir_operations no_ops (opaque_data 0)) in
  i_mode (snd r) = Z.lor S_IFDIR 448
  ∧ S_ISDIR (i_mode (snd r)) = true
  ∧ i_uid (snd r) = 7%Z
  ∧ debugfs_apply_options default_config (fst r) (snd r) = r.
Proof.
  destruct (apply_options_sets_permissions default_config
              (mk_opts 7 8 448 [] false)
              (mk_inode (Z.lor S_IFDIR 493) 2 0 0 simple_dir_inode_operations
                 debugfs_dir_operations no_ops (opaque_data 0)))
    as (_ & _ & Hdir & _ & Huid & _ & _ & _ & _ & _ & _ & _ & _ & Hagain);
    [by vm_compute | by vm_compute |].
  split; [reflexivity|]. split; [exact Hdir|]. split; [exact Huid|].
  exact Hagain.
Defined.

(** ** Remount *)

Lemma parse_option_failure lib p o :
  fst (parse_option lib p o) ≠ 0%Z →
  parse_option lib p o = ((- EINVAL)%Z, o).
Proof.
  unfold parse_option. case_bool_decide; [done|].
  destruct (match_token lib p) as [[] arg]; simpl; try done.
  - destruct (match_int lib arg) as [v|]; [|done].
    by destruct (make_kuid lib v).
  - destruct (match_int lib arg) as [v|]; [|done].
    by destruct (make_kgid lib v).
  - by destruct (match_octal lib arg).
Qed.

(** X11: what [debugfs_remount] returns.  It returns 0 or [-EINVAL].  When
    it fails the root inode is not touched.  When it succeeds the permission
    bits, the owner and the group of the root inode are those of the stored
    options, and its file type is what it was; a string that names no mode
    puts the permission bits of the root back to 0755 whatever an earlier
    mount or remount had set, while an owner or a group that the string does
    not name stays as stored. *)
Theorem remount_outcome (lib : parser) (cfg : digest_config)
    (data : option string) (fsi : debugfs_mount_opts) (root : inode)
    (err : Z) (fsi' : debugfs_mount_opts) (root' : inode) :
  (0 ≤ i_mode root < 2 ^ 16)%Z →
  debugfs_remount lib cfg data fsi root = (err, fsi', root') →
  (err = 0%Z ∨ err = (- EINVAL)%Z)
  ∧ (err ≠ 0%Z → root' = root)
  ∧ (err = 0%Z →
     Z.land (i_mode root') S_IALLUGO = opt_mode fsi'
     ∧ Z.land (i_mode root') S_IFMT = Z.land (i_mode root) S_IFMT
     ∧ i_uid root' = opt_uid fsi' ∧ i_gid root' = opt_gid fsi'
     ∧ (¬ names lib data Opt_mode →
        Z.land (i_mode root') S_IALLUGO = DEBUGFS_DEFAULT_MODE)
     ∧ (¬ names lib data Opt_uid → i_uid root' = opt_uid fsi)
     ∧ (¬ names lib data Opt_gid → i_gid root' = opt_gid fsi)).
Proof.
  intros Hroot. unfold debugfs_remount.
  destruct (debugfs_parse_options lib data fsi) as [e o] eqn:Hparse.
  destruct (parse_options_facts lib data fsi e o Hparse)
    as (He & Hm & _ & Hmode & Huid & Hgid & _).
  destruct (e =? 0)%Z eqn:Hz; cbn [negb].
  - apply Z.eqb_eq in Hz. subst e.
    destruct (debugfs_apply_options cfg o root) as [o' r'] eqn:Hap.
    destruct (apply_options_facts cfg o root o' r' Hroot Hm Hap)
      as (Hperm & Htype & _ & _ & Hu & Hg & _ & _ & _ & _ & Hm'
          & Hu' & Hg' & _).
    intros [= <- <- <-]. split; [by left|]. split; [done|]. intros _.
    rewrite Hperm, Hu, Hg, Hm', Hu', Hg'. repeat split; auto.
  - apply Z.eqb_neq in Hz. intros [= <- <- <-].
    split; [done|]. split; [done|]. done.
Qed.

Lemma remount_outcome_witness :
  ∃ fsi' root',
    debugfs_remount example_parser default_config (Some "uid=7")
      (mk_opts 1 2 448 [] false)
      (mk_inode (Z.lor S_IFDIR 448) 2 1 2 simple_dir_inode_operations
         debugfs_dir_operations no_ops (opaque_data 0))
    = (0%Z, fsi', root')
    ∧ Z.land (i_mode root') S_IALLUGO = DEBUGFS_DEFAULT_MODE
    ∧ i_uid root' = 7%Z ∧ i_gid root' = 2%Z.
Proof.
  assert (∃ fsi' root',
            debugfs_remount example_parser default_config (Some "uid=7")
              (mk_opts 1 2 448 [] false)
              (mk_inode (Z.lor S_IFDIR 448) 2 1 2 simple_dir_inode_operations
                 debugfs_dir_operations no_ops (opaque_data 0))
            = (0%Z, fsi', root')) as (fsi' & root' & Hrun)
    by (eexists _, _; reflexivity).
  exists fsi', root'. split; [exact Hrun|].
  edestruct remount_outcome as (_ & _ & Hok);
    [|exact Hrun|]; [by vm_compute|].
  destruct (Hok eq_refl) as (_ & _ & Hu & _ & Hmode & _ & Hgid).
  split.
  { apply Hmode. intros (p & Hp & _ & Htk).
    apply list_elem_of_singleton in Hp. subst p. discriminate Htk. }
  split.
  { rewrite Hu. injection Hrun as <- _. reflexivity. }
  apply Hgid. intros (p & Hp & _ & Htk).
  apply list_elem_of_singleton in Hp. subst p. discriminate Htk.
Defined.

(** X12: a remount that fails half way is not undone.  When the options up
    to some point parse and the next one is refused, [debugfs_remount] returns
    [-EINVAL] without looking at the rest and without touching the root
    inode, but the stored mount options keep what the options before the
    refused one have set (and the mode that the parse starts from): from then
    on they no longer describe the root inode. *)
Theorem remount_failure_keeps_earlier_options (lib : parser)
    (cfg : digest_config) (a p b : string) (fsi o1 : debugfs_mount_opts)
    (root : inode) :
  comma_free p = true →
  debugfs_parse_options lib (Some a) fsi = (0%Z, o1) →
  fst (parse_option lib p o1) ≠ 0%Z →
  debugfs_remount lib cfg (Some (a +:+ "," +:+ p +:+ "," +:+ b)) fsi root
  = ((- EINVAL)%Z, o1, root).
Proof.
  intros Hfree Ha Hp. unfold debugfs_remount.
  assert (debugfs_parse_options lib (Some (a +:+ "," +:+ p +:+ "," +:+ b)) fsi
          = ((- EINVAL)%Z, o1)) as ->; [|done].
  unfold debugfs_parse_options in *. simpl in *.
  rewrite !pieces_app_comma, (pieces_comma_free p Hfree).
  rewrite !parse_pieces_app, Ha. simpl.
  by rewrite (parse_option_failure lib p o1 Hp).
Qed.

Lemma remount_failure_keeps_earlier_options_witness :
  ∃ o1,
    debugfs_remount example_parser default_config
      (Some "uid=7,mode=9,gid=3") (mk_opts 1 2 448 [] false)
      (mk_inode (Z.lor S_IFDIR 448) 2 1 2 simple_dir_inode_operations
         debugfs_dir_operations no_ops (opaque_data 0))
    = ((- EINVAL)%Z, o1,
       mk_inode (Z.lor S_IFDIR 448) 2 1 2 simple_dir_inode_operations
         debugfs_dir_operations no_ops (opaque_data 0))
    ∧ opt_uid o1 = 7%Z ∧ opt_gid o1 = 2%Z
    ∧ opt_mode o1 = DEBUGFS_DEFAULT_MODE.
Proof.
  exists (mk_opts 7 2 DEBUGFS_DEFAULT_MODE [] false).
  split; [|done].
  exact (remount_failure_keeps_earlier_options example_parser default_config
           "uid=7" "mode=9" "gid=3" (mk_opts 1 2 448 [] false)
           (mk_opts 7 2 DEBUGFS_DEFAULT_MODE [] false) _
           eq_refl eq_refl ltac:(by vm_compute)).
Defined.

(** ** Filling the super block *)

(** X13: [debug_fill_super] either fails, and then leaves neither mount
    options nor a root behind ([sb->s_fs_info] is NULL) and returns
    [-ENOMEM] (no memory for the options), [-EINVAL] (an option was refused)
    or the error of [simple_fill_super]; or it returns 0, and then the root
    that [simple_fill_super] made has [debugfs_dir_operations], its file type
    as made, and the permission bits, owner and group of the stored options:
    0755 unless a mode is named, owner 0 and group 0 unless named. *)
Theorem fill_super_outcome (lib : parser) (cfg : digest_config)
    (kzalloc_ok : bool) (passwd_size : nat) (simple_fill_super : Z + inode)
    (data : option string) (err : Z) (info : option debugfs_mount_opts)
    (r : option inode) :
  match simple_fill_super with
  | inl e => e ≠ 0%Z
  | inr root0 => (0 ≤ i_mode root0 < 2 ^ 16)%Z
  end →
  debug_fill_super lib cfg kzalloc_ok passwd_size simple_fill_super data
  = (err, info, r) →
  (err ≠ 0%Z →
   info = None ∧ r = None
   ∧ (err = (- ENOMEM)%Z ∨ err = (- EINVAL)%Z ∨ simple_fill_super = inl err))
  ∧ (err = 0%Z →
     ∃ fsi root0 root',
       kzalloc_ok = true ∧ simple_fill_super = inr root0
       ∧ info = Some fsi ∧ r = Some root'
       ∧ i_fop root' = debugfs_dir_operations
       ∧ Z.land (i_mode root') S_IFMT = Z.land (i_mode root0) S_IFMT
       ∧ Z.land (i_mode root') S_IALLUGO = opt_mode fsi
       ∧ i_uid root' = opt_uid fsi ∧ i_gid root' = opt_gid fsi
       ∧ (¬ names lib data Opt_mode → opt_mode fsi = DEBUGFS_DEFAULT_MODE)
       ∧ (¬ names lib data Opt_uid → opt_uid fsi = 0%Z)
       ∧ (¬ names lib data Opt_gid → opt_gid fsi = 0%Z)).
Proof.
  intros Henv. unfold debug_fill_super.
  destruct kzalloc_ok.
  2: { intros [= <- <- <-]. split; [auto|done]. }
  destruct (debugfs_parse_options lib data _) as [e o] eqn:Hparse.
  destruct (parse_options_facts lib data _ e o Hparse)
    as (He & Hm & _ & Hmode & Huid & Hgid & _).
  destruct (e =? 0)%Z eqn:Hz; cbn [negb].
  2: { apply Z.eqb_neq in Hz. intros [= <- <- <-].
       split; [|done]. intros _. destruct He; [done|auto]. }
  destruct simple_fill_super as [e'|root0].
  { intros [= <- <- <-]. split; [auto|done]. }
  set (root1 := mk_inode (i_mode root0) (i_nlink root0) (i_uid root0)
                  (i_gid root0) (i_op root0) debugfs_dir_operations
                  (pfops root0) (i_private root0)).
  destruct (debugfs_apply_options cfg o root1) as [o' r'] eqn:Hap.
  destruct (apply_options_facts cfg o root1 o' r' Henv Hm Hap)
    as (Hperm & Htype & _ & _ & Hu & Hg & _ & _ & Hfop & _ & Hm'
        & Hu' & Hg' & _).
  intros [= <- <- <-]. split; [done|]. intros _.
  exists o', root0, r'. rewrite Hperm, Hu, Hg, Hm', Hu', Hg'.
  repeat split; auto.
Qed.

Lemma fill_super_outcome_witness :
  ∃ fsi root',
    debug_fill_super example_parser default_config true 64
      (inr (mk_inode (Z.lor S_IFDIR 493) 2 0 0 simple_dir_inode_operations
              no_ops no_ops (opaque_data 0)))
      (Some "mode=700")
    = (0%Z, Some fsi, Some root')
    ∧ i_fop root' = debugfs_dir_operations
    ∧ Z.land (i_mode root') S_IALLUGO = 448%Z
    ∧ i_uid root' = 0%Z.
Proof.
  assert (∃ fsi root',
            debug_fill_super example_parser default_config true 64
              (inr (mk_inode (Z.lor S_IFDIR 493) 2 0 0
                      simple_dir_inode_operations no_ops no_ops
                      (opaque_data 0)))
              (Some "mode=700")
            = (0%Z, Some fsi, Some root')) as (fsi & root' & Hrun)
    by (eexists _, _; reflexivity).
  exists fsi, root'. split; [exact Hrun|].
  edestruct fill_super_outcome as [_ Hok];
    [|exact Hrun|]; [by vm_compute|].
  destruct (Hok eq_refl)
    as (fsi0 & root0 & root1 & _ & _ & [= <-] & [= <-] & Hfop & _ & Hperm
        & Hu & _ & _ & Huid & _).
  split; [exact Hfop|]. split.
  { rewrite Hperm. injection Hrun as <- _. reflexivity. }
  rewrite Hu. apply Huid. intros (p & Hp & _ & Htk).
  apply list_elem_of_singleton in Hp. subst p. discriminate Htk.
Defined.

(** ** Showing the options *)

(** X14: behind a successful [debugfs_remount], what
    [debugfs_show_options] prints describes the root inode: an owner and a
    group are shown exactly when those of the root are not 0, the mode
    exactly when the permission bits of the root are not 0755, with the
    values the root has; the privilege flag is shown when the check of the
    passwd passed, and the passwd itself is never shown. *)
Theorem show_options_describes_root (lib : parser) (cfg : digest_config)
    (data : option string) (fsi : debugfs_mount_opts) (root : inode)
    (fsi' : debugfs_mount_opts) (root' : inode)
    (from_kuid_munged from_kgid_munged : Z → Z) :
  (0 ≤ i_mode root < 2 ^ 16)%Z →
  debugfs_remount lib cfg data fsi root = (0%Z, fsi', root') →
  debugfs_show_options from_kuid_munged from_kgid_munged fsi'
  = (if negb (i_uid root' =? 0)%Z
     then [(",uid=%u", from_kuid_munged (i_uid root'))] else [])
    ++ (if negb (i_gid root' =? 0)%Z
        then [(",gid=%u", from_kgid_munged (i_gid root'))] else [])
    ++ (if negb (Z.land (i_mode root') S_IALLUGO =? DEBUGFS_DEFAULT_MODE)%Z
        then [(",mode=%o", Z.land (i_mode root') S_IALLUGO)] else [])
    ++ (if debugfs_check_passwd cfg (opt_passwd fsi')
        then [(",privilege=%d", 1%Z)] else []).
Proof.
  intros Hroot. unfold debugfs_remount.
  destruct (debugfs_parse_options lib data fsi) as [e o] eqn:Hparse.
  destruct (parse_options_facts lib data fsi e o Hparse) as (_ & Hm & _).
  destruct (e =? 0)%Z eqn:Hz; cbn [negb]; [|intros [= -> _ _]; done].
  destruct (debugfs_apply_options cfg o root) as [o' r'] eqn:Hap.
  destruct (apply_options_facts cfg o root o' r' Hroot Hm Hap)
    as (Hperm & _ & _ & _ & Hu & Hg & _ & _ & _ & _ & Hm'
        & Hu' & Hg' & Hpw & Hpriv & _).
  intros [= _ <- <-]. unfold debugfs_show_options.
  by rewrite Hperm, Hu, Hg, Hm', Hu', Hg', Hpriv, Hpw.
Qed.

Lemma show_options_describes_root_witness :
  ∃ fsi' root',
    debugfs_remount example_parser default_config (Some "uid=7,mode=700")
      (mk_opts 0 0 0 [] false)
      (mk_inode (Z.lor S_IFDIR 493) 2 0 0 simple_dir_inode_operations
         debugfs_dir_operations no_ops (opaque_data 0))
    = (0%Z, fsi', root')
    ∧ debugfs_show_options id id fsi'
      = [(",uid=%u", 7%Z); (",mode=%o", 448%Z); (",privilege=%d", 1%Z)].
Proof.
  assert (∃ fsi' root',
            debugfs_remount example_parser default_config
              (Some "uid=7,mode=700") (mk_opts 0 0 0 [] false)
              (mk_inode (Z.lor S_IFDIR 493) 2 0 0 simple_dir_inode_operations
                 debugfs_dir_operations no_ops (opaque_data 0))
            = (0%Z, fsi', root')) as (fsi' & root' & Hrun)
    by (eexists _, _; reflexivity).
  exists fsi', root'. split; [exact Hrun|].
  erewrite show_options_describes_root; [| |exact Hrun]; [|by vm_compute].
  injection Hrun as <- <-. reflexivity.
Defined.

(** * Names among siblings *)













(** ** Properties that removals keep *)

Section removal_preserves.
Variable P : state → Prop.
Hypothesis P_dcache : ∀ st st', dcache st' = dcache st → P st → P st'.
Hypothesis P_removed : ∀ c p b st x,
  tree_inv st → dcache st !! c = Some x → d_parent x = Some p → c ≠ p →
  P st → P (removed_state c p b st).






End removal_preserves.





(** * The pin counter along a recursive removal *)

(** [chain st dentry y]: [y] is the positive [dentry], or a positive dentry
    whose parent pointers lead up to it through positive dentries: the
    directories the walk has descended into. *)
Inductive chain (st : state) (dentry : nat) : nat → Prop :=
  | chain_top :
      positive_at st dentry = true → chain st dentry dentry
  | chain_step c x q :
      c ≠ dentry →
      dcache st !! c = Some x → debugfs_positive x = true →
      d_parent x = Some q →
      chain st dentry q →
      chain st dentry c.

(** Where the cursor of the walk stands. *)
Definition cursor_ok (st : state) (dentry : nat) (pc : rr_pc) : Prop :=
  match pc with
  | at_down p | at_loop p _ _ | at_after p => chain st dentry p
  | at_up _ c _ => chain st dentry c ∧ c ≠ dentry
  | at_return => True
  end.

Lemma chain_positive st dentry y : chain st dentry y → positive_at st y = true.
Proof.
  destruct 1 as [Hpos | c x q _ Hc Hpos _ _]; [done|].
  unfold positive_at. by rewrite Hc.
Qed.

Lemma chain_dcache st st' dentry y :
  dcache st' = dcache st → chain st dentry y → chain st' dentry y.
Proof.
  intros Hdc. induction 1 as [Hpos | c x q Hne Hc Hpos Hpar _ IH].
  - apply chain_top. by rewrite (positive_at_dcache _ _ _ Hdc).
  - eapply chain_step; eauto. by rewrite Hdc.
Qed.

Lemma chain_rank rank st dentry y :
  tree_inv st → ranked rank st → chain st dentry y → rank y ≤ rank dentry.
Proof.
  intros Hinv Hr. induction 1 as [Hpos | c x q Hne Hc Hpos Hpar _ IH]; [done|].
  pose proof (Hr c q (inv_attached st Hinv c x q Hc Hpos Hpar)). lia.
Qed.

Lemma chain_removed rank st dentry c p b y :
  tree_inv st → ranked rank st → c ≠ p →
  chain st dentry y → rank c < rank y →
  chain (removed_state c p b st) dentry y.
Proof.
  intros Hinv Hr Hne.
  induction 1 as [Hpos | z x q Hzd Hz Hpos Hpar Hq IH]; intros Hrank.
  - apply chain_top. rewrite removed_state_positive by done.
    rewrite decide_False; [done|]. intros ->. lia.
  - assert (z ≠ c) as Hzc by (intros ->; lia).
    destruct (removed_state_kept c p b st z x Hne Hzc Hz)
      as (x' & Hx' & Hpar' & Hpos' & _).
    apply (chain_step _ _ z x' q); [done|done|congruence|congruence|].
    apply IH.
    pose proof (Hr z q (inv_attached st Hinv z x q Hz Hpos Hpar)). lia.
Qed.

(** [__debugfs_remove] on a positive dentry: a directory in use is refused
    and nothing changes, anything else is removed. *)
Lemma debugfs_remove_positive_cases c p st ret st' :
  positive_at st c = true →
  __debugfs_remove c p st = Some (ret, st') →
  (ret = (- ENOTEMPTY)%Z ∧ st' = st)
  ∨ (ret = 0%Z ∧ ∃ b, st' = removed_state c p b st).
Proof.
  unfold positive_at, __debugfs_remove.
  destruct (dcache st !! c) as [x|] eqn:Hc; simpl; [|done].
  intros Hpos. rewrite Hpos.
  destruct (d_inode x) as [i|] eqn:Hi; simpl; [|done].
  unfold removed_state.
  destruct (S_ISDIR (i_mode i)) eqn:Hdir.
  - unfold simple_rmdir.
    destruct (simple_empty c st) as [[|]|] eqn:He; simpl; [| |done].
    + unfold on_inode at 1.
      destruct (inode_of p st) as [ip|] eqn:Hip; simpl; [|done].
      unfold simple_unlink.
      destruct (inode_of_update_inode drop_nlink p st) as [j Hj]; [eauto|].
      rewrite Hj. simpl. intros [= <- <-]. right. split; [done|]. by exists true.
    + intros [= <- <-]. by left.
  - unfold simple_unlink.
    destruct (inode_of p st) as [ip|] eqn:Hip; simpl; [|done].
    intros [= <- <-]. right. split; [done|]. by exists false.
Qed.

(** One call of [__debugfs_remove] with its release, on a positive dentry:
    the counter and the number of removals performed move together. *)
Lemma rr_remove_balance c p st log st' log' :
  c ≠ p → positive_at st c = true →
  rr_remove c p st log = Some (st', log') →
  (st' = st ∧ log' = log)
  ∨ (∃ b, st' = simple_release_fs (removed_state c p b st)
          ∧ log' = log ++ [c]).
Proof.
  intros Hne Hpos. unfold rr_remove.
  destruct (__debugfs_remove c p st) as [[ret st1]|] eqn:Hrm; simpl; [|done].
  destruct (debugfs_remove_positive_cases c p st ret st1 Hpos Hrm)
    as [[-> ->] | (-> & b & ->)].
  - rewrite Hpos. simpl. intros [= <- <-]. by left.
  - rewrite Hpos, positive_at_removed by done. simpl.
    intros [= <- <-]. right. by exists b.
Qed.

Lemma ranked_removed rank c p b st :
  c ≠ p → ranked rank st → ranked rank (removed_state c p b st).
Proof.
  intros Hne. apply ranked_mono. intros a q. by apply removed_state_child_of.
Qed.

Lemma ranked_dcache rank st st' :
  dcache st' = dcache st → ranked rank st → ranked rank st'.
Proof.
  intros Hdc. apply ranked_mono. intros a q.
  by apply (proj1 (child_of_dcache st st' a q Hdc)).
Qed.

Lemma rr_step_balance rank dentry pc st log pc' st' log' :
  tree_inv st → ranked rank st → pc_ok st pc → cursor_ok st dentry pc →
  rr_step dentry (pc, st, log) = Some (pc', st', log') →
  cursor_ok st' dentry pc'
  ∧ ranked rank st'
  ∧ (debugfs_mount_count st' + Z.of_nat (length log')
     = debugfs_mount_count st + Z.of_nat (length log))%Z.
Proof.
  intros Hinv Hr Hpc Hcur. pose proof (inv_ok st Hinv) as Hok.
  assert (Hremove : ∀ c p s lg,
            chain st dentry c → c ≠ p →
            (∃ x, dcache st !! c = Some x ∧ d_parent x = Some p) →
            rr_remove c p st log = Some (s, lg) →
            ranked rank s
            ∧ (debugfs_mount_count s + Z.of_nat (length lg)
               = debugfs_mount_count st + Z.of_nat (length log))%Z
            ∧ ∀ y, chain st dentry y → rank c < rank y → chain s dentry y).
  { intros c p s lg Hc Hne _ Hrm.
    destruct (rr_remove_balance c p st log s lg Hne (chain_positive _ _ _ Hc)
                Hrm) as [[-> ->] | (b & -> & ->)]; [done|].
    split; [|split].
    - eapply ranked_dcache; [apply release_dcache|]. by apply ranked_removed.
    - rewrite release_count, length_app.
      destruct (removed_state_count c p b st) as [-> _].
      change (length [c]) with 1. lia.
    - intros y Hy Hrank. eapply chain_dcache; [apply release_dcache|].
      by eapply chain_removed. }
  destruct pc as [p | p [c|] next | p c next | p |]; simpl.
  - destruct (inode_of p st); simpl; [|done].
    destruct (dcache st !! p) as [xp|]; simpl; [|done].
    by intros [= <- <- <-].
  - destruct Hpc as [Hc _]. simpl in Hcur.
    destruct (dcache st !! c) as [x|] eqn:Hx; simpl; [|done].
    destruct (Hc c eq_refl) as (xp & Hp & Hin).
    destruct (ok_listed st Hok p xp c Hp Hin) as (x' & Hx' & Hpar & Hpos).
    rewrite Hx in Hx'. injection Hx' as <-.
    assert (Hcc : chain st dentry c ∧ c ≠ dentry).
    { assert (c ≠ dentry) as Hcd.
      { intros ->. pose proof (chain_rank rank st dentry p Hinv Hr Hcur).
        pose proof (Hr dentry p (Hc dentry eq_refl)). lia. }
      split; [|done]. by eapply chain_step. }
    rewrite Hpos. simpl.
    destruct (bool_decide (d_subdirs x = [])); simpl;
      intros [= <- <- <-]; [done|]. by destruct Hcc.
  - by intros [= <- <- <-].
  - destruct Hpc as [(x & Hx & Hpar) _]. destruct Hcur as [Hc Hcd].
    assert (Hp : chain st dentry p ∧ rank c < rank p).
    { inversion Hc as [|c' x' q _ Hx' Hpos Hpar' Hq]; [done|]. subst c'.
      rewrite Hx in Hx'. injection Hx' as <-.
      rewrite Hpar in Hpar'. injection Hpar' as <-. split; [done|].
      by apply Hr, (inv_attached st Hinv c x p). }
    destruct Hp as [Hp Hrank].
    destruct (rr_remove c p st log) as [[st1 log1]|] eqn:Hrm; simpl; [|done].
    destruct (Hremove c p st1 log1 Hc) as (Hr1 & Hbal & Hchain);
      [intros ->; lia|eauto|done|].
    unfold rr_advance.
    destruct (dcache st1 !! p) as [xp|]; simpl; [|done].
    intros [= <- <- <-]. split; [|done]. simpl. by apply Hchain.
  - simpl in Hcur.
    destruct (dcache st !! p) as [x|] eqn:Hx; simpl; [|done].
    destruct (d_parent x) as [q|] eqn:Hpar; simpl; [|done].
    destruct (inode_of q st); simpl; [|done].
    case_bool_decide as Hpd.
    + destruct (dcache st !! q) as [xq|]; simpl; [|done].
      by intros [= <- <- <-].
    + destruct (rr_remove p q st log) as [[st1 log1]|] eqn:Hrm; simpl; [|done].
      intros [= <- <- <-].
      destruct (Hremove p q st1 log1 Hcur) as (Hr1 & Hbal & _);
        [|eauto|done|done].
      intros ->. by apply (inv_parent_ne st Hinv q x Hx).
  - by intros [= <- <- <-].
Qed.

Lemma rr_run_balance rank fuel dentry pc st log st' log' :
  tree_inv st → ranked rank st → pc_ok st pc → cursor_ok st dentry pc →
  rr_run fuel dentry (pc, st, log) = Some (st', log') →
  (debugfs_mount_count st' + Z.of_nat (length log')
   = debugfs_mount_count st + Z.of_nat (length log))%Z.
Proof.
  revert pc st log.
  induction fuel as [|fuel IH]; intros pc st log Hinv Hr Hpc Hcur.
  - destruct pc; simpl; try done. by intros [= <- <-].
  - rewrite rr_run_unfold.
    destruct (rr_step dentry (pc, st, log)) as [[[pc1 st1] log1]|] eqn:Hstep;
      simpl; [|done].
    destruct (rr_step_inv _ _ _ _ _ _ _ Hinv Hpc Hstep) as [Hinv1 Hpc1].
    destruct (rr_step_balance rank _ _ _ _ _ _ _ Hinv Hr Hpc Hcur Hstep)
      as (Hcur1 & Hr1 & Hbal).
    intros Hrun. rewrite <- Hbal. by eapply IH.
Qed.

(** X16: called on a positive dentry of a well-formed tree,
    [debugfs_remove_recursive] releases exactly one pin for each removal it
    performs: when it returns, the pin counter is down by the number of
    removals.  (On a dentry that is no longer positive it releases a pin
    although it removes nothing, like [debugfs_remove].) *)
Theorem remove_recursive_pin_balance (rank : nat → nat) (fuel : nat)
    (d : nat) (st st' : state) (log : list nat) :
  tree_inv st →
  ranked rank st →
  positive_at st d = true →
  debugfs_remove_recursive fuel (PTR d) st = Some (st', log) →
  debugfs_mount_count st'
  = (debugfs_mount_count st - Z.of_nat (length log))%Z.
Proof.
  intros Hinv Hr Hpos. unfold debugfs_remove_recursive.
  destruct (dcache st !! d) as [x|]; simpl; [|done].
  destruct (d_parent x) as [p|]; [|intros [= <- <-]; simpl; lia].
  destruct (dcache st !! p) as [px|]; simpl; [|done].
  destruct (d_inode px); [|intros [= <- <-]; simpl; lia].
  intros Hrun.
  pose proof (rr_run_balance rank fuel d (at_down d) st [] st' log Hinv Hr I
                (chain_top st d Hpos) Hrun) as Hbal.
  simpl in Hbal. lia.
Qed.

Lemma remove_recursive_pin_balance_witness :
  ∃ st' log,
    debugfs_remove_recursive 12 (PTR 1) scenario_state = Some (st', log)
    ∧ length log = 4
    ∧ debugfs_mount_count st'
      = (debugfs_mount_count scenario_state - Z.of_nat (length log))%Z.
Proof.
  assert (∃ st', debugfs_remove_recursive 12 (PTR 1) scenario_state
                 = Some (st', [2; 4; 3; 1])) as [st' Hrun]
    by (eexists; vm_compute; reflexivity).
  exists st', [2; 4; 3; 1]. split; [exact Hrun|]. split; [reflexivity|].
  exact (remove_recursive_pin_balance scenario_rank 12 1 scenario_state st'
           [2; 4; 3; 1] (reachable_inv _ scenario_reachable) scenario_ranked
           eq_refl Hrun).
Defined.

(** * A creation that fails *)

Lemma positive_at_with_negative name p st y :
  positive_at (with_negative name p st) y = positive_at st y.
Proof.
  unfold positive_at. rewrite with_negative_lookup. case_decide as Hy; [|done].
  subst y. by rewrite fresh_not_in.
Qed.

(** X17: a creation function that returns NULL has created nothing:
    whatever made it fail (no memory for the link target, no mount, a failed
    lookup, a name that is taken, no inode), every dentry that existed is the
    record it was, no dentry has become positive or negative, and the pin
    counter is what it was before the call. *)
Theorem failed_creation_changes_nothing (e : env) (c : creation)
    (parent : dentry_ptr) (st st' : state) :
  run_creation e c parent st = Some (NULL, st') →
  debugfs_mount_count st' = debugfs_mount_count st
  ∧ (∀ y v, dcache st !! y = Some v → dcache st' !! y = Some v)
  ∧ (∀ y, positive_at st' y = positive_at st y).
Proof.
  intros Hrun.
  apply run_creation_outcome in Hrun as [(_ & _ & ->) | [_ Hout]]; [done|].
  inversion Hout as [Hfail | pinned p px Hpin _ _ _ _
                    | pinned p px ch Hpin _ _ _ _ _
                    | pinned p px Hpin _ Hpx _ _ _ _
                    | ]; subst.
  - done.
  - pose proof (pin_eq_dcache _ _ _ _ Hpin) as Hdc.
    split; [by eapply pin_release_count|].
    split.
    + intros y v Hy. by rewrite release_dcache, Hdc.
    + intros y. apply positive_at_dcache. by rewrite release_dcache.
  - pose proof (pin_eq_dcache _ _ _ _ Hpin) as Hdc.
    split; [by eapply pin_release_count|].
    split.
    + intros y v Hy. by rewrite release_dcache, Hdc.
    + intros y. apply positive_at_dcache. by rewrite release_dcache.
  - pose proof (pin_eq_dcache _ _ _ _ Hpin) as Hdc.
    split.
    { rewrite release_count.
      destruct (with_negative_count (creation_name c) p pinned) as [-> _].
      pose proof (pin_success_count (attach e) st) as Hpc.
      rewrite Hpin in Hpc. simpl in Hpc. rewrite Hpc by done. lia. }
    split.
    + intros y v Hy. rewrite release_dcache.
      rewrite with_negative_lookup_old by (rewrite Hdc; eauto).
      by rewrite Hdc.
    + intros y.
      rewrite (positive_at_dcache _ _ y (release_dcache _)).
      rewrite positive_at_with_negative.
      by apply positive_at_dcache.
Qed.

Lemma failed_creation_changes_nothing_witness :
  ∃ st',
    run_creation ok_env (create_file "f" 0 (opaque_data 0) None) NULL
      one_file_state = Some (NULL, st')
    ∧ debugfs_mount_count st' = debugfs_mount_count one_file_state
    ∧ (∀ y v, dcache one_file_state !! y = Some v → dcache st' !! y = Some v)
    ∧ (∀ y, positive_at st' y = positive_at one_file_state y).
Proof.
  assert (∃ st',
            run_creation ok_env (create_file "f" 0 (opaque_data 0) None) NULL
              one_file_state = Some (NULL, st')) as [st' Hrun]
    by (eexists; vm_compute; reflexivity).
  exists st'. split; [exact Hrun|].
  exact (failed_creation_changes_nothing ok_env
           (create_file "f" 0 (opaque_data 0) None) NULL one_file_state st'
           Hrun).
Defined.

(** * Recursive removal of a node that is gone *)

(** X18: [debugfs_remove_recursive] on a dentry that has been removed
    before (no longer positive, its inode still held, no children) removes
    nothing and still releases a pin: the final [__debugfs_remove] returns 0
    for a dentry that is not positive, so the counter goes down by one. *)
Theorem remove_recursive_of_removed_node (fuel d p : nat) (x px : dentry)
    (st : state) :
  dcache st !! d = Some x →
  debugfs_positive x = false →
  is_Some (d_inode x) →
  d_subdirs x = [] →
  d_parent x = Some p →
  dcache st !! p = Some px →
  is_Some (d_inode px) →
  3 ≤ fuel →
  debugfs_remove_recursive fuel (PTR d) st = Some (simple_release_fs st, [])
  ∧ debugfs_mount_count (simple_release_fs st)
    = (debugfs_mount_count st - 1)%Z
  ∧ dcache (simple_release_fs st) = dcache st.
Proof.
  intros Hd Hneg [i Hi] Hleaf Hpar Hp [ip Hip] Hfuel.
  split; [|split; [apply release_count|apply release_dcache]].
  destruct fuel as [|[|[|fuel]]]; [lia..|].
  unfold debugfs_remove_recursive. rewrite Hd. cbn [mbind option_bind].
  rewrite Hpar, Hp. cbn [mbind option_bind]. rewrite Hip.
  rewrite (rr_run_leaf fuel d st x i p px ip Hd Hleaf Hi Hpar Hp Hip).
  unfold rr_remove.
  rewrite (debugfs_remove_negative d p x st Hd Hneg). simpl.
  unfold positive_at. by rewrite Hd, Hneg.
Qed.

Lemma remove_recursive_of_removed_node_witness :
  debugfs_remove_recursive 3 (PTR 2) removed_file_state
  = Some (simple_release_fs removed_file_state, [])
  ∧ debugfs_mount_count (simple_release_fs removed_file_state)
    = (debugfs_mount_count removed_file_state - 1)%Z
  ∧ dcache (simple_release_fs removed_file_state) = dcache removed_file_state.
Proof.
  assert (∃ x px,
            dcache removed_file_state !! 2 = Some x
            ∧ debugfs_positive x = false ∧ is_Some (d_inode x)
            ∧ d_subdirs x = [] ∧ d_parent x = Some 0
            ∧ dcache removed_file_state !! 0 = Some px
            ∧ is_Some (d_inode px))
    as (x & px & H1 & H2 & H3 & H4 & H5 & H6 & H7).
  { eexists _, _. split; [vm_compute; reflexivity|].
    split; [reflexivity|]. split; [simpl; eauto|]. split; [reflexivity|].
    split; [reflexivity|]. split; [vm_compute; reflexivity|]. simpl; eauto. }
  exact (remove_recursive_of_removed_node 3 2 0 x px removed_file_state
           H1 H2 H3 H4 H5 H6 H7 (le_n 3)).
Defined.

(** * The mount is held while nodes exist *)





(** ** Renaming a removed dentry *)

(** [debugfs_rename] goes through with it when both directories hold an
    inode, [old_dentry] holds one, is neither the trap nor a mount point, the
    lookup succeeds and finds the new name free. *)
Lemma rename_accepted trap old_dir old_dentry new_dir new_name st xod xnd x i :
  dcache st !! old_dir = Some xod → is_Some (d_inode xod) →
  dcache st !! new_dir = Some xnd → is_Some (d_inode xnd) →
  dcache st !! old_dentry = Some x → d_inode x = Some i →
  d_parent x = Some old_dir → old_dentry ≠ old_dir → old_dentry ≠ new_dir →
  d_mounted x = false → trap ≠ Some old_dentry →
  (∀ t, trap = Some t → is_Some (dcache st !! t)) →
  ¬ has_positive_child st new_dir new_name →
  debugfs_rename trap true old_dir old_dentry new_dir new_name st
  = Some (PTR old_dentry,
          renamed_state old_dir old_dentry new_dir new_name
            (S_ISDIR (i_mode i)) st).
Proof.
  intros Hod [iod Hiod] Hnd [ind Hind] Hx Hi Hpar Hne1 Hne2 Hm Htr Htrap Hfree.
  assert (Hfind : List.find (named_positive st new_name) (d_subdirs xnd)
                  = None).
  { destruct (List.find _ _) eqn:Hf; [|done].
    exfalso. apply Hfree. apply (find_positive_child st new_dir xnd _ Hnd).
    eauto. }
  unfold debugfs_rename.
  rewrite Hod, Hnd. cbn [mbind option_bind]. rewrite Hiod, Hind.
  rewrite (bool_decide_eq_true_2 (is_Some (Some iod))) by eauto.
  rewrite (bool_decide_eq_true_2 (is_Some (Some ind))) by eauto.
  cbn [negb orb]. rewrite Hx. cbn [mbind option_bind]. rewrite Hi, Hm.
  rewrite (bool_decide_eq_true_2 (is_Some (Some i))) by eauto.
  rewrite (bool_decide_eq_false_2 (Some old_dentry = trap)) by (by intros ?).
  cbn [negb orb].
  rewrite (lookup_one_len_new _ _ _ _ Hnd Hfind).
  cbn [mbind option_bind].
  rewrite with_negative_lookup_fresh. cbn [mbind option_bind].
  rewrite bool_decide_eq_false_2.
  2: { intros Heq. destruct (Htrap _ (eq_sym Heq)) as [? Hf].
       by rewrite fresh_not_in in Hf. }
  cbn [negative_dentry d_inode].
  rewrite (bool_decide_eq_false_2 (is_Some None)) by (by intros [? ?]).
  cbn [orb].
  assert (Hold : ∀ y v, dcache st !! y = Some v →
            dcache (with_negative new_name new_dir st) !! y = Some v).
  { intros y v Hy. rewrite with_negative_lookup_old by eauto. done. }
  rewrite (simple_rename_spec old_dir old_dentry new_dir _ _ xod xnd x i)
    by eauto.
  cbn [mbind option_bind]. change (negb (0 =? 0)%Z) with false. cbv iota.
  rewrite (d_move_renamed old_dir old_dentry new_dir new_name _ st x xod xnd)
    by done.
  done.
Qed.

(** Nothing a rename does changes whether a dentry other than the moved one
    is a positive directory. *)
Lemma renamed_positive_dir od o nd new_name b st x xod xnd c :
  dcache st !! o = Some x →
  dcache st !! od = Some xod → dcache st !! nd = Some xnd →
  o ≠ od → o ≠ nd → c ≠ o →
  is_positive_dir (renamed_state od o nd new_name b st) c
  = is_positive_dir st c.
Proof.
  intros Ho Hod Hnd Hne1 Hne2 Hc. unfold is_positive_dir.
  rewrite (renamed_lookup od o nd new_name b st x xod xnd c) by done.
  case_decide as Hfresh.
  { subst c. by rewrite fresh_not_in. }
  rewrite decide_False by done.
  case_decide as Hcnd.
  { subst c. rewrite Hnd. case_decide.
    - unfold linked, detach, debugfs_positive, is_dir; simpl. done.
    - unfold linked, debugfs_positive, is_dir. destruct b; simpl; [|done].
      by destruct (d_inode xnd). }
  case_decide as Hcod; [|done].
  subst c. rewrite Hod.
  unfold unlinked, detach, debugfs_positive, is_dir. destruct b; simpl; [|done].
  by destruct (d_inode xod).
Qed.

(** The removed dentry counts for nothing among the children of its old
    parent, whether that list still names it or not. *)
Lemma count_dirs_without st c l :
  is_positive_dir st c = false →
  count_dirs st (filter (λ y, y ≠ c) l) = count_dirs st l.
Proof.
  intros Hc. induction l as [|z l IH]; [done|].
  destruct (decide (z = c)) as [->|Hne].
  - rewrite filter_cons_False by (intros H; by apply H).
    rewrite count_dirs_cons, Hc, IH. lia.
  - rewrite filter_cons_True by done. by rewrite !count_dirs_cons, IH.
Qed.

(** The file ["f"] (dentry 2) of [removed_file_state] and the directory ["x"]
    (dentry 1) of [held_removed_state] are removed dentries that something
    else still referenced when [d_delete] ran: they are unhashed, and their
    inodes stay with them. *)
Definition held_removed_state : state :=
  Eval vm_compute in
    match debugfs_remove (PTR 1) two_dirs_state with
    | Some st => st
    | None => two_dirs_state
    end.

(** C2, where the code departs from it: an [old_dentry] that is not positive
    any more (it was removed, and unhashed) but still holds its inode is not
    refused.  [debugfs_rename] tests [!old_dentry->d_inode] only, not
    [debugfs_positive]: with the new name free it returns [old_dentry], which
    now bears the new name under the new parent, and the store is not what it
    was. *)
Theorem rename_moves_removed_node (trap : option nat)
    (old_dir old_dentry new_dir : nat) (new_name : string) (st : state)
    (xod xnd x : dentry) (i : inode) :
  dcache st !! old_dir = Some xod → is_Some (d_inode xod) →
  dcache st !! new_dir = Some xnd → is_Some (d_inode xnd) →
  dcache st !! old_dentry = Some x →
  d_inode x = Some i → debugfs_positive x = false →
  d_parent x = Some old_dir → old_dentry ≠ old_dir → old_dentry ≠ new_dir →
  d_mounted x = false → trap ≠ Some old_dentry →
  (∀ t, trap = Some t → is_Some (dcache st !! t)) →
  ¬ has_positive_child st new_dir new_name →
  ∃ st',
    debugfs_rename trap true old_dir old_dentry new_dir new_name st
    = Some (PTR old_dentry, st')
    ∧ st' ≠ st
    ∧ positive_at st old_dentry = false
    ∧ d_name <$> dcache st' !! old_dentry = Some new_name
    ∧ d_parent <$> dcache st' !! old_dentry = Some (Some new_dir)
    ∧ d_inode <$> dcache st' !! old_dentry = Some (Some i)
    ∧ ∃ l, children_at st' new_dir = Some (l ++ [old_dentry]).
Proof.
  intros Hod Hiod Hnd Hind Hx Hi Hneg Hpar Hne1 Hne2 Hm Htr Htrap Hfree.
  eexists. split; [by eapply rename_accepted|].
  pose proof (renamed_lookup old_dir old_dentry new_dir new_name
                (S_ISDIR (i_mode i)) st x xod xnd) as Hl.
  assert (Ho_fresh : old_dentry ≠ fresh (dom (dcache st)))
    by (by eapply fresh_ne_existing).
  assert (Hnd_fresh : new_dir ≠ fresh (dom (dcache st)))
    by (by eapply fresh_ne_existing).
  split.
  { intros Heq.
    specialize (Hl (fresh (dom (dcache st))) Hx Hod Hnd Hne1 Hne2).
    rewrite decide_True, Heq, fresh_not_in in Hl by done. done. }
  split; [unfold positive_at; by rewrite Hx|].
  rewrite (Hl old_dentry) by done.
  rewrite decide_False, decide_True by done.
  cbn [fmap option_fmap option_map d_name d_parent d_inode]. rewrite Hi.
  do 3 (split; [done|]).
  unfold children_at. rewrite (Hl new_dir) by done.
  rewrite decide_False by done.
  rewrite decide_False by (by intros ->).
  rewrite decide_True by done.
  case_decide; eexists; unfold linked; [reflexivity|].
  by destruct (S_ISDIR (i_mode i)).
Qed.

Lemma rename_moves_removed_node_witness :
  ∃ st',
    debugfs_rename None true 0 2 1 "y" removed_file_state = Some (PTR 2, st')
    ∧ st' ≠ removed_file_state
    ∧ positive_at removed_file_state 2 = false
    ∧ d_name <$> dcache st' !! 2 = Some "y"
    ∧ d_parent <$> dcache st' !! 2 = Some (Some 1)
    ∧ ∃ l, children_at st' 1 = Some (l ++ [2]).
Proof.
  assert (Hs : ∃ xod xnd x i,
            dcache removed_file_state !! 0 = Some xod ∧ is_Some (d_inode xod)
            ∧ dcache removed_file_state !! 1 = Some xnd
            ∧ is_Some (d_inode xnd)
            ∧ dcache removed_file_state !! 2 = Some x
            ∧ d_inode x = Some i ∧ debugfs_positive x = false
            ∧ d_parent x = Some 0 ∧ d_mounted x = false
            ∧ d_subdirs xnd = []).
  { do 4 eexists. split; [vm_compute; reflexivity|].
    split; [vm_compute; eauto|]. split; [vm_compute; reflexivity|].
    split; [vm_compute; eauto|]. split; [vm_compute; reflexivity|].
    split; [vm_compute; reflexivity|]. by vm_compute. }
  destruct Hs as (xod & xnd & x & i & Hod & Hiod & Hnd & Hind & Hx & Hi
                  & Hneg & Hpar & Hm & Hempty).
  assert (Hfree : ¬ has_positive_child removed_file_state 1 "y").
  { intros (p & c & y & Hp & Hc & _). rewrite Hnd in Hp.
    injection Hp as <-. rewrite Hempty in Hc. by apply elem_of_nil in Hc. }
  destruct (rename_moves_removed_node None 0 2 1 "y" removed_file_state
              xod xnd x i Hod Hiod Hnd Hind Hx Hi Hneg Hpar
              ltac:(lia) ltac:(lia) Hm ltac:(discriminate)
              ltac:(intros t Ht; discriminate Ht) Hfree)
    as (st' & H1 & H2 & H3 & H4 & H5 & _ & H7).
  exists st'. done.
Defined.

(** C7, where the code departs from it: a directory [old_dentry] that was
    removed (it is not positive any more) but still holds its inode is moved
    by [debugfs_rename] like any other, and [simple_rename] takes one link
    from [old_dir] for it.  That link was given back when the directory was
    removed: [old_dir], which had two links plus one for each positive
    directory among its children, has one link less than that afterwards,
    with the same positive directories among its children. *)
Theorem rename_of_removed_directory_skews_link_count (trap : option nat)
    (old_dir old_dentry new_dir : nat) (new_name : string) (st : state)
    (xod xnd x : dentry) (i iod : inode) :
  dcache st !! old_dir = Some xod → d_inode xod = Some iod →
  dcache st !! new_dir = Some xnd → is_Some (d_inode xnd) →
  dcache st !! old_dentry = Some x →
  d_inode x = Some i → S_ISDIR (i_mode i) = true →
  debugfs_positive x = false →
  d_parent x = Some old_dir → old_dentry ≠ old_dir → old_dentry ≠ new_dir →
  old_dir ≠ new_dir →
  d_mounted x = false → trap ≠ Some old_dentry →
  (∀ t, trap = Some t → is_Some (dcache st !! t)) →
  ¬ has_positive_child st new_dir new_name →
  i_nlink iod = (2 + count_dirs st (d_subdirs xod))%Z →
  ∃ st' xod' iod',
    debugfs_rename trap true old_dir old_dentry new_dir new_name st
    = Some (PTR old_dentry, st')
    ∧ dcache st' !! old_dir = Some xod' ∧ d_inode xod' = Some iod'
    ∧ i_mode iod' = i_mode iod
    ∧ count_dirs st' (d_subdirs xod') = count_dirs st (d_subdirs xod)
    ∧ i_nlink iod' = (2 + count_dirs st' (d_subdirs xod') - 1)%Z.
Proof.
  intros Hod Hiod Hnd Hind Hx Hi Hdir Hneg Hpar Hne1 Hne2 Hne3 Hm Htr Htrap
    Hfree Hlinks.
  exists (renamed_state old_dir old_dentry new_dir new_name true st),
    (unlinked old_dentry true xod), (drop_nlink iod).
  split.
  { rewrite (rename_accepted trap old_dir old_dentry new_dir new_name st xod
               xnd x i) by eauto.
    by rewrite Hdir. }
  split.
  { rewrite (renamed_lookup old_dir old_dentry new_dir new_name true st x xod
               xnd old_dir) by done.
    rewrite decide_False by (by eapply fresh_ne_existing).
    rewrite decide_False by done. rewrite decide_False by done.
    by rewrite decide_True. }
  split; [by rewrite unlinked_inode, Hiod|]. split; [done|].
  assert (Hcount :
    count_dirs (renamed_state old_dir old_dentry new_dir new_name true st)
      (d_subdirs (unlinked old_dentry true xod))
    = count_dirs st (d_subdirs xod)).
  { change (d_subdirs (unlinked old_dentry true xod))
      with (filter (λ y, y ≠ old_dentry) (d_subdirs xod)).
    rewrite (count_dirs_ext st).
    - apply count_dirs_without. unfold is_positive_dir. by rewrite Hx, Hneg.
    - intros c Hc. apply list_elem_of_filter in Hc as [Hc _].
      by eapply renamed_positive_dir. }
  split; [exact Hcount|]. rewrite Hcount.
  unfold drop_nlink, set_nlink. cbn [i_nlink]. lia.
Qed.

Lemma rename_of_removed_directory_skews_link_count_witness :
  ∃ st' xod' iod',
    debugfs_rename None true 0 1 2 "y" held_removed_state = Some (PTR 1, st')
    ∧ dcache st' !! 0 = Some xod' ∧ d_inode xod' = Some iod'
    ∧ count_dirs st' (d_subdirs xod') = 1%Z
    ∧ i_nlink iod' = 2%Z.
Proof.
  assert (Hs : ∃ xod xnd x i iod,
            dcache held_removed_state !! 0 = Some xod
            ∧ d_inode xod = Some iod
            ∧ dcache held_removed_state !! 2 = Some xnd
            ∧ is_Some (d_inode xnd)
            ∧ dcache held_removed_state !! 1 = Some x
            ∧ d_inode x = Some i ∧ S_ISDIR (i_mode i) = true
            ∧ debugfs_positive x = false
            ∧ d_parent x = Some 0 ∧ d_mounted x = false
            ∧ d_subdirs xnd = []
            ∧ i_nlink iod
              = (2 + count_dirs held_removed_state (d_subdirs xod))%Z
            ∧ count_dirs held_removed_state (d_subdirs xod) = 1%Z).
  { do 5 eexists. split; [vm_compute; reflexivity|].
    split; [vm_compute; reflexivity|]. split; [vm_compute; reflexivity|].
    split; [vm_compute; eauto|]. split; [vm_compute; reflexivity|].
    split; [vm_compute; reflexivity|]. by vm_compute. }
  destruct Hs as (xod & xnd & x & i & iod & Hod & Hiod & Hnd & Hind & Hx & Hi
                  & Hdir & Hneg & Hpar & Hm & Hempty & Hlinks & Hone).
  assert (Hfree : ¬ has_positive_child held_removed_state 2 "y").
  { intros (p & c & y & Hp & Hc & _). rewrite Hnd in Hp.
    injection Hp as <-. rewrite Hempty in Hc. by apply elem_of_nil in Hc. }
  destruct (rename_of_removed_directory_skews_link_count None 0 1 2 "y"
              held_removed_state xod xnd x i iod Hod Hiod Hnd Hind Hx Hi Hdir
              Hneg Hpar ltac:(lia) ltac:(lia) ltac:(lia) Hm
              ltac:(discriminate) ltac:(intros t Ht; discriminate Ht) Hfree
              Hlinks)
    as (st' & xod' & iod' & H1 & H2 & H3 & _ & H5 & H6).
  exists st', xod', iod'. rewrite H5 in H6. rewrite H5, Hone.
  rewrite Hone in H6. repeat split; done.
Defined.

(** ** The parent's link count at a creation and at a removal *)

Definition creates_directory (c : creation) : bool :=
  match c with
  | create_dir _ => true
  | _ => false
  end.

(** Each creation function is [__create_file] with its own mode. *)
Lemma run_creation_create_file e c parent st d st' :
  run_creation e c parent st = Some (PTR d, st') →
  ∃ mode data fops,
    __create_file e (creation_name c) mode parent data fops st
    = Some (PTR d, st')
    ∧ S_ISDIR (node_mode mode) = creates_directory c.
Proof.
  intros Hrun.
  destruct c as [name m dt fo | name | name target]; simpl in Hrun.
  - unfold debugfs_create_file in Hrun.
    destruct ((Z.land m S_IFMT =? S_IFREG) || (Z.land m S_IFMT =? 0))%Z
      eqn:Hm; [|done].
    exists m, dt, fo. split; [done|].
    assert (node_mode m = Z.lor (Z.land m S_IALLUGO) S_IFREG) as ->.
    { unfold node_mode.
      apply orb_true_iff in Hm as [Hm|Hm]; apply Z.eqb_eq in Hm;
        by rewrite Hm. }
    apply mode_reg_node_mode.
  - unfold debugfs_create_dir in Hrun. do 3 eexists. split; [exact Hrun|].
    by vm_compute.
  - unfold debugfs_create_symlink in Hrun.
    destruct (kstrdup_ok e); [|done]. do 3 eexists. split; [exact Hrun|].
    by vm_compute.
Qed.

(** X22: a successful creation raises the link count of the parent by one
    exactly when the new node is a directory ([debugfs_mkdir] calls
    [inc_nlink] on the parent, [debugfs_create] and [debugfs_link] do not),
    and changes the link count of no other dentry that was there. *)
Theorem creation_raises_parent_link_count (e : env) (c : creation)
    (parent : dentry_ptr) (st : state) (d : nat) (st' : state) :
  run_creation e c parent st = Some (PTR d, st') →
  ∃ p,
    resolve_parent parent (snd (simple_pin_fs (attach e) st)) = Some p
    ∧ p ≠ d
    ∧ nlink_at st' p
      = (λ n, if creates_directory c then n + 1 else n)%Z <$> nlink_at st p
    ∧ ∀ y, y ≠ p → y ≠ d → nlink_at st' y = nlink_at st y.
Proof.
  intros Hrun.
  apply run_creation_create_file in Hrun as (mode & data & fops & Hcf & Hdir).
  apply create_file_created in Hcf
    as (pinned & p & px & i & Hpin & Hres & Hp & _ & Hg & -> & ->).
  rewrite <- (get_inode_mode _ _ _ _ _ Hg) in Hdir.
  pose proof (pin_eq_dcache _ _ _ _ Hpin) as Hdc.
  pose proof (fresh_ne_existing _ _ _ Hp) as Hne.
  exists p. rewrite Hpin. simpl. split; [done|]. split; [done|].
  unfold nlink_at, inode_of. split.
  - rewrite (created_state_lookup _ p px i pinned p Hp).
    rewrite decide_False, decide_True by done.
    rewrite <- Hdc, Hp. cbn [mbind option_bind].
    rewrite linked_inode, Hdir.
    destruct (creates_directory c), (d_inode px); done.
  - intros y Hy1 Hy2.
    rewrite (created_state_lookup _ p px i pinned y Hp).
    rewrite !decide_False by done. by rewrite Hdc.
Qed.

Lemma creation_raises_parent_link_count_witness :
  nlink_at one_file_state 0 = Some 2%Z
  ∧ ∃ d st',
      run_creation ok_env (create_dir "g") NULL one_file_state
      = Some (PTR d, st')
      ∧ nlink_at st' 0 = Some 3%Z.
Proof.
  split; [vm_compute; reflexivity|].
  assert (∃ d st', run_creation ok_env (create_dir "g") NULL one_file_state
                   = Some (PTR d, st')) as (d & st' & Hrun)
    by (do 2 eexists; vm_compute; reflexivity).
  exists d, st'. split; [exact Hrun|].
  destruct (creation_raises_parent_link_count ok_env (create_dir "g") NULL
              one_file_state d st' Hrun) as (p & Hres & _ & Hn & _).
  vm_compute in Hres. injection Hres as <-. rewrite Hn. by vm_compute.
Defined.

(** X23: [debugfs_remove] of a positive dentry that is not a directory with
    children leaves it negative and lowers the link count of its parent by
    one exactly when it is a directory ([simple_rmdir] calls [drop_nlink] on
    the parent, [simple_unlink] does not); the link count of no other dentry
    changes. *)
Theorem removal_lowers_parent_link_count (d p : nat) (x px : dentry)
    (i : inode) (st : state) :
  dcache st !! d = Some x → debugfs_positive x = true →
  d_inode x = Some i → d_parent x = Some p → d ≠ p →
  dcache st !! p = Some px → is_Some (d_inode px) →
  (S_ISDIR (i_mode i) = true → simple_empty d st = Some true) →
  ∃ st',
    debugfs_remove (PTR d) st = Some st'
    ∧ positive_at st' d = false
    ∧ nlink_at st' p
      = (λ n, if S_ISDIR (i_mode i) then n - 1 else n)%Z <$> nlink_at st p
    ∧ ∀ y, y ≠ p → y ≠ d → nlink_at st' y = nlink_at st y.
Proof.
  intros Hd Hpos Hi Hpar Hne Hp [ip Hip] Hempty.
  exists (simple_release_fs (removed_state d p (S_ISDIR (i_mode i)) st)).
  split.
  { unfold debugfs_remove. rewrite Hd. cbn [mbind option_bind].
    rewrite Hpar, Hp. cbn [mbind option_bind]. rewrite Hip.
    rewrite (debugfs_remove_positive d p x i st Hd Hpos Hi); [done| |done].
    unfold inode_of. rewrite Hp. simpl. eauto. }
  unfold positive_at, nlink_at, inode_of. rewrite release_dcache.
  split.
  { rewrite (removed_state_lookup d p _ st d Hne).
    rewrite decide_True, Hd by done.
    cbn [fmap option_fmap option_map]. unfold debugfs_positive. simpl.
    by destruct (d_inode x). }
  split.
  - rewrite (removed_state_lookup d p _ st p Hne).
    rewrite decide_False, decide_True by done.
    rewrite Hp. cbn [fmap option_fmap option_map mbind option_bind].
    rewrite unlinked_inode, Hip. by destruct (S_ISDIR (i_mode i)).
  - intros y Hy1 Hy2. rewrite (removed_state_lookup d p _ st y Hne).
    by rewrite !decide_False by done.
Qed.

Lemma removal_lowers_parent_link_count_witness :
  nlink_at two_dirs_state 0 = Some 4%Z
  ∧ ∃ st', debugfs_remove (PTR 1) two_dirs_state = Some st'
           ∧ positive_at st' 1 = false
           ∧ nlink_at st' 0 = Some 3%Z.
Proof.
  split; [vm_compute; reflexivity|].
  assert (Hs : ∃ x px i,
            dcache two_dirs_state !! 1 = Some x
            ∧ debugfs_positive x = true ∧ d_inode x = Some i
            ∧ d_parent x = Some 0
            ∧ dcache two_dirs_state !! 0 = Some px ∧ is_Some (d_inode px)
            ∧ simple_empty 1 two_dirs_state = Some true).
  { do 3 eexists. split; [vm_compute; reflexivity|].
    split; [reflexivity|]. split; [reflexivity|]. split; [reflexivity|].
    split; [vm_compute; reflexivity|]. split; [vm_compute; eauto|].
    vm_compute. reflexivity. }
  destruct Hs as (x & px & i & Hx & Hpos & Hi & Hpar & Hp & Hip & Hempty).
  destruct (removal_lowers_parent_link_count 1 0 x px i two_dirs_state
              Hx Hpos Hi Hpar ltac:(lia) Hp Hip (λ _, Hempty))
    as (st' & Hrun & Hneg & Hn & _).
  exists st'. split; [exact Hrun|]. split; [exact Hneg|].
  rewrite Hn. vm_compute in Hx. injection Hx as <-.
  vm_compute in Hi. injection Hi as <-. by vm_compute.
Defined.
